(** * Sign-language recognition core: static pose classifier, motion
      detectors and stabilizer

    A shallow embedding of the [useSignLanguage] hook in its two variants:
    the motion-mode hook (letters and the eight dynamic gestures) and the
    older static hook (letters only).

    Numbers.  JavaScript numbers are modelled by the real numbers [R]:
    [Math.sqrt] is [sqrt], [Math.abs] is [Rabs], [Math.atan2] is built from
    [atan].  Rounding, NaN, infinities and signed zeros are outside the
    model.  Millisecond time stamps ([Date.now()]) are integers [Z]; frame
    counters are [nat].

    Landmarks.  A hand is the array of 21 points delivered by the tracker.
    It is a [list] here and [l @ i] reads index [i].  Every index read by
    the code is at most 20, so on an array of 21 landmarks no read is out
    of range; on a shorter array the source reads [undefined] and throws on
    the first field access, which the model does not follow: what is proved
    of the classifier is meant for arrays of 21 landmarks.

    State.  The refs of the hook, the module-level face state and the React
    state it sets are the fields of a record; one call of [onResults] is a
    function from the record before the call to the record after it.
    Drawing and logging are left out. *)

From Stdlib Require Import Reals Lra Lia ZArith List String Ascii Bool.
Import ListNotations.

Open Scope R_scope.

(** ** Numbers and comparisons *)

Definition Rltb (a b : R) : bool := if Rlt_dec a b then true else false.
Definition Rleb (a b : R) : bool := if Rle_dec a b then true else false.
Definition Rneqb (a b : R) : bool := if Req_dec_T a b then false else true.

Declare Scope js_scope.
Delimit Scope js_scope with js.
Notation "a <? b" := (Rltb a b) (at level 70) : js_scope.
Notation "a >? b" := (Rltb b a) (at level 70) : js_scope.
Notation "a <=? b" := (Rleb a b) (at level 70) : js_scope.
Notation "a >=? b" := (Rleb b a) (at level 70) : js_scope.
Notation "a !== b" := (Rneqb a b) (at level 70) : js_scope.
Open Scope js_scope.

(** ** Points and landmark arrays *)

Module Pt.
Record t : Type := mk { x : R; y : R }.
End Pt.

(** A landmark carries [x], [y] and [z]; the code never reads [z]. *)
Definition Landmark : Type := Pt.t.
Definition Landmarks : Type := list Landmark.

Definition lm_at (l : Landmarks) (i : nat) : Landmark := nth i l (Pt.mk 0 0).
Notation "l @ i" := (lm_at l i) (at level 9, i at level 9, format "l @ i").

Definition WRIST : nat := 0.
Definition THUMB_TIP : nat := 4.
Definition THUMB_MCP : nat := 2.
Definition INDEX_MCP : nat := 5.
Definition INDEX_PIP : nat := 6.
Definition INDEX_TIP : nat := 8.
Definition MIDDLE_MCP : nat := 9.
Definition MIDDLE_PIP : nat := 10.
Definition MIDDLE_TIP : nat := 12.
Definition RING_PIP : nat := 14.
Definition RING_TIP : nat := 16.
Definition PINKY_PIP : nat := 18.
Definition PINKY_TIP : nat := 20.

(** The expression
    [Math.sqrt(Math.pow(p.x - q.x, 2) + Math.pow(p.y - q.y, 2))],
    written out at every use in the source. *)
Definition dist (p q : Pt.t) : R :=
  sqrt ((Pt.x p - Pt.x q) ^ 2 + (Pt.y p - Pt.y q) ^ 2).

(** ** Finger-state extractor (the same text in both variants) *)

Definition isFingerExtended (landmarks : Landmarks) (tipIdx pipIdx : nat) : bool :=
  let wrist := landmarks@WRIST in
  let tip := landmarks@tipIdx in
  let pip := landmarks@pipIdx in
  let tipDist := dist tip wrist in
  let pipDist := dist pip wrist in
  tipDist >? pipDist * 1.1.

Definition isThumbExtended (landmarks : Landmarks) : bool :=
  let thumbTip := landmarks@THUMB_TIP in
  let wrist := landmarks@WRIST in
  let indexMcp := landmarks@5 in
  let tipDist := dist thumbTip wrist in
  let refDist := dist indexMcp wrist in
  tipDist >? refDist * 1.2.

Record FingerStates : Type := mkFingers {
  thumb : bool;
  index : bool;
  middle : bool;
  ring : bool;
  pinky : bool
}.

Definition getFingerStates (landmarks : Landmarks) : FingerStates :=
  {| thumb := isThumbExtended landmarks;
     index := isFingerExtended landmarks INDEX_TIP INDEX_PIP;
     middle := isFingerExtended landmarks MIDDLE_TIP MIDDLE_PIP;
     ring := isFingerExtended landmarks RING_TIP RING_PIP;
     pinky := isFingerExtended landmarks PINKY_TIP PINKY_PIP |}.

(** [[thumb, index, middle, ring, pinky].filter(Boolean).length] *)
Definition extendedCount (f : FingerStates) : nat :=
  List.length (filter (fun b : bool => b) [thumb f; index f; middle f; ring f; pinky f]).

(** ** Classification results and rule chains *)

Record Classification : Type := mkClass {
  letter : option string;
  confidence : R
}.

Definition noMatch : Classification := {| letter := None; confidence := 0 |}.

(** One [if (...) { ...; return {letter, confidence}; }] block of
    [recognizeASL]: it either returns or falls through to the next block. *)
Definition Rule : Type := Landmarks -> FingerStates -> option Classification.

Definition ret (c : string) (conf : R) : option Classification :=
  Some {| letter := Some c; confidence := conf |}.

(** [when b r]: [if (b) return r;], falling through otherwise. *)
Definition when (b : bool) (r : option Classification) : option Classification :=
  if b then r else None.

(** The blocks in sequence; the last statement is
    [return { letter: null, confidence: 0 }]. *)
Fixpoint firstMatch (rules : list Rule) (l : Landmarks) (f : FingerStates)
  : Classification :=
  match rules with
  | [] => noMatch
  | r :: rest =>
      match r l f with
      | Some c => c
      | None => firstMatch rest l f
      end
  end.

(** [Math.max] and [Math.min] of the five tip-to-wrist distances. *)
Definition max5 (a b c d e : R) : R := Rmax a (Rmax b (Rmax c (Rmax d e))).
Definition min5 (a b c d e : R) : R := Rmin a (Rmin b (Rmin c (Rmin d e))).

(** ** Array and string helpers *)

(** [a.slice(-n)]: the last [n] elements, all of them when there are fewer. *)
Definition lastN {A : Type} (n : nat) (a : list A) : list A :=
  skipn (List.length a - n) a.

(** [s.endsWith(suffix)] *)
Fixpoint endsWith (s suffix : string) : bool :=
  (s =? suffix)%string
  || match s with
     | EmptyString => false
     | String _ rest => endsWith rest suffix
     end.

(** ** Stabilizer state shared by the two hooks *)

(** [handDetectedFramesRef], [handLostFramesRef], [isHandStableRef]. *)
Record Presence : Type := mkPresence {
  handDetectedFrames : nat;
  handLostFrames : nat;
  isHandStable : bool
}.

(** [detectionHistoryRef], [lastDetectionTimeRef] and the [detectedText]
    state. *)
Record LetterStream : Type := mkLetterStream {
  detectionHistory : list string;
  lastDetectionTime : Z;
  detectedText : string
}.

Record DetectionResult : Type := mkDetectionResult {
  dr_letter : option string;
  dr_confidence : R;
  handDetected : bool
}.

(** The first statements of [onResults], the same in both hooks:
    count the frame, then settle [isHandStableRef]. *)
Definition countFrame (hasHands : bool) (p : Presence) : Presence :=
  if hasHands
  then {| handDetectedFrames := S (handDetectedFrames p);
          handLostFrames := 0;
          isHandStable := isHandStable p |}
  else {| handDetectedFrames := 0;
          handLostFrames := S (handLostFrames p);
          isHandStable := isHandStable p |}.

Definition settle (p : Presence) : Presence :=
  let stable1 := if (3 <=? handDetectedFrames p)%nat then true else isHandStable p in
  let stable2 := if (5 <=? handLostFrames p)%nat then false else stable1 in
  {| handDetectedFrames := handDetectedFrames p;
     handLostFrames := handLostFrames p;
     isHandStable := stable2 |}.

(** The letter stream, the same text in both hooks: from
    [const now = Date.now()] to the end of the hand branch.  [letter &&]
    is JavaScript truthiness: neither [null] nor the empty string. *)
Definition commitLetter (letter : option string) (confidence : R) (now : Z)
    (s : LetterStream) : LetterStream :=
  match letter with
  | None => s
  | Some l =>
      if negb (l =? "")%string && (confidence >? 0.7)
         && (now - lastDetectionTime s >? 1200)%Z
      then
        let pushed := detectionHistory s ++ [l] in
        let history := if (4 <? List.length pushed)%nat then tl pushed else pushed in
        let recentDetections := lastN 2 history in
        let isStable := forallb (fun d => (d =? l)%string) recentDetections in
        if isStable
        then {| detectionHistory := [];
                lastDetectionTime := now;
                detectedText :=
                  let prev := detectedText s in
                  if endsWith prev l then prev else (prev ++ l)%string |}
        else {| detectionHistory := history;
                lastDetectionTime := lastDetectionTime s;
                detectedText := detectedText s |}
      else s
  end.

(** ** Static pose classifier, motion-mode variant *)

Module Motion.

(** Letter E: no finger extended and the thumb tucked in. *)
Definition letterE : Rule := fun landmarks f =>
  when (Nat.eqb (extendedCount f) 0)
    (let thumbTip := landmarks@THUMB_TIP in
     let wrist := landmarks@WRIST in
     let indexMcp := landmarks@5 in
     let thumbDist := dist thumbTip wrist in
     let refDist := dist indexMcp wrist in
     when (thumbDist <? refDist * 0.7) (ret "E" 0.9)).

(** The finger state shared by the O, T, A and S blocks:
    [!index && !middle && !ring && !pinky && thumb]. *)
Definition onlyThumb (f : FingerStates) : bool :=
  negb (index f) && negb (middle f) && negb (ring f) && negb (pinky f) && thumb f.

Definition letterO : Rule := fun landmarks f =>
  when (onlyThumb f)
    (let thumbTip := landmarks@THUMB_TIP in
     let indexTip := landmarks@INDEX_TIP in
     let dist := dist thumbTip indexTip in
     when (dist <? 0.12) (ret "O" 0.85)).

Definition letterT : Rule := fun landmarks f =>
  when (onlyThumb f)
    (let thumbTip := landmarks@THUMB_TIP in
     let indexPip := landmarks@INDEX_PIP in
     let middlePip := landmarks@MIDDLE_PIP in
     let distIndex := dist thumbTip indexPip in
     let distMiddle := dist thumbTip middlePip in
     when ((distIndex <? 0.12) && (distMiddle <? 0.12)) (ret "T" 0.8)).

Definition letterA : Rule := fun landmarks f =>
  when (onlyThumb f)
    (let thumbTip := landmarks@THUMB_TIP in
     let indexTip := landmarks@INDEX_TIP in
     let dist := dist thumbTip indexTip in
     when (dist >=? 0.12) (ret "A" 0.9)).

Definition letterB : Rule := fun _ f =>
  when (index f && middle f && ring f && pinky f && negb (thumb f)) (ret "B" 0.9).

(** Letter C: the block has no finger-state condition at all. *)
Definition letterC : Rule := fun landmarks _ =>
  let wrist := landmarks@WRIST in
  let thumbTip := landmarks@THUMB_TIP in
  let indexTip := landmarks@INDEX_TIP in
  let middleTip := landmarks@MIDDLE_TIP in
  let ringTip := landmarks@RING_TIP in
  let pinkyTip := landmarks@PINKY_TIP in
  let thumbDist := dist thumbTip wrist in
  let indexDist := dist indexTip wrist in
  let middleDist := dist middleTip wrist in
  let ringDist := dist ringTip wrist in
  let pinkyDist := dist pinkyTip wrist in
  let maxDist := max5 thumbDist indexDist middleDist ringDist pinkyDist in
  let minDist := min5 thumbDist indexDist middleDist ringDist pinkyDist in
  when ((maxDist - minDist <? 0.15) && (maxDist <? 0.5) && (maxDist >? 0.15))
    (when ((indexDist >? 0.2) && (middleDist >? 0.2) && (ringDist >? 0.2)
           && (pinkyDist >? 0.2))
       (ret "C" 0.8)).

Definition letterM : Rule := fun _ f =>
  when (index f && middle f && ring f && negb (pinky f) && negb (thumb f))
    (ret "M" 0.75).

Definition letterS : Rule := fun _ f =>
  when (onlyThumb f) (ret "S" 0.85).

Definition letterD : Rule := fun landmarks f =>
  when (index f && negb (middle f) && negb (ring f) && negb (pinky f) && negb (thumb f))
    (let indexTip := landmarks@INDEX_TIP in
     let indexMcp := landmarks@INDEX_MCP in
     let indexUp := Pt.y indexTip <? Pt.y indexMcp in
     let indexStraight :=
       Rabs (Pt.x indexTip - Pt.x indexMcp) <? Rabs (Pt.y indexTip - Pt.y indexMcp) in
     when (indexUp && indexStraight) (ret "D" 0.9)).

Definition letterF : Rule := fun landmarks f =>
  when (middle f && ring f && pinky f)
    (let thumbTip := landmarks@THUMB_TIP in
     let indexTip := landmarks@INDEX_TIP in
     let dist := dist thumbTip indexTip in
     when (dist <? 0.15) (ret "F" 0.8)).

(** The finger state shared by the U, R, H, V and N blocks:
    [index && middle && !ring && !pinky && !thumb]. *)
Definition twoUp (f : FingerStates) : bool :=
  index f && middle f && negb (ring f) && negb (pinky f) && negb (thumb f).

Definition letterU : Rule := fun landmarks f =>
  when (twoUp f)
    (let indexTip := landmarks@INDEX_TIP in
     let middleTip := landmarks@MIDDLE_TIP in
     let indexPip := landmarks@INDEX_PIP in
     let middlePip := landmarks@MIDDLE_PIP in
     let indexUp := Pt.y indexTip <? Pt.y indexPip in
     let middleUp := Pt.y middleTip <? Pt.y middlePip in
     when (indexUp && middleUp)
       (let dist := dist indexTip middleTip in
        when (dist <? 0.06) (ret "U" 0.85))).

Definition letterR : Rule := fun landmarks f =>
  when (twoUp f)
    (let indexTip := landmarks@INDEX_TIP in
     let middleTip := landmarks@MIDDLE_TIP in
     let indexPip := landmarks@INDEX_PIP in
     let middlePip := landmarks@MIDDLE_PIP in
     let tipDist := dist indexTip middleTip in
     let pipDist := dist indexPip middlePip in
     let indexUp := Pt.y indexTip <? Pt.y indexPip in
     let middleUp := Pt.y middleTip <? Pt.y middlePip in
     let indexMcp := landmarks@INDEX_MCP in
     let middleMcp := landmarks@MIDDLE_MCP in
     let indexVertical :=
       Rabs (Pt.y indexTip - Pt.y indexMcp) >? Rabs (Pt.x indexTip - Pt.x indexMcp) in
     let middleVertical :=
       Rabs (Pt.y middleTip - Pt.y middleMcp) >? Rabs (Pt.x middleTip - Pt.x middleMcp) in
     when ((tipDist <? pipDist * 0.8) && (negb indexUp || negb middleUp)
           && (indexVertical || middleVertical))
       (ret "R" 0.85)).

Definition letterH : Rule := fun landmarks f =>
  when (twoUp f)
    (let indexTip := landmarks@INDEX_TIP in
     let middleTip := landmarks@MIDDLE_TIP in
     let indexMcp := landmarks@INDEX_MCP in
     let middleMcp := landmarks@MIDDLE_MCP in
     let indexHorizontal :=
       Rabs (Pt.x indexTip - Pt.x indexMcp) >? Rabs (Pt.y indexTip - Pt.y indexMcp) * 1.2 in
     let middleHorizontal :=
       Rabs (Pt.x middleTip - Pt.x middleMcp) >? Rabs (Pt.y middleTip - Pt.y middleMcp) * 1.2 in
     let dist := dist indexTip middleTip in
     when (indexHorizontal && middleHorizontal && (dist <? 0.08)) (ret "H" 0.85)).

Definition letterG : Rule := fun landmarks f =>
  when (index f && negb (middle f) && negb (ring f) && negb (pinky f) && thumb f)
    (let indexTip := landmarks@INDEX_TIP in
     let indexMcp := landmarks@INDEX_MCP in
     let horizontal :=
       Rabs (Pt.x indexTip - Pt.x indexMcp) >? Rabs (Pt.y indexTip - Pt.y indexMcp) in
     when horizontal (ret "G" 0.8)).

Definition letterI : Rule := fun _ f =>
  when (negb (index f) && negb (middle f) && negb (ring f) && pinky f && negb (thumb f))
    (ret "I" 0.9).

Definition letterJ : Rule := fun _ f =>
  when (index f && negb (middle f) && negb (ring f) && pinky f && thumb f)
    (ret "J" 0.8).

Definition letterL : Rule := fun _ f =>
  when (thumb f && index f && negb (middle f) && negb (ring f) && negb (pinky f))
    (ret "L" 0.9).

Definition letterY : Rule := fun _ f =>
  when (thumb f && negb (index f) && negb (middle f) && negb (ring f) && pinky f)
    (ret "Y" 0.9).

Definition letterP : Rule := fun landmarks f =>
  when (index f && middle f && negb (ring f) && negb (pinky f) && thumb f)
    (let indexTip := landmarks@INDEX_TIP in
     let indexMcp := landmarks@INDEX_MCP in
     let pointingDown := Pt.y indexTip >? Pt.y indexMcp + 0.05 in
     when pointingDown (ret "P" 0.8)).

Definition letterQ : Rule := fun landmarks f =>
  when (index f && negb (middle f) && negb (ring f) && negb (pinky f) && thumb f)
    (let indexTip := landmarks@INDEX_TIP in
     let indexMcp := landmarks@INDEX_MCP in
     let pointingDown := Pt.y indexTip >? Pt.y indexMcp + 0.05 in
     when pointingDown (ret "Q" 0.8)).

Definition letterK : Rule := fun _ f =>
  when (index f && middle f && negb (ring f) && negb (pinky f) && thumb f)
    (ret "K" 0.85).

Definition letterV : Rule := fun landmarks f =>
  when (twoUp f)
    (let indexTip := landmarks@INDEX_TIP in
     let middleTip := landmarks@MIDDLE_TIP in
     let dist := dist indexTip middleTip in
     when (dist >? 0.05) (ret "V" 0.9)).

Definition letterN : Rule := fun _ f =>
  when (twoUp f) (ret "N" 0.75).

Definition letterW : Rule := fun _ f =>
  when (index f && middle f && ring f && negb (pinky f)) (ret "W" 0.9).

Definition letterX : Rule := fun landmarks f =>
  when (negb (index f) && negb (middle f) && negb (ring f) && negb (pinky f)
        && negb (thumb f))
    (let indexTip := landmarks@INDEX_TIP in
     let indexPip := landmarks@INDEX_PIP in
     let indexMcp := landmarks@INDEX_MCP in
     let wrist := landmarks@WRIST in
     let tipDist := dist indexTip wrist in
     let pipDist := dist indexPip wrist in
     let mcpDist := dist indexMcp wrist in
     when ((tipDist <? pipDist) && (tipDist >? mcpDist)) (ret "X" 0.8)).

Definition letterZ : Rule := fun landmarks f =>
  when (index f && negb (middle f) && negb (ring f) && negb (pinky f) && negb (thumb f))
    (let indexTip := landmarks@INDEX_TIP in
     let indexMcp := landmarks@INDEX_MCP in
     let indexUp := Pt.y indexTip <? Pt.y indexMcp in
     let indexDiagonal :=
       Rabs (Pt.x indexTip - Pt.x indexMcp) >? Rabs (Pt.y indexTip - Pt.y indexMcp) * 0.5 in
     when (indexUp && indexDiagonal) (ret "Z" 0.7)).

(** The blocks before the first K block, in source order. *)
Definition rulesBeforeK : list Rule :=
  [letterE; letterO; letterT; letterA; letterB; letterC; letterM; letterS;
   letterD; letterF; letterU; letterR; letterH; letterG; letterI; letterJ;
   letterL; letterY; letterP; letterQ].

(** The blocks after the second V block. *)
Definition rulesAfterV : list Rule := [letterN; letterW; letterX; letterZ].

(** [recognizeASL] as written: the K block and the V block each occur
    twice, K, V, K, V. *)
Definition rules : list Rule :=
  rulesBeforeK ++ [letterK; letterV; letterK; letterV] ++ rulesAfterV.

Definition recognizeASL (landmarks : Landmarks) : Classification :=
  let fingers := getFingerStates landmarks in
  firstMatch rules landmarks fingers.

(** The classifier with the second K block and the second V block removed;
    compared with [recognizeASL] below. *)
Definition rules_dedup : list Rule :=
  rulesBeforeK ++ [letterK; letterV] ++ rulesAfterV.

Definition recognizeASL_dedup (landmarks : Landmarks) : Classification :=
  let fingers := getFingerStates landmarks in
  firstMatch rules_dedup landmarks fingers.


(** ** Motion frames and gesture detectors *)

(** [faceLandmarks] is declared optional and never written nor read. *)
Record MotionFrame : Type := mkFrame {
  timestamp : Z;
  handCenter : Pt.t;
  handShape : string;
  landmarks : Landmarks
}.

Inductive GestureType : Type :=
  hello | yes | no | thank_you | please | help | love | sorry.

Record MotionPattern : Type := mkPattern {
  type : GestureType;
  detected : bool;
  p_confidence : R
}.

(** The module-level [faceDetectionState]. *)
Record FaceDetectionState : Type := mkFace {
  chinDetected : bool;
  chinPosition : option Pt.t
}.

Definition frame_at (frames : list MotionFrame) (i : nat) : MotionFrame :=
  nth i frames (mkFrame 0 (Pt.mk 0 0) "" []).

Definition getHandCenter (lms : Landmarks) : Pt.t :=
  let x := fold_left (fun acc p => acc + Pt.x p) lms 0 in
  let y := fold_left (fun acc p => acc + Pt.y p) lms 0 in
  Pt.mk (x / INR (List.length lms)) (y / INR (List.length lms)).

(** [Math.atan2(y, x)] *)
Definition atan2 (y x : R) : R :=
  if 0 <? x then atan (y / x)
  else if x <? 0 then (if 0 <=? y then atan (y / x) + PI else atan (y / x) - PI)
  else if 0 <? y then PI / 2
  else if y <? 0 then - PI / 2
  else 0.

(** [Math.sign] *)
Definition sign (r : R) : R :=
  if 0 <? r then 1 else if r <? 0 then -1 else 0.

(** The two [while] loops that bring an angle difference back into
    [[-PI, PI]].  A difference of two [atan2] values lies within
    [[-2 PI, 2 PI]], so each loop runs at most once. *)
Definition normalizeAngle (angleDiff : R) : R :=
  let a := if angleDiff >? PI then angleDiff - 2 * PI else angleDiff in
  if a <? - PI then a + 2 * PI else a.

(** [thumb && index && middle && ring && pinky] on a frame's landmarks. *)
Definition isFlatHandFrame (firstFrame : MotionFrame) : bool :=
  let f := getFingerStates (landmarks firstFrame) in
  thumb f && index f && middle f && ring f && pinky f.

(** [thumb && !index && !middle && !ring && !pinky] on a frame's landmarks. *)
Definition isFistFrame (firstFrame : MotionFrame) : bool :=
  let f := getFingerStates (landmarks firstFrame) in
  thumb f && negb (index f) && negb (middle f) && negb (ring f) && negb (pinky f).

Definition detectWaveMotion (frames : list MotionFrame) : option MotionPattern :=
  if (List.length frames <? 8)%nat then None else
  let recentFrames := lastN 8 frames in
  let handCenters := map handCenter recentFrames in
  let startY := Pt.y handCenters@0 in
  let startX := Pt.x handCenters@0 in
  let endX := Pt.x handCenters@(List.length handCenters - 1) in
  let startedAtForehead := startY <? 0.4 in
  let movedForward := endX <? startX - 0.05 in
  let movedOutward := Rabs (endX - startX) >? 0.08 in
  if startedAtForehead && (movedForward || movedOutward)
  then Some {| type := hello; detected := true; p_confidence := 0.8 |}
  else None.

Definition detectThankYouMotion (face : FaceDetectionState)
    (frames : list MotionFrame) : option MotionPattern :=
  if (List.length frames <? 6)%nat then None else
  let recentFrames := lastN 6 frames in
  let handCenters := map handCenter recentFrames in
  let startY := Pt.y handCenters@0 in
  let startX := Pt.x handCenters@0 in
  let endX := Pt.x handCenters@(List.length handCenters - 1) in
  let firstFrame := frame_at recentFrames 0 in
  let isFlatHand := isFlatHandFrame firstFrame in
  let startedAtChin :=
    chinDetected face
    && match chinPosition face with
       | Some chin => Rabs (startY - Pt.y chin) <? 0.15
       | None => false
       end in
  let movedForward := endX <? startX - 0.06 in
  if startedAtChin && movedForward && isFlatHand
  then Some {| type := thank_you; detected := true; p_confidence := 0.9 |}
  else if isFlatHand && (startY >=? 0.4) && (startY <=? 0.7) && movedForward
  then Some {| type := thank_you; detected := true; p_confidence := 0.8 |}
  else None.

(** [handCenters.reduce((sum, c) => sum + c.y, 0) / handCenters.length] *)
Definition averageY (handCenters : list Pt.t) : R :=
  fold_left (fun sum c => sum + Pt.y c) handCenters 0 / INR (List.length handCenters).

Definition averageX (handCenters : list Pt.t) : R :=
  fold_left (fun sum c => sum + Pt.x c) handCenters 0 / INR (List.length handCenters).

Definition detectPleaseMotion (frames : list MotionFrame) : option MotionPattern :=
  if (List.length frames <? 10)%nat then None else
  let recentFrames := lastN 10 frames in
  let handCenters := map handCenter recentFrames in
  let firstFrame := frame_at recentFrames 0 in
  let isFlatHand := isFlatHandFrame firstFrame in
  let startY := Pt.y handCenters@0 in
  let avgY := averageY handCenters in
  let startedAtChest := (startY >=? 0.35) && (startY <=? 0.65) in
  let stayedAtChest := (avgY >=? 0.35) && (avgY <=? 0.65) in
  let '(totalAngleChange, directionConsistency) :=
    fold_left
      (fun (acc : R * nat) (i : nat) =>
         let '(total, consistency) := acc in
         let prevAngle :=
           atan2 (Pt.y handCenters@(i - 1) - Pt.y handCenters@0)
                 (Pt.x handCenters@(i - 1) - Pt.x handCenters@0) in
         let currAngle :=
           atan2 (Pt.y handCenters@i - Pt.y handCenters@0)
                 (Pt.x handCenters@i - Pt.x handCenters@0) in
         let angleDiff := normalizeAngle (currAngle - prevAngle) in
         (total + Rabs angleDiff,
          if Rabs angleDiff >? 0.1 then S consistency else consistency))
      (seq 1 (List.length handCenters - 1)) (0, 0%nat) in
  let isCircularMotion :=
    (totalAngleChange >? PI * 0.75) && (6 <=? directionConsistency)%nat in
  if isFlatHand && startedAtChest && stayedAtChest && isCircularMotion
  then Some {| type := please; detected := true; p_confidence := 0.85 |}
  else None.

Definition detectHelpMotion (frames : list MotionFrame) : option MotionPattern :=
  if (List.length frames <? 6)%nat then None else
  let recentFrames := lastN 6 frames in
  let handCenters := map handCenter recentFrames in
  let firstFrame := frame_at recentFrames 0 in
  let startY := Pt.y handCenters@0 in
  let endY := Pt.y handCenters@(List.length handCenters - 1) in
  let movedUp := endY <? startY - 0.1 in
  let isFlatHand := isFlatHandFrame firstFrame in
  if isFlatHand && movedUp
  then Some {| type := help; detected := true; p_confidence := 0.7 |}
  else None.

Definition detectLoveMotion (frames : list MotionFrame) : option MotionPattern :=
  if (List.length frames <? 4)%nat then None else
  let recentFrames := lastN 4 frames in
  let handCenters := map handCenter recentFrames in
  let centerX := averageX handCenters in
  let centerY := averageY handCenters in
  let atChestLevel := (centerY >=? 0.4) && (centerY <=? 0.7) in
  let crossingMotion :=
    existsb
      (fun i =>
         let prevDist := Rabs (Pt.x handCenters@(i - 1) - centerX) in
         let currDist := Rabs (Pt.x handCenters@i - centerX) in
         currDist <? prevDist - 0.05)
      (seq 1 (List.length handCenters - 1)) in
  if atChestLevel && crossingMotion
  then Some {| type := love; detected := true; p_confidence := 0.7 |}
  else None.

Definition detectSorryMotion (frames : list MotionFrame) : option MotionPattern :=
  if (List.length frames <? 8)%nat then None else
  let recentFrames := lastN 8 frames in
  let handCenters := map handCenter recentFrames in
  let firstFrame := frame_at recentFrames 0 in
  let isFist := isFistFrame firstFrame in
  let centerY := averageY handCenters in
  let atChestLevel := (centerY >=? 0.4) && (centerY <=? 0.7) in
  let '(totalAngleChange, smallCircularMotion) :=
    fold_left
      (fun (acc : R * nat) (i : nat) =>
         let '(total, small) := acc in
         let prevAngle :=
           atan2 (Pt.y handCenters@(i - 1) - centerY)
                 (Pt.x handCenters@(i - 1) - Pt.x handCenters@0) in
         let currAngle :=
           atan2 (Pt.y handCenters@i - centerY)
                 (Pt.x handCenters@i - Pt.x handCenters@0) in
         let angleDiff := normalizeAngle (currAngle - prevAngle) in
         (total + Rabs angleDiff,
          if (Rabs angleDiff >? 0.05) && (Rabs angleDiff <? 0.3)
          then S small else small))
      (seq 1 (List.length handCenters - 1)) (0, 0%nat) in
  let isCircularMotion :=
    (totalAngleChange >? PI / 3) && (totalAngleChange <? PI)
    && (4 <=? smallCircularMotion)%nat in
  if isFist && atChestLevel && isCircularMotion
  then Some {| type := sorry; detected := true; p_confidence := 0.85 |}
  else None.

Definition detectYesMotion (frames : list MotionFrame) : option MotionPattern :=
  if (List.length frames <? 10)%nat then None else
  let recentFrames := lastN 10 frames in
  let handCenters := map handCenter recentFrames in
  let firstFrame := frame_at recentFrames 0 in
  let isFist := isFistFrame firstFrame in
  let '(directionChanges, prevDirection, totalMovement) :=
    fold_left
      (fun (acc : nat * R * R) (i : nat) =>
         let '(changes, prevDirection, total) := acc in
         let direction := Pt.y handCenters@i - Pt.y handCenters@(i - 1) in
         (if (prevDirection !== 0) && (sign direction !== sign prevDirection)
          then S changes else changes,
          direction,
          total + Rabs direction))
      (seq 1 (List.length handCenters - 1)) (0%nat, 0, 0) in
  if isFist && (2 <=? directionChanges)%nat && (totalMovement >? 0.1)
  then Some {| type := yes; detected := true; p_confidence := 0.8 |}
  else None.

Definition detectNoMotion (frames : list MotionFrame) : option MotionPattern :=
  if (List.length frames <? 3)%nat then None else
  let recentFrames := lastN 3 frames in
  let detectedCount :=
    List.length
      (filter
         (fun frame =>
            let f := getFingerStates (landmarks frame) in
            thumb f && index f && middle f && negb (ring f) && negb (pinky f))
         recentFrames) in
  if (2 <=? detectedCount)%nat
  then Some {| type := no; detected := true; p_confidence := 0.8 |}
  else None.

(** ** The motion-mode hook: [onResults] *)

Record MotionDetectionResult : Type := mkMotionResult {
  gesture : option string;
  m_confidence : R;
  motionDetected : bool
}.

Inductive Mode : Type := static | motion.

(** The refs, the module-level face state and the React state written by
    [onResults]. *)
Record State : Type := mkState {
  presence : Presence;
  motionFrames : list MotionFrame;
  lastMotionTime : Z;
  faceDetectionState : FaceDetectionState;
  letters : LetterStream;
  detectionResult : DetectionResult;
  motionDetectionResult : MotionDetectionResult
}.

(** What one call of [onResults] reads from outside: the hand result, the
    face result last stored in [faceResultsRef] (an absent result or an
    absent array is the empty list) and the two readings of [Date.now()]. *)
Record Tick : Type := mkTick {
  multiHandLandmarks : list Landmarks;
  multiFaceLandmarks : list Landmarks;
  motionNow : Z;
  now : Z
}.

Definition initialState : State :=
  {| presence := {| handDetectedFrames := 0; handLostFrames := 0; isHandStable := false |};
     motionFrames := [];
     lastMotionTime := 0;
     faceDetectionState := {| chinDetected := false; chinPosition := Some (Pt.mk 0 0) |};
     letters := {| detectionHistory := []; lastDetectionTime := 0; detectedText := "" |};
     detectionResult := {| dr_letter := None; dr_confidence := 0; handDetected := false |};
     motionDetectionResult := {| gesture := None; m_confidence := 0; motionDetected := false |} |}.

(** [motionFramesRef.current.push(motionFrame)] followed by the [shift()]
    that keeps the last 20 frames. *)
Definition pushFrame (frames : list MotionFrame) (motionFrame : MotionFrame)
  : list MotionFrame :=
  let pushed := frames ++ [motionFrame] in
  if (20 <? List.length pushed)%nat then tl pushed else pushed.

(** [pattern && pattern.detected], also [pattern?.detected]. *)
Definition fired (pattern : option MotionPattern) : bool :=
  match pattern with
  | Some p => detected p
  | None => false
  end.

(** [pattern.confidence], read only in a branch where [pattern] fired. *)
Definition conf (pattern : option MotionPattern) : R :=
  match pattern with
  | Some p => p_confidence p
  | None => 0
  end.

(** The [if / else if] chain over the eight patterns.  [Some (g, c)] is a
    branch that reports gesture [g] with confidence [c]; [None] is the
    final [else]. *)
Definition arbitrate
    (wavePattern thankYouPattern pleasePattern helpPattern lovePattern
       sorryPattern yesPattern noPattern : option MotionPattern)
  : option (string * R) :=
  if fired wavePattern then Some ("HELLO"%string, conf wavePattern)
  else if fired thankYouPattern then Some ("THANK YOU"%string, conf thankYouPattern)
  else if fired pleasePattern then Some ("PLEASE"%string, conf pleasePattern)
  else if fired helpPattern then Some ("HELP"%string, conf helpPattern)
  else if fired lovePattern then Some ("LOVE"%string, conf lovePattern)
  else if fired sorryPattern && negb (fired pleasePattern)
    then Some ("SORRY"%string, conf sorryPattern)
  else if fired yesPattern && negb (fired thankYouPattern)
    then Some ("YES"%string, conf yesPattern)
  else if fired noPattern then Some ("NO"%string, conf noPattern)
  else None.

(** One detection cycle: the eight detectors on the buffer, then the
    chain. *)
Definition gestureCycle (face : FaceDetectionState) (frames : list MotionFrame)
  : option (string * R) :=
  arbitrate (detectWaveMotion frames) (detectThankYouMotion face frames)
    (detectPleaseMotion frames) (detectHelpMotion frames)
    (detectLoveMotion frames) (detectSorryMotion frames)
    (detectYesMotion frames) (detectNoMotion frames).

(** [results.multiHandLandmarks && results.multiHandLandmarks.length > 0] *)
Definition hasHands (t : Tick) : bool :=
  (0 <? List.length (multiHandLandmarks t))%nat.

(** The guard of the detection cycle:
    [motionNow - lastMotionTimeRef.current > 2000] in a frame with a hand. *)
Definition runsDetectors (s : State) (t : Tick) : bool :=
  hasHands t && (motionNow t - lastMotionTime s >? 2000)%Z.

(** [letter || 'unknown'] *)
Definition shapeOf (letter : option string) : string :=
  match letter with
  | Some l => if (l =? "")%string then "unknown"%string else l
  | None => "unknown"%string
  end.

(** The [motionFrame] built in the hand branch from the landmarks of
    the frame; its shape is the letter [recognizeASL] gave them. *)
Definition motionFrameOf (motionNow : Z) (lms : Landmarks) : MotionFrame :=
  {| timestamp := motionNow;
     handCenter := getHandCenter lms;
     handShape := shapeOf (letter (recognizeASL lms));
     landmarks := lms |}.

(** The face cue written at the start of the hand branch. *)
Definition faceCueOf (mode : Mode) (t : Tick) : FaceDetectionState :=
  match mode, multiFaceLandmarks t with
  | motion, faceLandmarks :: _ =>
      let chinLandmark := faceLandmarks@152 in
      {| chinDetected := true;
         chinPosition := Some (Pt.mk (Pt.x chinLandmark) (Pt.y chinLandmark)) |}
  | _, _ => {| chinDetected := false; chinPosition := None |}
  end.

Definition onResults (mode : Mode) (s : State) (t : Tick) : State :=
  let p1 := settle (countFrame (hasHands t) (presence s)) in
  if hasHands t then
    (* the hand branch counts the frame a second time *)
    let p2 := {| handDetectedFrames := S (handDetectedFrames p1);
                 handLostFrames := 0;
                 isHandStable := isHandStable p1 |} in
    let lms := nth 0 (multiHandLandmarks t) [] in
    let c := recognizeASL lms in
    let motionFrame := motionFrameOf (motionNow t) lms in
    let face := faceCueOf mode t in
    let frames := pushFrame (motionFrames s) motionFrame in
    let '(frames', lastMotion', motionResult') :=
      if (motionNow t - lastMotionTime s >? 2000)%Z then
        match gestureCycle face frames with
        | Some (g, cf) =>
            ([], motionNow t,
             {| gesture := Some g; m_confidence := cf; motionDetected := true |})
        | None =>
            (frames, lastMotionTime s,
             {| gesture := None; m_confidence := 0; motionDetected := false |})
        end
      else (frames, lastMotionTime s, motionDetectionResult s) in
    {| presence := p2;
       motionFrames := frames';
       lastMotionTime := lastMotion';
       faceDetectionState := face;
       letters := commitLetter (letter c) (confidence c) (now t) (letters s);
       detectionResult := {| dr_letter := letter c;
                             dr_confidence := confidence c;
                             handDetected := true |};
       motionDetectionResult := motionResult' |}
  else
    {| presence := p1;
       motionFrames := motionFrames s;
       lastMotionTime := lastMotionTime s;
       faceDetectionState := faceDetectionState s;
       letters := letters s;
       detectionResult :=
         if negb (isHandStable p1)
         then {| dr_letter := None; dr_confidence := 0; handDetected := false |}
         else detectionResult s;
       motionDetectionResult := motionDetectionResult s |}.

(** The hook driven through a sequence of calls. *)
Definition run (mode : Mode) (s : State) (ticks : list Tick) : State :=
  fold_left (onResults mode) ticks s.

End Motion.
(** ** Static pose classifier, static variant (the older hook) *)

Module Static.

Definition onlyThumb (f : FingerStates) : bool :=
  negb (index f) && negb (middle f) && negb (ring f) && negb (pinky f) && thumb f.

Definition letterE : Rule := fun _ f =>
  when (Nat.eqb (extendedCount f) 0) (ret "E" 0.9).

Definition letterO : Rule := fun landmarks f =>
  when (onlyThumb f)
    (let thumbTip := landmarks@THUMB_TIP in
     let indexTip := landmarks@INDEX_TIP in
     let dist := dist thumbTip indexTip in
     when (dist <? 0.15) (ret "O" 0.85)).

Definition letterA : Rule := fun landmarks f =>
  when (onlyThumb f)
    (let thumbTip := landmarks@THUMB_TIP in
     let indexTip := landmarks@INDEX_TIP in
     let dist := dist thumbTip indexTip in
     when (dist >=? 0.15) (ret "A" 0.9)).

Definition letterB : Rule := fun _ f =>
  when (index f && middle f && ring f && pinky f && negb (thumb f)) (ret "B" 0.9).

Definition letterC : Rule := fun landmarks _ =>
  let wrist := landmarks@WRIST in
  let thumbTip := landmarks@THUMB_TIP in
  let indexTip := landmarks@INDEX_TIP in
  let middleTip := landmarks@MIDDLE_TIP in
  let ringTip := landmarks@RING_TIP in
  let pinkyTip := landmarks@PINKY_TIP in
  let thumbDist := dist thumbTip wrist in
  let indexDist := dist indexTip wrist in
  let middleDist := dist middleTip wrist in
  let ringDist := dist ringTip wrist in
  let pinkyDist := dist pinkyTip wrist in
  let maxDist := max5 thumbDist indexDist middleDist ringDist pinkyDist in
  let minDist := min5 thumbDist indexDist middleDist ringDist pinkyDist in
  when ((maxDist - minDist <? 0.15) && (maxDist <? 0.5) && (maxDist >? 0.15))
    (ret "C" 0.8).

Definition letterD : Rule := fun _ f =>
  when (index f && negb (middle f) && negb (ring f) && negb (pinky f) && negb (thumb f))
    (ret "D" 0.9).

Definition letterF : Rule := fun landmarks f =>
  when (middle f && ring f && pinky f)
    (let thumbTip := landmarks@THUMB_TIP in
     let indexTip := landmarks@INDEX_TIP in
     let dist := dist thumbTip indexTip in
     when (dist <? 0.15) (ret "F" 0.8)).

Definition letterG : Rule := fun landmarks f =>
  when (index f && negb (middle f) && negb (ring f) && negb (pinky f) && thumb f)
    (let indexTip := landmarks@INDEX_TIP in
     let indexMcp := landmarks@INDEX_MCP in
     let horizontal :=
       Rabs (Pt.x indexTip - Pt.x indexMcp) >? Rabs (Pt.y indexTip - Pt.y indexMcp) in
     when horizontal (ret "G" 0.8)).

Definition letterI : Rule := fun _ f =>
  when (negb (index f) && negb (middle f) && negb (ring f) && pinky f) (ret "I" 0.9).

Definition letterL : Rule := fun _ f =>
  when (thumb f && index f && negb (middle f) && negb (ring f) && negb (pinky f))
    (ret "L" 0.9).

Definition letterV : Rule := fun landmarks f =>
  when (index f && middle f && negb (ring f) && negb (pinky f))
    (let indexTip := landmarks@INDEX_TIP in
     let middleTip := landmarks@MIDDLE_TIP in
     let dist := dist indexTip middleTip in
     when (dist >? 0.05) (ret "V" 0.9)).

Definition letterW : Rule := fun _ f =>
  when (index f && middle f && ring f && negb (pinky f)) (ret "W" 0.9).

Definition letterY : Rule := fun _ f =>
  when (thumb f && negb (index f) && negb (middle f) && negb (ring f) && pinky f)
    (ret "Y" 0.9).

Definition letterH : Rule := fun landmarks f =>
  when (index f && middle f && negb (ring f) && negb (pinky f))
    (let indexTip := landmarks@INDEX_TIP in
     let middleTip := landmarks@MIDDLE_TIP in
     let dist := dist indexTip middleTip in
     when (dist <? 0.05) (ret "H" 0.85)).

Definition letterJ : Rule := fun _ f =>
  when (negb (index f) && negb (middle f) && negb (ring f) && pinky f) (ret "J" 0.8).

Definition letterK : Rule := fun landmarks f =>
  when (index f && middle f && negb (ring f) && negb (pinky f) && thumb f)
    (let indexTip := landmarks@INDEX_TIP in
     let middleTip := landmarks@MIDDLE_TIP in
     let thumbTip := landmarks@THUMB_TIP in
     let distIndexThumb := dist indexTip thumbTip in
     let distMiddleThumb := dist middleTip thumbTip in
     when ((distIndexThumb <? 0.08) && (distMiddleThumb <? 0.08)) (ret "K" 0.85)).

Definition letterM : Rule := fun _ f =>
  when (onlyThumb f) (ret "M" 0.75).

Definition letterN : Rule := fun landmarks f =>
  when (onlyThumb f)
    (let thumbTip := landmarks@THUMB_TIP in
     let wrist := landmarks@WRIST in
     let thumbDist := dist thumbTip wrist in
     when (thumbDist <? 0.25) (ret "N" 0.75)).

Definition letterP : Rule := fun landmarks f =>
  when (index f && negb (middle f) && negb (ring f) && negb (pinky f) && thumb f)
    (let indexTip := landmarks@INDEX_TIP in
     let indexMcp := landmarks@INDEX_MCP in
     let pointingDown := Pt.y indexTip >? Pt.y indexMcp + 0.05 in
     when pointingDown (ret "P" 0.8)).

Definition letterQ : Rule := fun landmarks f =>
  when (index f && negb (middle f) && negb (ring f) && negb (pinky f) && thumb f)
    (let indexTip := landmarks@INDEX_TIP in
     let indexMcp := landmarks@INDEX_MCP in
     let pointingDown := Pt.y indexTip >? Pt.y indexMcp + 0.05 in
     when pointingDown
       (let thumbTip := landmarks@THUMB_TIP in
        let wrist := landmarks@WRIST in
        let thumbDist := dist thumbTip wrist in
        when (thumbDist >? 0.2) (ret "Q" 0.8))).

Definition letterR : Rule := fun landmarks f =>
  when (index f && middle f && negb (ring f) && negb (pinky f) && negb (thumb f))
    (let indexTip := landmarks@INDEX_TIP in
     let middleTip := landmarks@MIDDLE_TIP in
     let indexPip := landmarks@INDEX_PIP in
     let middlePip := landmarks@MIDDLE_PIP in
     let tipDist := dist indexTip middleTip in
     let pipDist := dist indexPip middlePip in
     when (tipDist <? pipDist) (ret "R" 0.85)).

Definition letterS : Rule := fun landmarks f =>
  when (onlyThumb f)
    (let thumbTip := landmarks@THUMB_TIP in
     let indexPip := landmarks@INDEX_PIP in
     let dist := dist thumbTip indexPip in
     when (dist <? 0.15) (ret "S" 0.85)).

Definition letterT : Rule := fun landmarks f =>
  when (onlyThumb f)
    (let thumbTip := landmarks@THUMB_TIP in
     let indexPip := landmarks@INDEX_PIP in
     let middlePip := landmarks@MIDDLE_PIP in
     let distIndex := dist thumbTip indexPip in
     let distMiddle := dist thumbTip middlePip in
     when ((distIndex <? 0.12) && (distMiddle <? 0.12)) (ret "T" 0.8)).

Definition letterU : Rule := fun landmarks f =>
  when (index f && middle f && negb (ring f) && negb (pinky f))
    (let indexTip := landmarks@INDEX_TIP in
     let middleTip := landmarks@MIDDLE_TIP in
     let indexPip := landmarks@INDEX_PIP in
     let middlePip := landmarks@MIDDLE_PIP in
     let indexUp := Pt.y indexTip <? Pt.y indexPip in
     let middleUp := Pt.y middleTip <? Pt.y middlePip in
     when (indexUp && middleUp)
       (let dist := dist indexTip middleTip in
        when (dist <? 0.06) (ret "U" 0.85))).

Definition letterX : Rule := fun landmarks f =>
  when (negb (index f) && negb (middle f) && negb (ring f) && negb (pinky f)
        && negb (thumb f))
    (let indexTip := landmarks@INDEX_TIP in
     let indexPip := landmarks@INDEX_PIP in
     let indexMcp := landmarks@INDEX_MCP in
     let wrist := landmarks@WRIST in
     let tipDist := dist indexTip wrist in
     let pipDist := dist indexPip wrist in
     let mcpDist := dist indexMcp wrist in
     when ((tipDist <? pipDist) && (tipDist >? mcpDist)) (ret "X" 0.8)).

Definition letterZ : Rule := fun _ f =>
  when (index f && negb (middle f) && negb (ring f) && negb (pinky f) && negb (thumb f))
    (ret "Z" 0.7).

Definition rules : list Rule :=
  [letterE; letterO; letterA; letterB; letterC; letterD; letterF; letterG;
   letterI; letterL; letterV; letterW; letterY; letterH; letterJ; letterK;
   letterM; letterN; letterP; letterQ; letterR; letterS; letterT; letterU;
   letterX; letterZ].

Definition recognizeASL (landmarks : Landmarks) : Classification :=
  let fingers := getFingerStates landmarks in
  firstMatch rules landmarks fingers.


(** ** The static hook: [onResults] *)

Record State : Type := mkState {
  presence : Presence;
  letters : LetterStream;
  detectionResult : DetectionResult
}.

Record Tick : Type := mkTick {
  multiHandLandmarks : list Landmarks;
  now : Z
}.

Definition initialState : State :=
  {| presence := {| handDetectedFrames := 0; handLostFrames := 0; isHandStable := false |};
     letters := {| detectionHistory := []; lastDetectionTime := 0; detectedText := "" |};
     detectionResult := {| dr_letter := None; dr_confidence := 0; handDetected := false |} |}.

Definition hasHands (t : Tick) : bool :=
  (0 <? List.length (multiHandLandmarks t))%nat.

Definition onResults (s : State) (t : Tick) : State :=
  let p1 := settle (countFrame (hasHands t) (presence s)) in
  if hasHands t && isHandStable p1 then
    let lms := nth 0 (multiHandLandmarks t) [] in
    let c := recognizeASL lms in
    {| presence := p1;
       letters := commitLetter (letter c) (confidence c) (now t) (letters s);
       detectionResult := {| dr_letter := letter c;
                             dr_confidence := confidence c;
                             handDetected := true |} |}
  else
    {| presence := p1;
       letters := letters s;
       detectionResult :=
         if negb (isHandStable p1)
         then {| dr_letter := None; dr_confidence := 0; handDetected := false |}
         else detectionResult s |}.

Definition run (s : State) (ticks : list Tick) : State :=
  fold_left onResults ticks s.

End Static.

(** ** Named conditions used in the statements *)



(** The number of entries equal to [b] at the front of a list, and at its
    end: consecutive frames with ([true]) or without ([false]) a hand. *)
Fixpoint leadingRun (b : bool) (hs : list bool) : nat :=
  match hs with
  | [] => 0
  | h :: rest => if Bool.eqb h b then S (leadingRun b rest) else 0
  end.

Definition trailingRun (b : bool) (hs : list bool) : nat := leadingRun b (rev hs).

(** The detection history right after [push(letter)] and the [shift()]
    that keeps it at four entries. *)
Definition historyAfterPush (l : string) (s : LetterStream) : list string :=
  let pushed := detectionHistory s ++ [l] in
  if (4 <? List.length pushed)%nat then tl pushed else pushed.

(** A raw classification qualifies for the history: a letter, confidence
    above 0.7, more than 1200 ms since the last commit. *)
Definition qualifies (letter : option string) (confidence : R) (now : Z)
    (s : LetterStream) : Prop :=
  exists l, letter = Some l /\ l <> ""%string /\ 0.7 < confidence
            /\ (1200 < now - lastDetectionTime s)%Z.

(** It commits: it qualifies and the last two entries of the history (all
    of it when it holds fewer) are that letter. *)
Definition commits (letter : option string) (confidence : R) (now : Z)
    (s : LetterStream) : Prop :=
  exists l, letter = Some l /\ l <> ""%string /\ 0.7 < confidence
            /\ (1200 < now - lastDetectionTime s)%Z
            /\ (forall d, In d (lastN 2 (historyAfterPush l s)) -> d = l).

(** The gesture reported by one detection cycle, if any. *)
Definition emitted (face : Motion.FaceDetectionState) (frames : list Motion.MotionFrame)
  : option string :=
  option_map fst (Motion.gestureCycle face frames).

(** A classification names no letter or a letter of one character. *)
Definition oneLetter (c : Classification) : Prop :=
  letter c = None \/ exists a : ascii, letter c = Some (String a "").

(** A call of [onResults] with exactly one hand and no face, late enough
    for the detectors of a fresh hook to run. *)
Definition plainTick (t : Motion.Tick) : Prop :=
  List.length (Motion.multiHandLandmarks t) = 1%nat
  /\ Motion.multiFaceLandmarks t = []
  /\ (2000 < Motion.motionNow t)%Z.

(** The frames [onResults] builds from a sequence of calls. *)
Definition framesOf (ticks : list Motion.Tick) : list Motion.MotionFrame :=
  map (fun t => Motion.motionFrameOf (Motion.motionNow t)
                  (nth 0 (Motion.multiHandLandmarks t) []))
    ticks.

(** ** Sample inputs

    Hands whose 21 landmarks lie on one vertical line [x = cx]; the list
    gives the [y] coordinate of landmark 0 (wrist) to landmark 20 (pinky
    tip). *)

Definition handOnLine (cx : R) (ys : list R) : Landmarks := map (Pt.mk cx) ys.

(** Only the thumb extended, thumb tip exactly 0.12 from the index tip and
    0.05 from both PIP joints. *)
Definition hand_thumb_boundary : Landmarks :=
  handOnLine 0
    [0; 0.05; 0.1; 0.15; 0.2;
     0.1; 0.15; 0.12; 0.08;
     0.1; 0.15; 0.12; 0.08;
     0.1; 0.15; 0.12; 0.08;
     0.1; 0.15; 0.12; 0.08].



(** Index, middle and ring extended, pinky and thumb curled. *)
Definition hand_three_thumb_curled : Landmarks :=
  handOnLine 0
    [0; 0.03; 0.06; 0.08; 0.1;
     0.1; 0.2; 0.4; 0.6;
     0.1; 0.2; 0.4; 0.6;
     0.1; 0.2; 0.4; 0.6;
     0.1; 0.2; 0.15; 0.1].

(** Index, middle and ring extended, pinky curled, thumb extended. *)
Definition hand_three_thumb_out : Landmarks :=
  handOnLine 0
    [0; 0.1; 0.2; 0.25; 0.3;
     0.1; 0.2; 0.4; 0.6;
     0.1; 0.2; 0.4; 0.6;
     0.1; 0.2; 0.4; 0.6;
     0.1; 0.2; 0.15; 0.1].

(** Twenty-five frames, told apart by their time stamps 1 to 25. *)
Definition frames_1_to_25 : list Motion.MotionFrame :=
  map (fun t => Motion.mkFrame t (Pt.mk 0 0) "unknown" [])
    [1; 2; 3; 4; 5; 6; 7; 8; 9; 10; 11; 12; 13; 14; 15; 16; 17; 18; 19; 20;
     21; 22; 23; 24; 25]%Z.

(** A face of 468 landmarks with the chin (index 152) at (0.5, 0.62). *)
Definition face_468 : Landmarks := repeat (Pt.mk 0.5 0.62) 468.

(** A frame with a hand and a face, then a frame with neither. *)
Definition tick_hand_and_face : Motion.Tick :=
  Motion.mkTick [hand_three_thumb_out] [face_468] 5000 5000.

Definition tick_nothing : Motion.Tick := Motion.mkTick [] [] 5016 5016.

(** The letter stream of a freshly started hook. *)
Definition letters_start : LetterStream :=
  {| detectionHistory := []; lastDetectionTime := 0; detectedText := "" |}.

(** Hand shapes as offsets from the hand centre (the 21 offsets sum to 0):
    an open hand with all five fingers extended, and a fist with only the
    thumb extended. *)
Definition flatShape : list R :=
  [0.2; 0.2; 0; 0; 0;
   0.1; 0; 0; -0.2;
   0.1; 0; 0; -0.2;
   0.1; 0; 0; -0.2;
   0.1; 0; 0; -0.2].

Definition fistShape : list R :=
  [0.1; 0.1; 0.1; 0.1; -0.1;
   0; -0.1; 0.1; 0;
   0; -0.1; 0; 0;
   0; -0.1; 0; 0;
   0; -0.1; 0; 0].

(** The shape placed with its centre at [(cx, cy)]. *)
Definition handAt (cx cy : R) (shape : list R) : Landmarks :=
  handOnLine cx (map (fun o => cy + o) shape).

(** Ten frames as [onResults] builds them: a fist bobbing up and down near
    forehead height, an open hand at chin height in the fifth frame, and a
    move to the left in the last frame. *)
Definition buffer_hello_thanks_yes : list Motion.MotionFrame :=
  [Motion.motionFrameOf 3000 (handAt 0.6 0.3 fistShape);
   Motion.motionFrameOf 3050 (handAt 0.6 0.35 fistShape);
   Motion.motionFrameOf 3100 (handAt 0.6 0.3 fistShape);
   Motion.motionFrameOf 3150 (handAt 0.6 0.35 fistShape);
   Motion.motionFrameOf 3200 (handAt 0.6 0.45 flatShape);
   Motion.motionFrameOf 3250 (handAt 0.6 0.3 fistShape);
   Motion.motionFrameOf 3300 (handAt 0.6 0.3 fistShape);
   Motion.motionFrameOf 3350 (handAt 0.6 0.3 fistShape);
   Motion.motionFrameOf 3400 (handAt 0.6 0.3 fistShape);
   Motion.motionFrameOf 3450 (handAt 0.5 0.3 fistShape)].

(** The ten calls of [onResults] that build it: one hand, no face, 50 ms
    apart. *)
Definition ticks_hello_thanks_yes : list Motion.Tick :=
  [Motion.mkTick [handAt 0.6 0.3 fistShape] [] 3000 3000;
   Motion.mkTick [handAt 0.6 0.35 fistShape] [] 3050 3050;
   Motion.mkTick [handAt 0.6 0.3 fistShape] [] 3100 3100;
   Motion.mkTick [handAt 0.6 0.35 fistShape] [] 3150 3150;
   Motion.mkTick [handAt 0.6 0.45 flatShape] [] 3200 3200;
   Motion.mkTick [handAt 0.6 0.3 fistShape] [] 3250 3250;
   Motion.mkTick [handAt 0.6 0.3 fistShape] [] 3300 3300;
   Motion.mkTick [handAt 0.6 0.3 fistShape] [] 3350 3350;
   Motion.mkTick [handAt 0.6 0.3 fistShape] [] 3400 3400;
   Motion.mkTick [handAt 0.5 0.3 fistShape] [] 3450 3450].

(** The face cue after a frame in which no face is tracked. *)
Definition noFace : Motion.FaceDetectionState :=
  {| Motion.chinDetected := false; Motion.chinPosition := None |}.

(** Ten frames as [onResults] builds them: an open hand at chest height,
    then a fist that dips and sweeps a small arc to the right around the
    point (0.3, 0.41), starting just above shoulder height. *)
Definition buffer_hello_please_sorry : list Motion.MotionFrame :=
  [Motion.motionFrameOf 3000 (handAt 0.3 0.41 flatShape);
   Motion.motionFrameOf 3050 (handAt 0.3 0.39 fistShape);
   Motion.motionFrameOf 3100 (handAt 0.3 0.38 fistShape);
   Motion.motionFrameOf 3150 (handAt 0.31 0.4 fistShape);
   Motion.motionFrameOf 3200 (handAt 0.32 0.394 fistShape);
   Motion.motionFrameOf 3250 (handAt 0.33 0.392 fistShape);
   Motion.motionFrameOf 3300 (handAt 0.34 0.394 fistShape);
   Motion.motionFrameOf 3350 (handAt 0.35 0.4 fistShape);
   Motion.motionFrameOf 3400 (handAt 0.36 0.41 fistShape);
   Motion.motionFrameOf 3450 (handAt 0.4 0.51 fistShape)].

Definition ticks_hello_please_sorry : list Motion.Tick :=
  [Motion.mkTick [handAt 0.3 0.41 flatShape] [] 3000 3000;
   Motion.mkTick [handAt 0.3 0.39 fistShape] [] 3050 3050;
   Motion.mkTick [handAt 0.3 0.38 fistShape] [] 3100 3100;
   Motion.mkTick [handAt 0.31 0.4 fistShape] [] 3150 3150;
   Motion.mkTick [handAt 0.32 0.394 fistShape] [] 3200 3200;
   Motion.mkTick [handAt 0.33 0.392 fistShape] [] 3250 3250;
   Motion.mkTick [handAt 0.34 0.394 fistShape] [] 3300 3300;
   Motion.mkTick [handAt 0.35 0.4 fistShape] [] 3350 3350;
   Motion.mkTick [handAt 0.36 0.41 fistShape] [] 3400 3400;
   Motion.mkTick [handAt 0.4 0.51 fistShape] [] 3450 3450].

(** A hand spread over the picture, wrist at (0.5, 0.75), and its mirror
    image in the line [x = 0.5]. *)
Definition hand_spread : Landmarks :=
  [Pt.mk 0.5 0.75; Pt.mk 0.5625 0.6875; Pt.mk 0.625 0.625; Pt.mk 0.6875 0.5625; Pt.mk 0.75 0.5;
   Pt.mk 0.5625 0.5; Pt.mk 0.5625 0.375; Pt.mk 0.5625 0.3125; Pt.mk 0.5625 0.25;
   Pt.mk 0.5 0.5; Pt.mk 0.5 0.375; Pt.mk 0.5 0.25; Pt.mk 0.5 0.1875;
   Pt.mk 0.4375 0.5; Pt.mk 0.4375 0.375; Pt.mk 0.4375 0.3125; Pt.mk 0.4375 0.25;
   Pt.mk 0.375 0.5625; Pt.mk 0.375 0.4375; Pt.mk 0.375 0.46875; Pt.mk 0.375 0.5].

Definition hand_spread_mirror : Landmarks :=
  [Pt.mk 0.5 0.75; Pt.mk 0.4375 0.6875; Pt.mk 0.375 0.625; Pt.mk 0.3125 0.5625; Pt.mk 0.25 0.5;
   Pt.mk 0.4375 0.5; Pt.mk 0.4375 0.375; Pt.mk 0.4375 0.3125; Pt.mk 0.4375 0.25;
   Pt.mk 0.5 0.5; Pt.mk 0.5 0.375; Pt.mk 0.5 0.25; Pt.mk 0.5 0.1875;
   Pt.mk 0.5625 0.5; Pt.mk 0.5625 0.375; Pt.mk 0.5625 0.3125; Pt.mk 0.5625 0.25;
   Pt.mk 0.625 0.5625; Pt.mk 0.625 0.4375; Pt.mk 0.625 0.46875; Pt.mk 0.625 0.5].

(** The angles met on [buffer_hello_please_sorry]. *)
Record AngleFacts : Prop := mkAngleFacts {
  af_pi_lo : 2 < PI;
  af_pi_hi : PI <= 4;
  af_m1 : atan (-1) = - (PI / 4);
  af_0 : atan 0 = 0;
  af_1 : atan 1 = PI / 4;
  af_s1 : 0.1 < atan (-0.8) - atan (-1) < 0.13;
  af_s2 : 0.12 < atan (-0.6) - atan (-0.8) < 0.15;
  af_s3 : 0.14 < atan (-0.4) - atan (-0.6) < 0.18;
  af_s4 : 0.17 < atan (-0.2) - atan (-0.4) < 0.2;
  af_s5 : 0.19 < atan 0 - atan (-0.2) < 0.21
}.

(** ** Text editing callbacks (the same text in both hooks) *)

(** [prev.slice(0, -1)]: the text without its last character. *)
Fixpoint dropLast (s : string) : string :=
  match s with
  | EmptyString => EmptyString
  | String c rest =>
      match rest with
      | EmptyString => EmptyString
      | String _ _ => String c (dropLast rest)
      end
  end.

Definition clearText (s : LetterStream) : LetterStream :=
  {| detectionHistory := [];
     lastDetectionTime := lastDetectionTime s;
     detectedText := "" |}.

Definition addSpace (s : LetterStream) : LetterStream :=
  {| detectionHistory := detectionHistory s;
     lastDetectionTime := lastDetectionTime s;
     detectedText := (detectedText s ++ " ")%string |}.

Definition backspace (s : LetterStream) : LetterStream :=
  {| detectionHistory := detectionHistory s;
     lastDetectionTime := lastDetectionTime s;
     detectedText := dropLast (detectedText s) |}.

(** What [stop] leaves of a detection result. *)
Definition stoppedResult : DetectionResult :=
  {| dr_letter := None; dr_confidence := 0; handDetected := false |}.

(** ** The motion-mode hook as a whole: frames and callbacks *)

(** What can happen to the state of the motion-mode hook: a call of
    [onResults], or one of the callbacks it hands out.  Of [stop] only the
    reset of the detection result touches the state kept here. *)
Inductive MotionAction : Type :=
| MFrame (t : Motion.Tick)
| MClearText
| MAddSpace
| MBackspace
| MStop.

Definition motionWithLetters (s : Motion.State) (l : LetterStream) : Motion.State :=
  {| Motion.presence := Motion.presence s;
     Motion.motionFrames := Motion.motionFrames s;
     Motion.lastMotionTime := Motion.lastMotionTime s;
     Motion.faceDetectionState := Motion.faceDetectionState s;
     Motion.letters := l;
     Motion.detectionResult := Motion.detectionResult s;
     Motion.motionDetectionResult := Motion.motionDetectionResult s |}.

Definition motionAct (mode : Motion.Mode) (s : Motion.State) (a : MotionAction)
  : Motion.State :=
  match a with
  | MFrame t => Motion.onResults mode s t
  | MClearText => motionWithLetters s (clearText (Motion.letters s))
  | MAddSpace => motionWithLetters s (addSpace (Motion.letters s))
  | MBackspace => motionWithLetters s (backspace (Motion.letters s))
  | MStop =>
      {| Motion.presence := Motion.presence s;
         Motion.motionFrames := Motion.motionFrames s;
         Motion.lastMotionTime := Motion.lastMotionTime s;
         Motion.faceDetectionState := Motion.faceDetectionState s;
         Motion.letters := Motion.letters s;
         Motion.detectionResult := stoppedResult;
         Motion.motionDetectionResult := Motion.motionDetectionResult s |}
  end.

Definition motionSession (mode : Motion.Mode) (actions : list MotionAction)
  : Motion.State :=
  fold_left (motionAct mode) actions Motion.initialState.

(** ** The static hook as a whole *)

Inductive StaticAction : Type :=
| SFrame (t : Static.Tick)
| SClearText
| SAddSpace
| SBackspace
| SStop.

Definition staticWithLetters (s : Static.State) (l : LetterStream) : Static.State :=
  {| Static.presence := Static.presence s;
     Static.letters := l;
     Static.detectionResult := Static.detectionResult s |}.

Definition staticAct (s : Static.State) (a : StaticAction) : Static.State :=
  match a with
  | SFrame t => Static.onResults s t
  | SClearText => staticWithLetters s (clearText (Static.letters s))
  | SAddSpace => staticWithLetters s (addSpace (Static.letters s))
  | SBackspace => staticWithLetters s (backspace (Static.letters s))
  | SStop =>
      {| Static.presence := Static.presence s;
         Static.letters := Static.letters s;
         Static.detectionResult := stoppedResult |}
  end.

Definition staticSession (actions : list StaticAction) : Static.State :=
  fold_left staticAct actions Static.initialState.

(** ** The text panel: [handleClear] and its list of cleared texts *)

(** [handleClear]: a non-empty text goes to the front of the list, which
    keeps ten entries; then the hook's [clearText] runs. *)
Definition handleClear (history : list string) (s : LetterStream)
  : list string * LetterStream :=
  (if (detectedText s =? "")%string then history
   else firstn 10 (detectedText s :: history),
   clearText s).

(** ** The application shell: screen and address *)

Module App.

Inductive DetectionMode : Type := selector | static | motion.

(** The argument type of [handleModeChange]: ['static' | 'motion']. *)
Inductive ScreenChoice : Type := chooseStatic | chooseMotion.

Definition modeOf (c : ScreenChoice) : DetectionMode :=
  match c with
  | chooseStatic => static
  | chooseMotion => motion
  end.

(** The template string [`/${mode}`]. *)
Definition pathOf (c : ScreenChoice) : string :=
  match c with
  | chooseStatic => "/static"
  | chooseMotion => "/motion"
  end.

(** [getInitialMode], reading [window.location.pathname]. *)
Definition getInitialMode (pathname : string) : DetectionMode :=
  if (pathname =? "/static")%string then static
  else if (pathname =? "/motion")%string then motion
  else selector.

(** The [detectionMode] state and the address shown by the browser. *)
Record State : Type := mkState {
  detectionMode : DetectionMode;
  pathname : string
}.

(** The first render at address [path]. *)
Definition start (path : string) : State :=
  {| detectionMode := getInitialMode path; pathname := path |}.

Definition handleModeChange (c : ScreenChoice) (s : State) : State :=
  {| detectionMode := modeOf c; pathname := pathOf c |}.

Definition handleBackToSelector (s : State) : State :=
  {| detectionMode := selector; pathname := "/" |}.

(** The browser moved to [path] (back or forward) and fired [popstate]. *)
Definition handlePopState (path : string) (s : State) : State :=
  {| detectionMode := getInitialMode path; pathname := path |}.

Inductive Event : Type :=
| ModeChange (c : ScreenChoice)
| BackToSelector
| PopState (path : string).

Definition step (s : State) (e : Event) : State :=
  match e with
  | ModeChange c => handleModeChange c s
  | BackToSelector => handleBackToSelector s
  | PopState path => handlePopState path s
  end.

End App.

(** ** Notions used in the further statements *)

(** Two hands of 21 landmarks, one the mirror image of the other in the
    vertical line [x = c / 2]: the same heights, and [c - x] for [x]. *)
Definition mirrored (c : R) (l l' : Landmarks) : Prop :=
  List.length l = 21%nat /\ List.length l' = 21%nat
  /\ forall i, (i < 21)%nat ->
       Pt.x l'@i = c - Pt.x l@i /\ Pt.y l'@i = Pt.y l@i.

Definition cls (c : string) (conf : R) : Classification :=
  {| letter := Some c; confidence := conf |}.

(** What the motion-mode classifier can return. *)
Definition motionOutcomes : list Classification :=
  [noMatch;
   cls "A" 0.9; cls "B" 0.9; cls "C" 0.8; cls "D" 0.9; cls "E" 0.9; cls "F" 0.8;
   cls "G" 0.8; cls "H" 0.85; cls "I" 0.9; cls "J" 0.8; cls "K" 0.85;
   cls "L" 0.9; cls "M" 0.75; cls "N" 0.75; cls "O" 0.85; cls "P" 0.8;
   cls "R" 0.85; cls "T" 0.8; cls "U" 0.85; cls "V" 0.9; cls "W" 0.9;
   cls "X" 0.8; cls "Y" 0.9; cls "Z" 0.7].

(** What the static classifier can return. *)
Definition staticOutcomes : list Classification :=
  [noMatch;
   cls "A" 0.9; cls "B" 0.9; cls "C" 0.8; cls "D" 0.9; cls "E" 0.9; cls "F" 0.8;
   cls "G" 0.8; cls "H" 0.85; cls "I" 0.9; cls "K" 0.85; cls "L" 0.9;
   cls "O" 0.85; cls "R" 0.85; cls "U" 0.85; cls "V" 0.9; cls "W" 0.9].

(** Letters that have a block in the classifier but are never returned. *)
Definition motionDeadLetters : list string := ["Q"; "S"]%string.
Definition staticDeadLetters : list string :=
  ["J"; "M"; "N"; "P"; "Q"; "S"; "T"; "X"; "Y"; "Z"]%string.

(** Letters no frame can add to the text, in either hook. *)
Definition motionUntypable : list string := ["Q"; "S"; "Z"]%string.

(** A call of [onResults] showing [hand_three_thumb_out]. *)
Definition tick_W : Motion.Tick :=
  {| Motion.multiHandLandmarks := [hand_three_thumb_out];
     Motion.multiFaceLandmarks := [];
     Motion.motionNow := 5000;
     Motion.now := 5000 |}.

(** The gestures the detection cycle can report: word, confidence and the
    number of frames the detector of the word asks for. *)
Definition gestureTable : list (string * R * nat) :=
  [("HELLO"%string, 0.8, 8%nat); ("THANK YOU"%string, 0.9, 6%nat);
   ("THANK YOU"%string, 0.8, 6%nat); ("PLEASE"%string, 0.85, 10%nat);
   ("HELP"%string, 0.7, 6%nat); ("LOVE"%string, 0.7, 4%nat);
   ("SORRY"%string, 0.85, 8%nat); ("YES"%string, 0.8, 10%nat);
   ("NO"%string, 0.8, 3%nat)].

(** A frame with another time stamp and another shape label, the hand
    centre and the landmarks kept. *)
Definition relabel (time : Motion.MotionFrame -> Z)
    (shape : Motion.MotionFrame -> string) (f : Motion.MotionFrame)
  : Motion.MotionFrame :=
  {| Motion.timestamp := time f;
     Motion.handCenter := Motion.handCenter f;
     Motion.handShape := shape f;
     Motion.landmarks := Motion.landmarks f |}.

(** The list of cleared texts after [handleClear] ran on each of the given
    states of the text, starting from the empty list. *)
Definition clearedTexts (streams : list LetterStream) : list string :=
  fold_left (fun history s => fst (handleClear history s)) streams [].

(** The same call of [onResults] with no face tracked. *)
Definition withoutFace (t : Motion.Tick) : Motion.Tick :=
  {| Motion.multiHandLandmarks := Motion.multiHandLandmarks t;
     Motion.multiFaceLandmarks := [];
     Motion.motionNow := Motion.motionNow t;
     Motion.now := Motion.now t |}.

(** No character of the text is followed by the same character, spaces
    apart. *)
Fixpoint noDoubledLetter (s : string) : bool :=
  match s with
  | EmptyString => true
  | String a rest =>
      match rest with
      | EmptyString => true
      | String b _ => (negb (Ascii.eqb a b) || Ascii.eqb a " ") && noDoubledLetter rest
      end
  end.

(** Ten frames as [onResults] builds them from a fist held still at
    (0.6, 0.3), 50 ms apart. *)
Definition buffer_still_fist : list Motion.MotionFrame :=
  map (fun t => Motion.motionFrameOf t (handAt 0.6 0.3 fistShape))
    [3000; 3050; 3100; 3150; 3200; 3250; 3300; 3350; 3400; 3450]%Z.

(** * Properties *)

(** ** Comparisons *)

Lemma Rltb_true (a b : R) : a < b -> (a <? b) = true.
Proof. intros H. unfold Rltb. destruct (Rlt_dec a b); [reflexivity | contradiction]. Qed.

Lemma Rltb_false (a b : R) : b <= a -> (a <? b) = false.
Proof. intros H. unfold Rltb. destruct (Rlt_dec a b); [lra | reflexivity]. Qed.

Lemma Rleb_true (a b : R) : a <= b -> (a <=? b) = true.
Proof. intros H. unfold Rleb. destruct (Rle_dec a b); [reflexivity | contradiction]. Qed.

Lemma Rleb_false (a b : R) : b < a -> (a <=? b) = false.
Proof. intros H. unfold Rleb. destruct (Rle_dec a b); [lra | reflexivity]. Qed.

Lemma Rltb_spec (a b : R) : (a <? b) = true <-> a < b.
Proof.
  unfold Rltb. destruct (Rlt_dec a b); split; intros; try reflexivity;
    try assumption; try discriminate; contradiction.
Qed.

(** Strict and non-strict comparison against the same bound are
    complementary: the O test [dist < c] and the A test [dist >= c]. *)
Lemma Rltb_Rleb_negb (a c : R) : (a >=? c) = negb (a <? c).
Proof.
  unfold Rltb, Rleb.
  destruct (Rlt_dec a c), (Rle_dec c a); simpl; try reflexivity; lra.
Qed.

(** ** Distances of points on one vertical line *)

Lemma dist_same_x (x a b : R) : dist (Pt.mk x a) (Pt.mk x b) = Rabs (a - b).
Proof.
  unfold dist; cbn [Pt.x Pt.y].
  replace ((x - x) ^ 2 + (a - b) ^ 2) with (Rsqr (a - b)) by (unfold Rsqr; ring).
  apply sqrt_Rsqr_abs.
Qed.

Lemma Rneqb_true (a b : R) : a <> b -> (a !== b) = true.
Proof. intros H. unfold Rneqb. destruct (Req_dec_T a b); [contradiction | reflexivity]. Qed.

Lemma Rneqb_false (a b : R) : a = b -> (a !== b) = false.
Proof. intros H. unfold Rneqb. destruct (Req_dec_T a b); [reflexivity | contradiction]. Qed.

(** Decide the comparisons between concrete reals in the goal. *)
Ltac Rdecide :=
  repeat first
    [ rewrite Rltb_true by (unfold Rabs; repeat destruct Rcase_abs; lra)
    | rewrite Rltb_false by (unfold Rabs; repeat destruct Rcase_abs; lra)
    | rewrite Rleb_true by (unfold Rabs; repeat destruct Rcase_abs; lra)
    | rewrite Rleb_false by (unfold Rabs; repeat destruct Rcase_abs; lra)
    | rewrite Rneqb_true by lra
    | rewrite Rneqb_false by lra
    | progress cbn [andb orb negb] ].

(** Evaluate the finger states of a hand given by [handOnLine]. *)
Ltac eval_fingers :=
  unfold getFingerStates, isThumbExtended, isFingerExtended, handOnLine, lm_at,
    WRIST, THUMB_TIP, INDEX_MCP, INDEX_PIP, INDEX_TIP, MIDDLE_MCP, MIDDLE_PIP,
    MIDDLE_TIP, RING_PIP, RING_TIP, PINKY_PIP, PINKY_TIP;
  cbn [map nth]; rewrite ?dist_same_x; Rdecide.

(** ** Lists *)

Lemma map_lastN {A B : Type} (f : A -> B) (n : nat) (l : list A) :
  map f (lastN n l) = lastN n (map f l).
Proof. unfold lastN. rewrite length_map. symmetry. apply skipn_map. Qed.

Lemma fold_left_step {A B : Type} (f : A -> B -> A) (x : B) (l : list B) (a : A) :
  fold_left f (x :: l) a = fold_left f l (f a x).
Proof. reflexivity. Qed.

Lemma trailingRun_snoc (b h : bool) (hs : list bool) :
  trailingRun b (hs ++ [h])
  = if Bool.eqb h b then S (trailingRun b hs) else 0%nat.
Proof. unfold trailingRun. rewrite rev_app_distr. reflexivity. Qed.

(** ** Rule chains *)

(** A block that occurs a second time later in the chain is never the
    first to match: dropping the second occurrence changes nothing. *)
Lemma firstMatch_drop_repeat (pre mid post : list Rule) (r : Rule)
    (l : Landmarks) (f : FingerStates) :
  firstMatch (pre ++ r :: mid ++ r :: post) l f
  = firstMatch (pre ++ r :: mid ++ post) l f.
Proof.
  induction pre as [|p pre IH]; simpl.
  - destruct (r l f) eqn:Hr; [reflexivity|].
    induction mid as [|m mid IHm]; simpl.
    + rewrite Hr. reflexivity.
    + destruct (m l f); [reflexivity | exact IHm].
  - destruct (p l f); [reflexivity | exact IH].
Qed.

(** What holds of the no-match value and of whatever a block returns holds
    of the result of the chain. *)
Lemma firstMatch_result (P : Classification -> Prop) (rules : list Rule)
    (l : Landmarks) (f : FingerStates) :
  P noMatch ->
  (forall r c, In r rules -> r l f = Some c -> P c) ->
  P (firstMatch rules l f).
Proof.
  intros Hno. induction rules as [|r rules IH]; intros Hrules; cbn [firstMatch].
  - exact Hno.
  - destruct (r l f) eqn:Hr.
    + apply (Hrules r); [left; reflexivity | exact Hr].
    + apply IH. intros r' c' Hin. apply Hrules. right; exact Hin.
Qed.

Lemma when_Some (b : bool) (r : option Classification) (c : Classification) :
  when b r = Some c -> b = true /\ r = Some c.
Proof. destruct b; simpl; intros H; [split; [reflexivity | exact H] | discriminate]. Qed.

Lemma ret_Some (s : string) (cf : R) (c : Classification) :
  ret s cf = Some c -> letter c = Some s /\ confidence c = cf.
Proof. unfold ret. intros H. inversion H; subst; simpl. split; reflexivity. Qed.

(** ** The motion-mode classifier *)

Section MotionClassifier.
Import Motion.




(** With only the thumb extended, the O block and the A block between
    them cover every distance: one of the two returns. *)
Lemma letterO_or_letterA (l : Landmarks) (f : FingerStates) :
  onlyThumb f = true -> letterO l f <> None \/ letterA l f <> None.
Proof.
  intros H. unfold letterO, letterA. rewrite H. cbn [when].
  rewrite Rltb_Rleb_negb.
  destruct (dist l@THUMB_TIP l@INDEX_TIP <? 0.12); cbn [when negb ret].
  - left; discriminate.
  - right; discriminate.
Qed.

(** Reads off which letter a block returned. *)
Ltac rule_inv H :=
  cbv zeta in H;
  repeat (let Hb := fresh "Hb" in apply when_Some in H; destruct H as [Hb H]);
  apply ret_Some in H; destruct H as [H ?].

Lemma letterS_Some (l : Landmarks) (f : FingerStates) (c : Classification) :
  letterS l f = Some c -> onlyThumb f = true.
Proof. unfold letterS. intros H. apply when_Some in H. tauto. Qed.

(** C9: the second K block and the second V block of the motion-mode
    classifier are redundant: for every landmark array (so for every
    array of 21 landmarks) the classifier with the two repeated blocks
    removed returns the same letter and confidence as the classifier as
    written. *)
Theorem C9_repeated_K_V_blocks_redundant (l : Landmarks) :
  recognizeASL_dedup l = recognizeASL l.
Proof.
  unfold recognizeASL_dedup, recognizeASL, rules_dedup, rules.
  set (f := getFingerStates l).
  symmetry.
  (* drop the second K: K :: [V] ++ K :: ... *)
  change (rulesBeforeK ++ [letterK; letterV; letterK; letterV] ++ rulesAfterV)
    with (rulesBeforeK ++ letterK :: [letterV] ++ letterK :: (letterV :: rulesAfterV)).
  rewrite firstMatch_drop_repeat.
  (* drop the second V: V :: [] ++ V :: ... *)
  change (rulesBeforeK ++ letterK :: [letterV] ++ letterV :: rulesAfterV)
    with ((rulesBeforeK ++ [letterK]) ++ letterV :: [] ++ letterV :: rulesAfterV).
  rewrite firstMatch_drop_repeat.
  rewrite <- app_assoc. reflexivity.
Qed.

(** C10: the motion-mode classifier never returns the letter S.  With
    only the thumb extended the O block (distance below 0.12) or the A
    block (distance at least 0.12) returns before the S block is reached,
    and no other block returns S. *)
Theorem C10_motion_classifier_never_S (l : Landmarks) :
  letter (recognizeASL l) <> Some "S"%string.
Proof.
  unfold recognizeASL. set (f := getFingerStates l).
  unfold rules, rulesBeforeK, rulesAfterV. cbn [app firstMatch].
  destruct (letterE l f) eqn:HE; [unfold letterE in HE; rule_inv HE; congruence|].
  destruct (letterO l f) eqn:HO; [unfold letterO in HO; rule_inv HO; congruence|].
  destruct (letterT l f) eqn:HT; [unfold letterT in HT; rule_inv HT; congruence|].
  destruct (letterA l f) eqn:HA; [unfold letterA in HA; rule_inv HA; congruence|].
  destruct (letterB l f) eqn:HB; [unfold letterB in HB; rule_inv HB; congruence|].
  destruct (letterC l f) eqn:HC; [unfold letterC in HC; rule_inv HC; congruence|].
  destruct (letterM l f) eqn:HM; [unfold letterM in HM; rule_inv HM; congruence|].
  destruct (letterS l f) eqn:HS.
  { exfalso. apply letterS_Some in HS.
    destruct (letterO_or_letterA l f HS); contradiction. }
  destruct (letterD l f) eqn:HD; [unfold letterD in HD; rule_inv HD; congruence|].
  destruct (letterF l f) eqn:HF; [unfold letterF in HF; rule_inv HF; congruence|].
  destruct (letterU l f) eqn:HU; [unfold letterU in HU; rule_inv HU; congruence|].
  destruct (letterR l f) eqn:HR; [unfold letterR in HR; rule_inv HR; congruence|].
  destruct (letterH l f) eqn:HH; [unfold letterH in HH; rule_inv HH; congruence|].
  destruct (letterG l f) eqn:HG; [unfold letterG in HG; rule_inv HG; congruence|].
  destruct (letterI l f) eqn:HI; [unfold letterI in HI; rule_inv HI; congruence|].
  destruct (letterJ l f) eqn:HJ; [unfold letterJ in HJ; rule_inv HJ; congruence|].
  destruct (letterL l f) eqn:HL; [unfold letterL in HL; rule_inv HL; congruence|].
  destruct (letterY l f) eqn:HY; [unfold letterY in HY; rule_inv HY; congruence|].
  destruct (letterP l f) eqn:HP; [unfold letterP in HP; rule_inv HP; congruence|].
  destruct (letterQ l f) eqn:HQ; [unfold letterQ in HQ; rule_inv HQ; congruence|].
  destruct (letterK l f) eqn:HK; [unfold letterK in HK; rule_inv HK; congruence|].
  destruct (letterV l f) eqn:HV; [unfold letterV in HV; rule_inv HV; congruence|].
  destruct (letterN l f) eqn:HN; [unfold letterN in HN; rule_inv HN; congruence|].
  destruct (letterW l f) eqn:HW; [unfold letterW in HW; rule_inv HW; congruence|].
  destruct (letterX l f) eqn:HX; [unfold letterX in HX; rule_inv HX; congruence|].
  destruct (letterZ l f) eqn:HZ; [unfold letterZ in HZ; rule_inv HZ; congruence|].
  cbn. discriminate.
Qed.

(** Every letter the motion-mode classifier returns is one character. *)
Lemma motion_classifier_oneLetter (l : Landmarks) : oneLetter (recognizeASL l).
Proof.
  unfold recognizeASL. apply firstMatch_result.
  - left; reflexivity.
  - intros r c Hin Hr. right.
    unfold rules, rulesBeforeK, rulesAfterV in Hin. cbn [app In] in Hin.
    repeat (destruct Hin as [<- | Hin];
            [ match type of Hr with
              | ?rule _ _ = _ => unfold rule in Hr
              end;
              rule_inv Hr; eexists; eassumption | ]).
    contradiction.
Qed.

End MotionClassifier.

(** ** One-letter outcomes for a thumb-only hand and for a three-finger hand *)

Section MotionClassifierCases.
Import Motion.

Lemma fingers_three_thumb_curled :
  getFingerStates hand_three_thumb_curled = mkFingers false true true true false.
Proof. unfold hand_three_thumb_curled. eval_fingers. reflexivity. Qed.

Lemma fingers_three_thumb_out :
  getFingerStates hand_three_thumb_out = mkFingers true true true true false.
Proof. unfold hand_three_thumb_out. eval_fingers. reflexivity. Qed.
















Lemma letterC_Some (l : Landmarks) (f : FingerStates) (c : Classification) :
  letterC l f = Some c -> c = mkClass (Some "C"%string) 0.8.
Proof.
  unfold letterC. cbv zeta. intros H.
  apply when_Some in H; destruct H as [_ H].
  apply when_Some in H; destruct H as [_ H].
  unfold ret in H. inversion H. reflexivity.
Qed.

(** The blocks of the chain on a hand with index, middle and ring
    extended and the pinky curled: only C, M (thumb curled) and W can
    return. *)
Lemma three_fingers_chain (l : Landmarks) :
  let f := getFingerStates l in
  index f = true -> middle f = true -> ring f = true -> pinky f = false ->
  recognizeASL l
  = match letterC l f with
    | Some c => c
    | None => if thumb f then mkClass (Some "W"%string) 0.9
              else mkClass (Some "M"%string) 0.75
    end.
Proof.
  unfold recognizeASL. cbv zeta.
  destruct (getFingerStates l) as [t i m r p]. cbn [index middle ring pinky thumb].
  intros -> -> -> ->.
  unfold rules, rulesBeforeK, rulesAfterV. cbn [app firstMatch].
  unfold letterE, letterO, letterT, letterA, letterB, letterM, letterS, letterD,
    letterF, letterU, letterR, letterH, letterG, letterI, letterJ, letterL,
    letterY, letterP, letterQ, letterK, letterV, letterN, letterW, letterX,
    letterZ, onlyThumb, twoUp, extendedCount.
  destruct t;
    cbn [index middle ring pinky thumb andb negb when filter List.length Nat.eqb ret];
    destruct (letterC l _); reflexivity.
Qed.

(** C8, as the code has it: for a hand of 21 landmarks with index, middle
    and ring extended and the pinky curled, the classifier returns C (0.8)
    when the curved-hand block matches; otherwise it returns M (0.75)
    with the thumb curled and W (0.9) with the thumb extended. *)
Theorem C8_three_fingers_C_M_or_W (l : Landmarks) :
  List.length l = 21%nat ->
  index (getFingerStates l) = true ->
  middle (getFingerStates l) = true ->
  ring (getFingerStates l) = true ->
  pinky (getFingerStates l) = false ->
  (letterC l (getFingerStates l) <> None ->
   recognizeASL l = mkClass (Some "C"%string) 0.8)
  /\ (letterC l (getFingerStates l) = None -> thumb (getFingerStates l) = false ->
      recognizeASL l = mkClass (Some "M"%string) 0.75)
  /\ (letterC l (getFingerStates l) = None -> thumb (getFingerStates l) = true ->
      recognizeASL l = mkClass (Some "W"%string) 0.9).
Proof.
  intros _ Hi Hm Hr Hp.
  rewrite (three_fingers_chain l Hi Hm Hr Hp).
  repeat split.
  - intros HC. destruct (letterC l (getFingerStates l)) eqn:E; [|contradiction].
    apply letterC_Some in E. exact E.
  - intros -> ->. reflexivity.
  - intros -> ->. reflexivity.
Qed.

(** The curved-hand block does not match a hand whose index tip is 0.6
    from the wrist. *)
Lemma letterC_far_index (l : Landmarks) (f : FingerStates) :
  0.5 <= dist l@INDEX_TIP l@WRIST -> letterC l f = None.
Proof.
  intros H. unfold letterC. cbv zeta.
  set (mx := max5 _ _ _ _ _).
  assert (Hmx : 0.5 <= mx).
  { unfold mx, max5.
    eapply Rle_trans; [exact H|].
    eapply Rle_trans; [apply Rmax_l | apply Rmax_r]. }
  rewrite (Rltb_false mx 0.5 Hmx).
  rewrite andb_false_r. reflexivity.
Qed.

Lemma index_tip_three_thumb_curled :
  dist hand_three_thumb_curled@INDEX_TIP hand_three_thumb_curled@WRIST = 0.6.
Proof.
  unfold hand_three_thumb_curled, handOnLine, lm_at, INDEX_TIP, WRIST.
  cbn [map nth]. rewrite dist_same_x. unfold Rabs. destruct Rcase_abs; lra.
Qed.

Lemma index_tip_three_thumb_out :
  dist hand_three_thumb_out@INDEX_TIP hand_three_thumb_out@WRIST = 0.6.
Proof.
  unfold hand_three_thumb_out, handOnLine, lm_at, INDEX_TIP, WRIST.
  cbn [map nth]. rewrite dist_same_x. unfold Rabs. destruct Rcase_abs; lra.
Qed.

(** C8 as stated fails: [hand_three_thumb_curled] has index, middle and
    ring extended and the pinky curled, and the classifier returns M
    with confidence 0.75, not W. *)
Lemma C8_counterexample :
  ~ (forall l : Landmarks,
       List.length l = 21%nat ->
       index (getFingerStates l) = true ->
       middle (getFingerStates l) = true ->
       ring (getFingerStates l) = true ->
       pinky (getFingerStates l) = false ->
       recognizeASL l = mkClass (Some "W"%string) 0.9).
Proof.
  intros H.
  specialize (H hand_three_thumb_curled eq_refl).
  rewrite fingers_three_thumb_curled in H.
  specialize (H eq_refl eq_refl eq_refl eq_refl).
  rewrite three_fingers_chain in H
    by (rewrite fingers_three_thumb_curled; reflexivity).
  rewrite letterC_far_index in H by (rewrite index_tip_three_thumb_curled; lra).
  rewrite fingers_three_thumb_curled in H. cbn [thumb] in H.
  inversion H.
Qed.

(** The hypotheses of C8 hold of [hand_three_thumb_out], where the thumb is
    extended and the curved-hand block does not match: the result is W. *)
Lemma C8_witness :
  List.length hand_three_thumb_out = 21%nat
  /\ getFingerStates hand_three_thumb_out = mkFingers true true true true false
  /\ recognizeASL hand_three_thumb_out = mkClass (Some "W"%string) 0.9.
Proof.
  pose proof fingers_three_thumb_out as Hf.
  split; [reflexivity | split; [exact Hf |]].
  apply (C8_three_fingers_C_M_or_W hand_three_thumb_out);
    try (rewrite Hf; reflexivity).
  - reflexivity.
  - apply letterC_far_index. rewrite index_tip_three_thumb_out. lra.
Defined.

End MotionClassifierCases.

(** ** The motion frame buffer *)

Section MotionBuffer.
Import Motion.

Lemma lastN_length {A : Type} (n : nat) (a : list A) :
  List.length (lastN n a) = Nat.min n (List.length a).
Proof. unfold lastN. rewrite length_skipn. lia. Qed.

Lemma lastN_all {A : Type} (n : nat) (a : list A) :
  (List.length a <= n)%nat -> lastN n a = a.
Proof.
  intros H. unfold lastN.
  replace (List.length a - n)%nat with 0%nat by lia. reflexivity.
Qed.

(** The last [n] of [a ++ b] only see the last [n] of [a]. *)
Lemma lastN_app_lastN {A : Type} (n : nat) (a b : list A) :
  lastN n (lastN n a ++ b) = lastN n (a ++ b).
Proof.
  unfold lastN.
  rewrite !length_app, length_skipn, !skipn_app, length_skipn, skipn_skipn.
  f_equal.
  - f_equal. lia.
  - f_equal. lia.
Qed.

Lemma lastN_app_long {A : Type} (n : nat) (a b : list A) :
  (n <= List.length b)%nat -> lastN n (a ++ b) = lastN n b.
Proof.
  intros H. unfold lastN.
  rewrite length_app, skipn_app.
  rewrite skipn_all2 by lia. cbn [app].
  f_equal. lia.
Qed.

(** On a buffer within its bound, [push] then [shift] keeps the last 20. *)
Lemma pushFrame_lastN (frames : list MotionFrame) (f : MotionFrame) :
  (List.length frames <= 20)%nat ->
  pushFrame frames f = lastN 20 (frames ++ [f]).
Proof.
  intros H. unfold pushFrame. cbv zeta.
  destruct (20 <? List.length (frames ++ [f]))%nat eqn:E.
  - apply Nat.ltb_lt in E. rewrite length_app in E. cbn in E.
    assert (Hlen : List.length frames = 20%nat) by lia.
    unfold lastN. rewrite length_app. cbn [List.length].
    replace (List.length frames + 1 - 20)%nat with 1%nat by lia.
    destruct frames; [discriminate | reflexivity].
  - apply Nat.ltb_ge in E. symmetry. apply lastN_all. exact E.
Qed.

Lemma pushFrame_length (frames : list MotionFrame) (f : MotionFrame) :
  (List.length frames <= 20)%nat ->
  (List.length (pushFrame frames f) <= 20)%nat.
Proof.
  intros H. rewrite pushFrame_lastN by exact H. rewrite lastN_length. lia.
Qed.

(** Any number of appends leaves the last 20 of everything ever held. *)
Lemma pushFrame_fold (fs buf : list MotionFrame) :
  (List.length buf <= 20)%nat ->
  fold_left pushFrame fs buf = lastN 20 (buf ++ fs).
Proof.
  revert buf. induction fs as [|f fs IH]; intros buf H; cbn [fold_left].
  - rewrite app_nil_r. symmetry. apply lastN_all. exact H.
  - rewrite IH by (apply pushFrame_length; exact H).
    rewrite pushFrame_lastN by exact H.
    rewrite lastN_app_lastN. rewrite <- app_assoc. reflexivity.
Qed.

(** What [onResults] leaves in the buffer. *)
Lemma onResults_motionFrames (mode : Mode) (s : State) (t : Tick) :
  motionFrames (onResults mode s t)
  = if hasHands t then
      let lms := nth 0 (multiHandLandmarks t) [] in
      let frames :=
        pushFrame (motionFrames s)
          (motionFrameOf (motionNow t) lms) in
      if (motionNow t - lastMotionTime s >? 2000)%Z then
        match gestureCycle (faceCueOf mode t) frames with
        | Some _ => []
        | None => frames
        end
      else frames
    else motionFrames s.
Proof.
  unfold onResults. cbv zeta.
  destruct (hasHands t); [|reflexivity].
  destruct (motionNow t - lastMotionTime s >? 2000)%Z; [|reflexivity].
  destruct (gestureCycle _ _) as [[g cf]|]; reflexivity.
Qed.

Lemma onResults_buffer_bound (mode : Mode) (s : State) (t : Tick) :
  (List.length (motionFrames s) <= 20)%nat ->
  (List.length (motionFrames (onResults mode s t)) <= 20)%nat.
Proof.
  intros H. rewrite onResults_motionFrames. cbv zeta.
  destruct (hasHands t); [|exact H].
  destruct (motionNow t - lastMotionTime s >? 2000)%Z.
  - destruct (gestureCycle _ _); [cbn; lia | apply pushFrame_length; exact H].
  - apply pushFrame_length; exact H.
Qed.

Lemma run_buffer_bound (mode : Mode) (ticks : list Tick) (s : State) :
  (List.length (motionFrames s) <= 20)%nat ->
  (List.length (motionFrames (run mode s ticks)) <= 20)%nat.
Proof.
  unfold run. revert s. induction ticks as [|t ticks IH]; intros s H; cbn [fold_left].
  - exact H.
  - apply IH. apply onResults_buffer_bound. exact H.
Qed.

(** C3: the motion buffer never holds more than 20 frames, whatever the
    hook is fed from its initial state, and eviction is first in, first
    out: 25 frames appended to a buffer within its bound leave exactly 20
    frames, the 20 appended last, in the order of their appending. *)
Theorem C3_motion_buffer_bounded_fifo
    (mode : Mode) (ticks : list Tick) (buf fs : list MotionFrame) :
  (List.length buf <= 20)%nat ->
  List.length fs = 25%nat ->
  (List.length (motionFrames (run mode initialState ticks)) <= 20)%nat
  /\ (forall k, (List.length (fold_left pushFrame (firstn k fs) buf) <= 20)%nat)
  /\ List.length (fold_left pushFrame fs buf) = 20%nat
  /\ fold_left pushFrame fs buf = skipn 5 fs.
Proof.
  intros Hbuf Hfs.
  assert (Hall : fold_left pushFrame fs buf = skipn 5 fs).
  { rewrite pushFrame_fold by exact Hbuf.
    rewrite lastN_app_long by lia.
    unfold lastN. rewrite Hfs. reflexivity. }
  split; [|split; [|split]].
  - apply run_buffer_bound. cbn. lia.
  - intros k. rewrite pushFrame_fold by exact Hbuf. rewrite lastN_length. lia.
  - rewrite Hall, length_skipn, Hfs. reflexivity.
  - exact Hall.
Qed.

(** C3 at 25 concrete frames appended to the empty buffer: frames 6 to 25
    remain. *)
Lemma C3_witness :
  fold_left pushFrame frames_1_to_25 [] = skipn 5 frames_1_to_25
  /\ map timestamp (fold_left pushFrame frames_1_to_25 [])
     = [6; 7; 8; 9; 10; 11; 12; 13; 14; 15; 16; 17; 18; 19; 20; 21; 22; 23;
        24; 25]%Z.
Proof.
  assert (Hbuf : (List.length (@nil MotionFrame) <= 20)%nat) by (cbn; lia).
  assert (Hfs : List.length frames_1_to_25 = 25%nat) by reflexivity.
  destruct (C3_motion_buffer_bounded_fifo motion [] [] frames_1_to_25 Hbuf Hfs)
    as (_ & _ & _ & Hfifo).
  split; [exact Hfifo | rewrite Hfifo; reflexivity].
Defined.

End MotionBuffer.

(** ** The motion-mode hook, field by field *)

Section MotionHook.
Import Motion.

Lemma onResults_presence (mode : Mode) (s : State) (t : Tick) :
  presence (onResults mode s t)
  = let p1 := settle (countFrame (hasHands t) (presence s)) in
    if hasHands t
    then {| handDetectedFrames := S (handDetectedFrames p1);
            handLostFrames := 0;
            isHandStable := isHandStable p1 |}
    else p1.
Proof.
  unfold onResults. cbv zeta.
  destruct (hasHands t); [|reflexivity].
  destruct (motionNow t - lastMotionTime s >? 2000)%Z; [|reflexivity].
  destruct (gestureCycle _ _) as [[g cf]|]; reflexivity.
Qed.

Lemma onResults_lastMotionTime (mode : Mode) (s : State) (t : Tick) :
  lastMotionTime (onResults mode s t)
  = if runsDetectors s t then
      let lms := nth 0 (multiHandLandmarks t) [] in
      let frames :=
        pushFrame (motionFrames s)
          (motionFrameOf (motionNow t) lms) in
      match gestureCycle (faceCueOf mode t) frames with
      | Some _ => motionNow t
      | None => lastMotionTime s
      end
    else lastMotionTime s.
Proof.
  unfold onResults, runsDetectors. cbv zeta.
  destruct (hasHands t); [|reflexivity]. cbn [andb].
  destruct (motionNow t - lastMotionTime s >? 2000)%Z; [|reflexivity].
  destruct (gestureCycle _ _) as [[g cf]|]; reflexivity.
Qed.

Lemma onResults_motionDetectionResult (mode : Mode) (s : State) (t : Tick) :
  motionDetectionResult (onResults mode s t)
  = if runsDetectors s t then
      let lms := nth 0 (multiHandLandmarks t) [] in
      let frames :=
        pushFrame (motionFrames s)
          (motionFrameOf (motionNow t) lms) in
      match gestureCycle (faceCueOf mode t) frames with
      | Some (g, cf) => mkMotionResult (Some g) cf true
      | None => mkMotionResult None 0 false
      end
    else motionDetectionResult s.
Proof.
  unfold onResults, runsDetectors. cbv zeta.
  destruct (hasHands t); [|reflexivity]. cbn [andb].
  destruct (motionNow t - lastMotionTime s >? 2000)%Z; [|reflexivity].
  destruct (gestureCycle _ _) as [[g cf]|]; reflexivity.
Qed.

Lemma onResults_letters (mode : Mode) (s : State) (t : Tick) :
  letters (onResults mode s t)
  = if hasHands t then
      let c := recognizeASL (nth 0 (multiHandLandmarks t) []) in
      commitLetter (letter c) (confidence c) (now t) (letters s)
    else letters s.
Proof.
  unfold onResults. cbv zeta.
  destruct (hasHands t); [|reflexivity].
  destruct (motionNow t - lastMotionTime s >? 2000)%Z; [|reflexivity].
  destruct (gestureCycle _ _) as [[g cf]|]; reflexivity.
Qed.

(** ** The face cue *)

Lemma onResults_faceDetectionState (mode : Mode) (s : State) (t : Tick) :
  faceDetectionState (onResults mode s t)
  = if hasHands t then faceCueOf mode t else faceDetectionState s.
Proof.
  unfold onResults. cbv zeta.
  destruct (hasHands t); [|reflexivity].
  destruct (motionNow t - lastMotionTime s >? 2000)%Z; [|reflexivity].
  destruct (gestureCycle _ _) as [[g cf]|]; reflexivity.
Qed.

(** C6, as the code has it: the face cue is rewritten only by a frame
    that contains a tracked hand.  On such a frame it is set from the
    face result of that frame when the hook runs in motion mode and a
    face is tracked, and cleared (no chin, no position) otherwise; a
    frame without a tracked hand leaves the cue as it was. *)
Theorem C6_face_cue_refreshed_on_hand_frames (mode : Mode) (s : State) (t : Tick) :
  faceDetectionState (onResults mode s t)
  = if hasHands t then
      match mode, multiFaceLandmarks t with
      | motion, faceLandmarks :: _ =>
          {| chinDetected := true;
             chinPosition :=
               Some (Pt.mk (Pt.x faceLandmarks@152) (Pt.y faceLandmarks@152)) |}
      | _, _ => {| chinDetected := false; chinPosition := None |}
      end
    else faceDetectionState s.
Proof. rewrite onResults_faceDetectionState. reflexivity. Qed.

(** C6 as stated fails: after a frame with a hand and a face, a frame
    with neither hand nor face leaves the chin of the earlier frame in
    the cue instead of clearing it. *)
Lemma C6_counterexample :
  ~ (forall (ticks : list Tick) (t : Tick),
       faceDetectionState (onResults motion (run motion initialState ticks) t)
       = faceCueOf motion t).
Proof.
  intros H.
  specialize (H [tick_hand_and_face] tick_nothing).
  unfold run in H. cbn [fold_left] in H.
  rewrite !onResults_faceDetectionState in H.
  cbn in H. discriminate H.
Qed.

(** ** Hand-presence hysteresis *)

Lemma run_snoc (mode : Mode) (s : State) (ticks : list Tick) (t : Tick) :
  run mode s (ticks ++ [t]) = onResults mode (run mode s ticks) t.
Proof. unfold run. rewrite fold_left_app. reflexivity. Qed.

(** In the motion-mode hook a frame with a hand is counted twice: after
    [k] consecutive hand frames the counter stands at [2 * k]. *)
Lemma motion_presence_counts (mode : Mode) (ticks : list Tick) :
  let p := presence (run mode initialState ticks) in
  let hs := map hasHands ticks in
  handDetectedFrames p = (2 * trailingRun true hs)%nat
  /\ handLostFrames p = trailingRun false hs.
Proof.
  induction ticks as [|t ticks IH] using rev_ind; cbv zeta.
  - split; reflexivity.
  - cbv zeta in IH. destruct IH as [IHd IHl].
    rewrite run_snoc, onResults_presence, map_app. cbn [map].
    rewrite !trailingRun_snoc. cbv zeta.
    destruct (hasHands t); cbn [countFrame settle handDetectedFrames
      handLostFrames Bool.eqb].
    + split; [rewrite IHd; lia | reflexivity].
    + split; [reflexivity | rewrite IHl; reflexivity].
Qed.

(** The way back is as documented: the motion-mode hook leaves the
    stable state only on the fifth consecutive frame without a hand. *)
Lemma motion_absent_after_five (mode : Mode) (ticks : list Tick) (t : Tick) :
  isHandStable (presence (run mode initialState ticks)) = true ->
  isHandStable (presence (run mode initialState (ticks ++ [t]))) = false ->
  (5 <= trailingRun false (map hasHands (ticks ++ [t])))%nat.
Proof.
  intros Hbefore Hafter.
  destruct (motion_presence_counts mode ticks) as [_ Hl]. cbv zeta in Hl.
  rewrite run_snoc, onResults_presence in Hafter. cbv zeta in Hafter.
  rewrite map_app. cbn [map]. rewrite trailingRun_snoc.
  destruct (hasHands t);
    cbn [countFrame settle handDetectedFrames handLostFrames isHandStable
           Bool.eqb] in *.
  - rewrite Hbefore in Hafter.
    destruct (3 <=? S (handDetectedFrames (presence (run mode initialState ticks))))%nat;
      discriminate.
  - rewrite Hbefore in Hafter. rewrite <- Hl.
    destruct (5 <=? S (handLostFrames (presence (run mode initialState ticks))))%nat eqn:E.
    + apply Nat.leb_le in E. exact E.
    + discriminate.
Qed.

(** C5, against the motion-mode hook: two consecutive frames with a hand,
    fed to the initial (unstable) state, already make the hand stably
    present, where three consecutive frames are documented. *)
Theorem C5_motion_stable_after_two_hand_frames
    (mode : Mode)
    (hand1 hand2 : Landmarks) (more1 more2 faces1 faces2 : list Landmarks)
    (motionNow1 now1 motionNow2 now2 : Z) :
  let t1 := mkTick (hand1 :: more1) faces1 motionNow1 now1 in
  let t2 := mkTick (hand2 :: more2) faces2 motionNow2 now2 in
  isHandStable (presence initialState) = false
  /\ trailingRun true (map hasHands [t1; t2]) = 2%nat
  /\ isHandStable (presence (run mode initialState [t1])) = false
  /\ isHandStable (presence (run mode initialState [t1; t2])) = true.
Proof.
  cbv zeta. unfold run. cbn [fold_left].
  rewrite !onResults_presence. cbv zeta.
  repeat split.
Qed.

(** ** The detection cadence *)

Lemma gestureCycle_short (face : FaceDetectionState) (frames : list MotionFrame) :
  (List.length frames < 3)%nat -> gestureCycle face frames = None.
Proof.
  intros H.
  assert (H8 : (List.length frames <? 8)%nat = true) by (apply Nat.ltb_lt; lia).
  assert (H6 : (List.length frames <? 6)%nat = true) by (apply Nat.ltb_lt; lia).
  assert (H10 : (List.length frames <? 10)%nat = true) by (apply Nat.ltb_lt; lia).
  assert (H4 : (List.length frames <? 4)%nat = true) by (apply Nat.ltb_lt; lia).
  assert (H3 : (List.length frames <? 3)%nat = true) by (apply Nat.ltb_lt; lia).
  unfold gestureCycle, detectWaveMotion, detectThankYouMotion, detectPleaseMotion,
    detectHelpMotion, detectLoveMotion, detectSorryMotion, detectYesMotion,
    detectNoMotion.
  rewrite H8, H6, H10, H4, H3. reflexivity.
Qed.

(** After a match the timer is reset to the time of the match, and no
    frame within the next 2000 ms runs the detectors. *)
Lemma cadence_after_match (mode : Mode) (s : State) (t t' : Tick) :
  runsDetectors s t = true ->
  motionDetected (motionDetectionResult (onResults mode s t)) = true ->
  lastMotionTime (onResults mode s t) = motionNow t
  /\ ((motionNow t' - motionNow t <= 2000)%Z ->
      runsDetectors (onResults mode s t) t' = false).
Proof.
  intros Hrun Hmatch.
  rewrite onResults_motionDetectionResult, Hrun in Hmatch. cbv zeta in Hmatch.
  assert (Hlast : lastMotionTime (onResults mode s t) = motionNow t).
  { rewrite onResults_lastMotionTime, Hrun. cbv zeta.
    destruct (gestureCycle _ _) as [[g cf]|]; [reflexivity | discriminate]. }
  split; [exact Hlast|].
  intros Hsoon. unfold runsDetectors. rewrite Hlast.
  replace (motionNow t' - motionNow t >? 2000)%Z with false
    by (symmetry; rewrite Z.gtb_ltb; apply Z.ltb_ge; lia).
  apply andb_false_r.
Qed.

(** After a run of the detectors that matched nothing the timer is left as
    it was, and every later frame with a hand runs them again, however
    soon it comes. *)
Lemma cadence_after_no_match (mode : Mode) (s : State) (t t' : Tick) :
  runsDetectors s t = true ->
  motionDetected (motionDetectionResult (onResults mode s t)) = false ->
  hasHands t' = true ->
  (motionNow t <= motionNow t')%Z ->
  lastMotionTime (onResults mode s t) = lastMotionTime s
  /\ runsDetectors (onResults mode s t) t' = true.
Proof.
  intros Hrun Hnone Hhand Hlater.
  rewrite onResults_motionDetectionResult, Hrun in Hnone. cbv zeta in Hnone.
  assert (Hlast : lastMotionTime (onResults mode s t) = lastMotionTime s).
  { rewrite onResults_lastMotionTime, Hrun. cbv zeta.
    destruct (gestureCycle _ _) as [[g cf]|]; [discriminate | reflexivity]. }
  split; [exact Hlast|].
  unfold runsDetectors in *. rewrite Hlast, Hhand. cbn [andb].
  apply andb_true_iff in Hrun. destruct Hrun as [_ Hgate].
  rewrite Z.gtb_ltb in *. apply Z.ltb_lt in Hgate. apply Z.ltb_lt. lia.
Qed.

(** C7, against the motion-mode hook: the first frame with a hand runs the
    eight detectors, matches nothing (the buffer holds one frame) and
    leaves the timer untouched, so the frame 16 ms later runs them again,
    where 2000 ms between two runs are documented. *)
Theorem C7_detectors_rerun_after_16_ms
    (mode : Mode)
    (hand1 hand2 : Landmarks) (more1 more2 faces1 faces2 : list Landmarks)
    (now1 now2 : Z) :
  let t1 := mkTick (hand1 :: more1) faces1 5000 now1 in
  let t2 := mkTick (hand2 :: more2) faces2 5016 now2 in
  runsDetectors initialState t1 = true
  /\ motionDetected (motionDetectionResult (onResults mode initialState t1)) = false
  /\ lastMotionTime (onResults mode initialState t1) = 0%Z
  /\ runsDetectors (onResults mode initialState t1) t2 = true
  /\ (motionNow t2 - motionNow t1 = 16)%Z.
Proof.
  cbv zeta.
  set (t1 := mkTick (hand1 :: more1) faces1 5000 now1).
  set (t2 := mkTick (hand2 :: more2) faces2 5016 now2).
  assert (Hrun : runsDetectors initialState t1 = true) by reflexivity.
  assert (Hlast : lastMotionTime (onResults mode initialState t1) = 0%Z).
  { rewrite onResults_lastMotionTime, Hrun. cbv zeta.
    rewrite gestureCycle_short by (cbn; lia). reflexivity. }
  split; [exact Hrun|]. split; [|split; [exact Hlast | split]].
  - rewrite onResults_motionDetectionResult, Hrun. cbv zeta.
    rewrite gestureCycle_short by (cbn; lia). reflexivity.
  - unfold runsDetectors. rewrite Hlast. reflexivity.
  - reflexivity.
Qed.

End MotionHook.

(** ** The static hook: hand-presence hysteresis as documented *)

Section StaticHook.
Import Static.

Lemma static_onResults_presence (s : State) (t : Tick) :
  presence (onResults s t) = settle (countFrame (hasHands t) (presence s)).
Proof.
  unfold onResults. cbv zeta.
  destruct (hasHands t && isHandStable _); reflexivity.
Qed.

Lemma static_run_snoc (s : State) (ticks : list Tick) (t : Tick) :
  run s (ticks ++ [t]) = onResults (run s ticks) t.
Proof. unfold run. rewrite fold_left_app. reflexivity. Qed.

(** The counters of the static hook are the lengths of the current runs
    of frames with and without a hand. *)
Lemma static_presence_counts (ticks : list Tick) :
  let p := presence (run initialState ticks) in
  let hs := map hasHands ticks in
  handDetectedFrames p = trailingRun true hs
  /\ handLostFrames p = trailingRun false hs.
Proof.
  induction ticks as [|t ticks IH] using rev_ind; cbv zeta.
  - split; reflexivity.
  - cbv zeta in IH. destruct IH as [IHd IHl].
    rewrite static_run_snoc, static_onResults_presence, map_app. cbn [map].
    rewrite !trailingRun_snoc.
    destruct (hasHands t); cbn [countFrame settle handDetectedFrames
      handLostFrames Bool.eqb].
    + split; [rewrite IHd; reflexivity | reflexivity].
    + split; [reflexivity | rewrite IHl; reflexivity].
Qed.

(** In the static hook the hand becomes stably present only on a third
    consecutive frame with a hand, and stably absent only on a fifth
    consecutive frame without one. *)
Lemma static_hysteresis_3_5 (ticks : list Tick) (t : Tick) :
  let before := isHandStable (presence (run initialState ticks)) in
  let after := isHandStable (presence (run initialState (ticks ++ [t]))) in
  let hs := map hasHands (ticks ++ [t]) in
  (before = false -> after = true -> (3 <= trailingRun true hs)%nat)
  /\ (before = true -> after = false -> (5 <= trailingRun false hs)%nat).
Proof.
  cbv zeta.
  destruct (static_presence_counts ticks) as [Hd Hl]. cbv zeta in Hd, Hl.
  rewrite static_run_snoc, static_onResults_presence, map_app. cbn [map].
  rewrite !trailingRun_snoc.
  destruct (hasHands t);
    cbn [countFrame settle handDetectedFrames handLostFrames isHandStable
           Bool.eqb];
    split; intros Hb Ha; rewrite Hb in Ha.
  - rewrite <- Hd.
    destruct (3 <=? S (handDetectedFrames (presence (run initialState ticks))))%nat eqn:E;
      [apply Nat.leb_le in E; exact E | discriminate].
  - destruct (3 <=? S (handDetectedFrames (presence (run initialState ticks))))%nat;
      discriminate.
  - destruct (5 <=? S (handLostFrames (presence (run initialState ticks))))%nat;
      discriminate.
  - rewrite <- Hl.
    destruct (5 <=? S (handLostFrames (presence (run initialState ticks))))%nat eqn:E;
      [apply Nat.leb_le in E; exact E | discriminate].
Qed.

(** Three consecutive frames with a hand do make it stably present, and
    two do not yet, starting from the initial state. *)
Lemma static_stable_on_third_frame
    (hand1 hand2 hand3 : Landmarks) (now1 now2 now3 : Z) :
  let t1 := mkTick [hand1] now1 in
  let t2 := mkTick [hand2] now2 in
  let t3 := mkTick [hand3] now3 in
  isHandStable (presence (run initialState [t1; t2])) = false
  /\ isHandStable (presence (run initialState [t1; t2; t3])) = true.
Proof.
  cbv zeta. unfold run. cbn [fold_left].
  rewrite !static_onResults_presence. split; reflexivity.
Qed.

Lemma static_onResults_letters (s : State) (t : Tick) :
  letters (onResults s t)
  = if hasHands t && isHandStable (settle (countFrame (hasHands t) (presence s)))
    then
      let c := recognizeASL (nth 0 (multiHandLandmarks t) []) in
      commitLetter (letter c) (confidence c) (now t) (letters s)
    else letters s.
Proof.
  unfold onResults. cbv zeta.
  destruct (hasHands t && isHandStable _); reflexivity.
Qed.

(** Every letter the static classifier returns is one character. *)
Lemma static_classifier_oneLetter (l : Landmarks) : oneLetter (recognizeASL l).
Proof.
  unfold recognizeASL. apply firstMatch_result.
  - left; reflexivity.
  - intros r c Hin Hr. right.
    unfold rules in Hin. cbn [In] in Hin.
    repeat (destruct Hin as [<- | Hin];
            [ match type of Hr with
              | ?rule _ _ = _ => unfold rule in Hr
              end;
              cbv zeta in Hr;
              repeat (let Hb := fresh "Hb" in
                      apply when_Some in Hr; destruct Hr as [Hb Hr]);
              apply ret_Some in Hr; destruct Hr as [Hr _];
              eexists; exact Hr | ]).
    contradiction.
Qed.

End StaticHook.

(** ** The letter stream *)

Section LetterCommit.

Lemma endsWith_refl (s : string) : endsWith s s = true.
Proof. destruct s; cbn [endsWith]; rewrite String.eqb_refl; reflexivity. Qed.

Lemma endsWith_app (s l : string) : endsWith (s ++ l) l = true.
Proof.
  induction s as [|c s IH]; cbn [append].
  - apply endsWith_refl.
  - cbn [endsWith]. rewrite IH. apply orb_true_r.
Qed.

(** A text ends with at most one one-character string. *)
Lemma endsWith_char_unique (s : string) (a b : ascii) :
  endsWith s (String a "") = true -> endsWith s (String b "") = true -> a = b.
Proof.
  induction s as [|c s IH]; cbn [endsWith]; intros Ha Hb.
  - cbn in Ha. discriminate.
  - destruct s as [|c' s'].
    + cbn [endsWith] in Ha, Hb.
      assert (He : forall x, ("" =? String x "")%string = false) by reflexivity.
      rewrite He in Ha, Hb. rewrite !orb_false_r in Ha, Hb.
      apply String.eqb_eq in Ha. apply String.eqb_eq in Hb. congruence.
    + assert (Hna : (String c (String c' s') =? String a "")%string = false)
        by (apply String.eqb_neq; discriminate).
      assert (Hnb : (String c (String c' s') =? String b "")%string = false)
        by (apply String.eqb_neq; discriminate).
      rewrite Hna in Ha. rewrite Hnb in Hb. cbn [orb] in Ha, Hb.
      apply IH; assumption.
Qed.

Lemma gate_true (l : string) (confidence : R) (now : Z) (s : LetterStream) :
  negb (l =? "")%string && (confidence >? 0.7)
  && (now - lastDetectionTime s >? 1200)%Z = true
  <-> l <> ""%string /\ 0.7 < confidence /\ (1200 < now - lastDetectionTime s)%Z.
Proof.
  rewrite !andb_true_iff, negb_true_iff, String.eqb_neq, Rltb_spec,
    Z.gtb_ltb, Z.ltb_lt.
  tauto.
Qed.

Lemma stable_true (l : string) (h : list string) :
  forallb (fun d => (d =? l)%string) h = true <-> (forall d, In d h -> d = l).
Proof.
  rewrite forallb_forall. split; intros H d Hd.
  - apply String.eqb_eq. apply H. exact Hd.
  - apply String.eqb_eq. apply H. exact Hd.
Qed.

(** The three ways through the letter stream. *)
Lemma commitLetter_cases (letter : option string) (confidence : R) (now : Z)
    (s : LetterStream) :
  (~ qualifies letter confidence now s
   /\ commitLetter letter confidence now s = s)
  \/ (exists l, letter = Some l
        /\ qualifies letter confidence now s
        /\ ~ commits letter confidence now s
        /\ commitLetter letter confidence now s
           = {| detectionHistory := historyAfterPush l s;
                lastDetectionTime := lastDetectionTime s;
                detectedText := detectedText s |})
  \/ (exists l, letter = Some l
        /\ commits letter confidence now s
        /\ commitLetter letter confidence now s
           = {| detectionHistory := [];
                lastDetectionTime := now;
                detectedText :=
                  if endsWith (detectedText s) l then detectedText s
                  else (detectedText s ++ l)%string |}).
Proof.
  destruct letter as [l|].
  2:{ left. split; [|reflexivity]. intros [l [H _]]. discriminate. }
  unfold commitLetter.
  destruct (negb (l =? "")%string && (confidence >? 0.7)
            && (now - lastDetectionTime s >? 1200)%Z) eqn:Hgate.
  - apply gate_true in Hgate. destruct Hgate as (Hl & Hc & Ht).
    cbv zeta. fold (historyAfterPush l s).
    destruct (forallb (fun d => (d =? l)%string) (lastN 2 (historyAfterPush l s)))
      eqn:Hstable.
    + right; right. exists l. split; [reflexivity|]. split; [|reflexivity].
      exists l. pose proof (proj1 (stable_true _ _) Hstable) as Hall.
      repeat split; assumption.
    + right; left. exists l. split; [reflexivity|]. split; [|split; [|reflexivity]].
      * exists l. repeat split; assumption.
      * intros [l' (Heq & _ & _ & _ & Hall)]. inversion Heq; subst l'.
        pose proof (proj2 (stable_true _ _) Hall). congruence.
  - left. split; [|reflexivity].
    intros [l' (Heq & Hl & Hc & Ht)]. inversion Heq; subst l'.
    assert (H : negb (l =? "")%string && (confidence >? 0.7)
                && (now - lastDetectionTime s >? 1200)%Z = true)
      by (apply gate_true; repeat split; assumption).
    congruence.
Qed.

Lemma commits_qualifies (letter : option string) (confidence : R) (now : Z)
    (s : LetterStream) :
  commits letter confidence now s -> qualifies letter confidence now s.
Proof. intros [l (H1 & H2 & H3 & H4 & _)]. exists l. repeat split; assumption. Qed.

Lemma commitLetter_commit (l : string) (confidence : R) (now : Z)
    (s : LetterStream) :
  commits (Some l) confidence now s ->
  commitLetter (Some l) confidence now s
  = {| detectionHistory := [];
       lastDetectionTime := now;
       detectedText :=
         if endsWith (detectedText s) l then detectedText s
         else (detectedText s ++ l)%string |}.
Proof.
  intros Hc.
  destruct (commitLetter_cases (Some l) confidence now s)
    as [[Hn _] | [(l' & _ & _ & Hn & _) | (l' & Heq & _ & Hs)]].
  - exfalso. apply Hn. apply commits_qualifies. exact Hc.
  - contradiction.
  - inversion Heq; subst l'. exact Hs.
Qed.

(** Right after a commit of [l] the text ends with [l]. *)
Lemma committed_text_ends (l : string) (confidence : R) (now : Z)
    (s : LetterStream) :
  commits (Some l) confidence now s ->
  endsWith (detectedText (commitLetter (Some l) confidence now s)) l = true.
Proof.
  intros Hc. rewrite (commitLetter_commit l confidence now s Hc).
  cbn [detectedText].
  destruct (endsWith (detectedText s) l) eqn:E; [exact E | apply endsWith_app].
Qed.

(** With an empty history every qualifying letter commits. *)
Lemma commits_on_empty_history (l : string) (confidence : R) (now : Z)
    (s : LetterStream) :
  detectionHistory s = [] ->
  l <> ""%string -> 0.7 < confidence -> (1200 < now - lastDetectionTime s)%Z ->
  commits (Some l) confidence now s.
Proof.
  intros Hh Hl Hc Ht. exists l. repeat split; try assumption.
  unfold historyAfterPush. rewrite Hh. cbn.
  intros d [Hd | []]. symmetry; exact Hd.
Qed.

(** The letter stream in terms of [qualifies] and [commits].  The history
    changes only for a classification with confidence above 0.7 arriving
    more than 1200 ms after the last commit; the text or the time stamp
    changes only on a commit, for which the last two entries of the
    history (all of it when it holds fewer, so a single entry is enough)
    must be that letter; a commit clears the history, stamps the time and
    leaves the text alone when it already ends with the letter, appending
    the letter once otherwise.  So the same letter again never duplicates
    (within 1200 ms nothing changes at all), and a different letter more
    than 1200 ms later is appended exactly once. *)
Lemma commitLetter_gated_idempotent
    (s : LetterStream) (letter : option string) (confidence : R) (now : Z) :
  let s' := commitLetter letter confidence now s in
  (detectionHistory s' <> detectionHistory s -> qualifies letter confidence now s)
  /\ (detectedText s' <> detectedText s \/ lastDetectionTime s' <> lastDetectionTime s ->
      commits letter confidence now s)
  /\ (commits letter confidence now s ->
      detectionHistory s' = [] /\ lastDetectionTime s' = now)
  /\ (forall l, letter = Some l -> commits letter confidence now s ->
      detectedText s'
      = if endsWith (detectedText s) l then detectedText s
        else (detectedText s ++ l)%string)
  /\ (commits letter confidence now s ->
      forall (confidence2 : R) (now2 : Z),
        ((now2 - now <= 1200)%Z -> commitLetter letter confidence2 now2 s' = s')
        /\ detectedText (commitLetter letter confidence2 now2 s') = detectedText s')
  /\ (forall a b : ascii,
        letter = Some (String a "") -> commits letter confidence now s -> b <> a ->
        forall (confidence2 : R) (now2 : Z),
          0.7 < confidence2 -> (1200 < now2 - now)%Z ->
          detectedText (commitLetter (Some (String b "")) confidence2 now2 s')
          = (detectedText s' ++ String b "")%string).
Proof.
  cbv zeta.
  split; [|split; [|split; [|split; [|split]]]].
  - intros Hh.
    destruct (commitLetter_cases letter confidence now s)
      as [[_ Hs] | [(l & _ & Hq & _ & _) | (l & _ & Hc & _)]].
    + rewrite Hs in Hh. contradiction.
    + exact Hq.
    + apply commits_qualifies. exact Hc.
  - intros Hchg.
    destruct (commitLetter_cases letter confidence now s)
      as [[_ Hs] | [(l & _ & _ & _ & Hs) | (l & _ & Hc & _)]].
    + rewrite Hs in Hchg. destruct Hchg as [H | H]; contradiction.
    + rewrite Hs in Hchg. cbn in Hchg. destruct Hchg as [H | H]; contradiction.
    + exact Hc.
  - intros Hc. pose proof Hc as [l (-> & _)].
    rewrite (commitLetter_commit l confidence now s Hc). split; reflexivity.
  - intros l -> Hc.
    rewrite (commitLetter_commit l confidence now s Hc). reflexivity.
  - intros Hc confidence2 now2. pose proof Hc as [l (-> & Hl & _)].
    pose proof (committed_text_ends l confidence now s Hc) as Hends.
    rewrite (commitLetter_commit l confidence now s Hc) in *.
    set (s1 := {| detectionHistory := []; lastDetectionTime := now;
                  detectedText := _ |}) in *.
    split.
    + intros Hsoon.
      destruct (commitLetter_cases (Some l) confidence2 now2 s1)
        as [[_ Hs] | [(l' & _ & Hq & _ & _) | (l' & _ & Hc2 & _)]].
      * exact Hs.
      * destruct Hq as [l2 (_ & _ & _ & Ht)]. cbn in Ht. lia.
      * destruct Hc2 as [l2 (_ & _ & _ & Ht & _)]. cbn in Ht. lia.
    + destruct (commitLetter_cases (Some l) confidence2 now2 s1)
        as [[_ Hs] | [(l' & _ & _ & _ & Hs) | (l' & Heq & _ & Hs)]].
      * rewrite Hs. reflexivity.
      * rewrite Hs. reflexivity.
      * inversion Heq; subst l'. rewrite Hs. cbn [detectedText].
        rewrite Hends. reflexivity.
  - intros a b -> Hc Hab confidence2 now2 Hc2 Ht2.
    pose proof (committed_text_ends _ confidence now s Hc) as Hends.
    rewrite (commitLetter_commit _ confidence now s Hc) in *.
    set (s1 := {| detectionHistory := []; lastDetectionTime := now;
                  detectedText := _ |}) in *.
    assert (Hcommit2 : commits (Some (String b "")) confidence2 now2 s1).
    { apply commits_on_empty_history; try assumption.
      - reflexivity.
      - discriminate. }
    rewrite (commitLetter_commit _ confidence2 now2 s1 Hcommit2).
    cbn [detectedText].
    destruct (endsWith (detectedText s1) (String b "")) eqn:E; [|reflexivity].
    exfalso. apply Hab. symmetry.
    exact (endsWith_char_unique _ _ _ Hends E).
Qed.

(** At a fresh hook: A commits at 5000 ms, A again 600 ms later changes
    nothing, and B 1300 ms after the commit is appended once. *)
Lemma commitLetter_fresh_hook :
  let s1 := commitLetter (Some "A"%string) 0.9 5000 letters_start in
  commits (Some "A"%string) 0.9 5000 letters_start
  /\ detectedText s1 = "A"%string
  /\ commitLetter (Some "A"%string) 0.9 5600 s1 = s1
  /\ detectedText (commitLetter (Some "B"%string) 0.9 6300 s1) = "AB"%string.
Proof.
  cbv zeta.
  assert (Hc : commits (Some "A"%string) 0.9 5000 letters_start).
  { apply commits_on_empty_history.
    - reflexivity.
    - discriminate.
    - lra.
    - cbn. lia. }
  destruct (commitLetter_gated_idempotent letters_start (Some "A"%string) 0.9 5000)
    as (_ & _ & _ & Htext & Hsame & Hother).
  cbv zeta in Htext, Hsame, Hother.
  assert (Ht1 : detectedText (commitLetter (Some "A"%string) 0.9 5000 letters_start)
                = "A"%string)
    by (rewrite (Htext "A"%string eq_refl Hc); reflexivity).
  split; [exact Hc | split; [exact Ht1 | split]].
  - apply (Hsame Hc 0.9 5600%Z). lia.
  - assert (Hneq : "B"%char <> "A"%char) by discriminate.
    assert (Hconf : 0.7 < 0.9) by lra.
    assert (Htime : (1200 < 6300 - 5000)%Z) by lia.
    rewrite (Hother "A"%char "B"%char eq_refl Hc Hneq 0.9 6300%Z Hconf Htime).
    rewrite Ht1. reflexivity.
Qed.

End LetterCommit.

(** ** Angles *)

Section Angles.
Import Motion.

(** Mean value bounds for the arctangent left of the origin. *)
Lemma atan_step (a b : R) :
  a < b -> b <= 0 ->
  (b - a) / (1 + a ^ 2) < atan b - atan a < (b - a) / (1 + b ^ 2).
Proof.
  intros Hab Hb.
  destruct (MVT_cor2 atan (fun x => / (1 + x ^ 2)) a b Hab) as [c [Hc [Hac Hcb]]].
  { intros c _. apply derivable_pt_lim_atan. }
  rewrite Hc.
  assert (Ha2 : c ^ 2 < a ^ 2) by nra.
  assert (Hb2 : b ^ 2 < c ^ 2) by nra.
  assert (H0 : 0 < 1 + b ^ 2) by nra.
  assert (H1 : 0 < 1 + c ^ 2) by nra.
  assert (H2 : 0 < 1 + a ^ 2) by nra.
  unfold Rdiv. rewrite (Rmult_comm (/ (1 + c ^ 2))).
  split; apply Rmult_lt_compat_l; try lra; apply Rinv_lt_contravar; nra.
Qed.

Lemma atan2_right (y x q : R) : 0 < x -> y / x = q -> atan2 y x = atan q.
Proof. intros Hx Hq. unfold atan2. rewrite (Rltb_true _ _ Hx), Hq. reflexivity. Qed.

Lemma atan2_down (y x : R) : x = 0 -> y < 0 -> atan2 y x = - PI / 2.
Proof.
  intros Hx Hy. unfold atan2.
  rewrite (Rltb_false 0 x) by lra. rewrite (Rltb_false x 0) by lra.
  rewrite (Rltb_false 0 y) by lra. rewrite (Rltb_true y 0) by lra. reflexivity.
Qed.

Lemma atan2_origin (y x : R) : x = 0 -> y = 0 -> atan2 y x = 0.
Proof.
  intros Hx Hy. unfold atan2.
  rewrite (Rltb_false 0 x) by lra. rewrite (Rltb_false x 0) by lra.
  rewrite (Rltb_false 0 y) by lra. rewrite (Rltb_false y 0) by lra. reflexivity.
Qed.

(** [Math.atan2] stays within [[-PI, PI]]. *)
Lemma atan2_bound (y x : R) : - PI <= atan2 y x <= PI.
Proof.
  pose proof PI_RGT_0 as Hpi.
  pose proof (atan_bound (y / x)) as [Hl Hu].
  unfold atan2, Rltb, Rleb.
  destruct (Rlt_dec 0 x) as [Hx|Hx]; [lra|].
  destruct (Rlt_dec x 0) as [Hx'|Hx'].
  - assert (Hxi : / x < 0) by (apply Rinv_lt_0_compat; exact Hx').
    destruct (Rle_dec 0 y) as [Hy|Hy].
    + assert (Hq : y / x <= 0) by (unfold Rdiv; nra).
      assert (Ha : atan (y / x) <= 0).
      { destruct Hq as [Hq|Hq].
        - pose proof (atan_increasing _ _ Hq) as H. rewrite atan_0 in H. lra.
        - rewrite Hq, atan_0. lra. }
      lra.
    + assert (Hq : 0 < y / x) by (unfold Rdiv; nra).
      pose proof (atan_increasing _ _ Hq) as Ha. rewrite atan_0 in Ha. lra.
  - destruct (Rlt_dec 0 y); [lra|]. destruct (Rlt_dec y 0); lra.
Qed.

(** The two [while] loops of the source each run at most once on a
    difference of two [atan2] values, and then both loop conditions are
    false: [normalizeAngle] is where they stop. *)
Lemma normalizeAngle_exits (y1 x1 y2 x2 : R) :
  let a := normalizeAngle (atan2 y1 x1 - atan2 y2 x2) in
  (a >? PI) = false /\ (a <? - PI) = false.
Proof.
  cbv zeta.
  pose proof PI_RGT_0 as Hpi.
  pose proof (atan2_bound y1 x1) as [H1l H1u].
  pose proof (atan2_bound y2 x2) as [H2l H2u].
  unfold normalizeAngle, Rltb.
  destruct (Rlt_dec PI (atan2 y1 x1 - atan2 y2 x2)) as [Hgt|Hgt].
  - destruct (Rlt_dec (atan2 y1 x1 - atan2 y2 x2 - 2 * PI) (- PI)) as [Hlt|Hlt];
      [lra|].
    split; [destruct (Rlt_dec PI _) | destruct (Rlt_dec _ (- PI))];
      try reflexivity; lra.
  - destruct (Rlt_dec (atan2 y1 x1 - atan2 y2 x2) (- PI)) as [Hlt|Hlt].
    + split; [destruct (Rlt_dec PI _) | destruct (Rlt_dec _ (- PI))];
        try reflexivity; lra.
    + split; [destruct (Rlt_dec PI _) | destruct (Rlt_dec _ (- PI))];
        try reflexivity; lra.
Qed.

Lemma normalizeAngle_id (d : R) : - PI <= d <= PI -> normalizeAngle d = d.
Proof.
  intros [Hl Hu]. unfold normalizeAngle.
  rewrite (Rltb_false PI d) by lra. rewrite (Rltb_false d (- PI)) by lra.
  reflexivity.
Qed.

Lemma turn_up (p c : R) : 0 <= c - p <= PI -> Rabs (normalizeAngle (c - p)) = c - p.
Proof.
  intros H. pose proof PI_RGT_0.
  rewrite normalizeAngle_id by lra. apply Rabs_pos_eq. lra.
Qed.

Lemma turn_down (p c : R) : - PI <= c - p <= 0 -> Rabs (normalizeAngle (c - p)) = p - c.
Proof.
  intros H. pose proof PI_RGT_0.
  rewrite normalizeAngle_id by lra. rewrite Rabs_left1 by lra. lra.
Qed.

Lemma angle_facts : AngleFacts.
Proof.
  constructor.
  - pose proof PI2_1. lra.
  - apply PI_4.
  - replace (-1) with (Ropp 1) by lra. rewrite atan_opp, atan_1. lra.
  - apply atan_0.
  - apply atan_1.
  - pose proof (atan_step (-1) (-0.8)) as H. lapply H; [clear H; intros H | lra].
    lapply H; [clear H; intros H | lra]. lra.
  - pose proof (atan_step (-0.8) (-0.6)) as H. lapply H; [clear H; intros H | lra].
    lapply H; [clear H; intros H | lra]. lra.
  - pose proof (atan_step (-0.6) (-0.4)) as H. lapply H; [clear H; intros H | lra].
    lapply H; [clear H; intros H | lra]. lra.
  - pose proof (atan_step (-0.4) (-0.2)) as H. lapply H; [clear H; intros H | lra].
    lapply H; [clear H; intros H | lra]. lra.
  - pose proof (atan_step (-0.2) 0) as H. lapply H; [clear H; intros H | lra].
    lapply H; [clear H; intros H | lra]. lra.
Qed.

End Angles.

(** ** Gesture arbitration *)

Section GestureArbitration.
Import Motion.

Lemma center_fist (t : Z) (cx cy : R) :
  handCenter (motionFrameOf t (handAt cx cy fistShape)) = Pt.mk cx cy.
Proof.
  unfold motionFrameOf, getHandCenter, handAt, handOnLine, fistShape.
  cbn [handCenter map fold_left List.length Pt.x Pt.y INR].
  f_equal; lra.
Qed.

Lemma center_flat (t : Z) (cx cy : R) :
  handCenter (motionFrameOf t (handAt cx cy flatShape)) = Pt.mk cx cy.
Proof.
  unfold motionFrameOf, getHandCenter, handAt, handOnLine, flatShape.
  cbn [handCenter map fold_left List.length Pt.x Pt.y INR].
  f_equal; lra.
Qed.

Lemma fingers_fist (cx cy : R) :
  getFingerStates (handAt cx cy fistShape) = mkFingers true false false false false.
Proof. unfold handAt, fistShape. eval_fingers. reflexivity. Qed.

Lemma fingers_flat (cx cy : R) :
  getFingerStates (handAt cx cy flatShape) = mkFingers true true true true true.
Proof. unfold handAt, flatShape. eval_fingers. reflexivity. Qed.

(** *** A buffer on which hello, thank-you and yes all match *)

Lemma centers_hello_thanks_yes :
  map handCenter buffer_hello_thanks_yes
  = [Pt.mk 0.6 0.3; Pt.mk 0.6 0.35; Pt.mk 0.6 0.3; Pt.mk 0.6 0.35;
     Pt.mk 0.6 0.45; Pt.mk 0.6 0.3; Pt.mk 0.6 0.3; Pt.mk 0.6 0.3;
     Pt.mk 0.6 0.3; Pt.mk 0.5 0.3].
Proof.
  unfold buffer_hello_thanks_yes. cbn [map].
  rewrite !center_fist, center_flat. reflexivity.
Qed.

Lemma wave_on_buffer :
  detectWaveMotion buffer_hello_thanks_yes = Some (mkPattern hello true 0.8).
Proof.
  unfold detectWaveMotion.
  rewrite map_lastN, centers_hello_thanks_yes.
  cbn [List.length Nat.ltb Nat.leb buffer_hello_thanks_yes lastN skipn Nat.sub
         lm_at nth Pt.x Pt.y].
  Rdecide. reflexivity.
Qed.

Lemma thankYou_on_buffer :
  detectThankYouMotion noFace buffer_hello_thanks_yes
  = Some (mkPattern thank_you true 0.8).
Proof.
  unfold detectThankYouMotion.
  rewrite map_lastN, centers_hello_thanks_yes.
  cbn [List.length Nat.ltb Nat.leb buffer_hello_thanks_yes lastN skipn Nat.sub
         lm_at nth Pt.x Pt.y frame_at noFace chinDetected chinPosition].
  unfold isFlatHandFrame. cbn [landmarks motionFrameOf]. rewrite fingers_flat.
  cbn [thumb index middle ring pinky andb].
  Rdecide. reflexivity.
Qed.

Lemma yes_on_buffer :
  detectYesMotion buffer_hello_thanks_yes = Some (mkPattern yes true 0.8).
Proof.
  unfold detectYesMotion.
  rewrite map_lastN, centers_hello_thanks_yes.
  cbn [List.length Nat.ltb Nat.leb buffer_hello_thanks_yes lastN skipn Nat.sub
         seq frame_at nth].
  repeat (rewrite fold_left_step; cbn [lm_at nth Pt.x Pt.y Nat.sub];
          unfold sign; Rdecide).
  cbn [fold_left].
  unfold isFistFrame. cbn [landmarks motionFrameOf]. rewrite fingers_fist.
  cbn [thumb index middle ring pinky andb negb Nat.leb].
  Rdecide. reflexivity.
Qed.

(** *** A buffer on which hello, please and sorry all match *)

Lemma centers_hello_please_sorry :
  map handCenter buffer_hello_please_sorry
  = [Pt.mk 0.3 0.41; Pt.mk 0.3 0.39; Pt.mk 0.3 0.38; Pt.mk 0.31 0.4;
     Pt.mk 0.32 0.394; Pt.mk 0.33 0.392; Pt.mk 0.34 0.394; Pt.mk 0.35 0.4;
     Pt.mk 0.36 0.41; Pt.mk 0.4 0.51].
Proof.
  unfold buffer_hello_please_sorry. cbn [map].
  rewrite !center_fist, center_flat. reflexivity.
Qed.

Lemma wave_on_arc :
  detectWaveMotion buffer_hello_please_sorry = Some (mkPattern hello true 0.8).
Proof.
  unfold detectWaveMotion.
  rewrite map_lastN, centers_hello_please_sorry.
  cbn [List.length Nat.ltb Nat.leb buffer_hello_please_sorry lastN skipn Nat.sub
         lm_at nth Pt.x Pt.y].
  Rdecide. reflexivity.
Qed.

Lemma sorry_centerY :
  averageY [Pt.mk 0.3 0.38; Pt.mk 0.31 0.4; Pt.mk 0.32 0.394; Pt.mk 0.33 0.392;
            Pt.mk 0.34 0.394; Pt.mk 0.35 0.4; Pt.mk 0.36 0.41; Pt.mk 0.4 0.51]
  = 0.41.
Proof. unfold averageY. cbn [fold_left List.length INR Pt.y]. lra. Qed.

Lemma please_avgY :
  averageY [Pt.mk 0.3 0.41; Pt.mk 0.3 0.39; Pt.mk 0.3 0.38; Pt.mk 0.31 0.4;
            Pt.mk 0.32 0.394; Pt.mk 0.33 0.392; Pt.mk 0.34 0.394; Pt.mk 0.35 0.4;
            Pt.mk 0.36 0.41; Pt.mk 0.4 0.51]
  = 0.408.
Proof. unfold averageY. cbn [fold_left List.length INR Pt.y]. lra. Qed.

(** One turn of a detector loop: expose the next step of the fold and the
    coordinates it reads. *)
Ltac next_turn :=
  rewrite fold_left_step; cbn [lm_at nth Pt.x Pt.y Nat.sub].

Lemma sorry_on_arc :
  detectSorryMotion buffer_hello_please_sorry = Some (mkPattern sorry true 0.85).
Proof.
  destruct angle_facts.
  unfold detectSorryMotion.
  rewrite map_lastN, centers_hello_please_sorry.
  cbn [List.length Nat.ltb Nat.leb buffer_hello_please_sorry lastN skipn Nat.sub
         seq frame_at nth].
  rewrite sorry_centerY.
  next_turn.
  rewrite (atan2_down (0.38 - 0.41) (0.3 - 0.3)) by lra.
  rewrite (atan2_right (0.4 - 0.41) (0.31 - 0.3) (-1)) by lra.
  rewrite (turn_up (- PI / 2) (atan (-1))) by lra.
  Rdecide.
  next_turn.
  rewrite (atan2_right (0.4 - 0.41) (0.31 - 0.3) (-1)) by lra.
  rewrite (atan2_right (0.394 - 0.41) (0.32 - 0.3) (-0.8)) by lra.
  rewrite (turn_up (atan (-1)) (atan (-0.8))) by lra.
  Rdecide.
  next_turn.
  rewrite (atan2_right (0.394 - 0.41) (0.32 - 0.3) (-0.8)) by lra.
  rewrite (atan2_right (0.392 - 0.41) (0.33 - 0.3) (-0.6)) by lra.
  rewrite (turn_up (atan (-0.8)) (atan (-0.6))) by lra.
  Rdecide.
  next_turn.
  rewrite (atan2_right (0.392 - 0.41) (0.33 - 0.3) (-0.6)) by lra.
  rewrite (atan2_right (0.394 - 0.41) (0.34 - 0.3) (-0.4)) by lra.
  rewrite (turn_up (atan (-0.6)) (atan (-0.4))) by lra.
  Rdecide.
  next_turn.
  rewrite (atan2_right (0.394 - 0.41) (0.34 - 0.3) (-0.4)) by lra.
  rewrite (atan2_right (0.4 - 0.41) (0.35 - 0.3) (-0.2)) by lra.
  rewrite (turn_up (atan (-0.4)) (atan (-0.2))) by lra.
  Rdecide.
  next_turn.
  rewrite (atan2_right (0.4 - 0.41) (0.35 - 0.3) (-0.2)) by lra.
  rewrite (atan2_right (0.41 - 0.41) (0.36 - 0.3) 0) by lra.
  rewrite (turn_up (atan (-0.2)) (atan 0)) by lra.
  Rdecide.
  next_turn.
  rewrite (atan2_right (0.41 - 0.41) (0.36 - 0.3) 0) by lra.
  rewrite (atan2_right (0.51 - 0.41) (0.4 - 0.3) 1) by lra.
  rewrite (turn_up (atan 0) (atan 1)) by lra.
  Rdecide.
  cbn [fold_left].
  unfold isFistFrame. cbn [landmarks motionFrameOf]. rewrite fingers_fist.
  cbn [thumb index middle ring pinky andb negb Nat.leb].
  Rdecide. reflexivity.
Qed.

Lemma please_on_arc :
  detectPleaseMotion buffer_hello_please_sorry = Some (mkPattern please true 0.85).
Proof.
  destruct angle_facts.
  unfold detectPleaseMotion.
  rewrite map_lastN, centers_hello_please_sorry.
  cbn [List.length Nat.ltb Nat.leb buffer_hello_please_sorry lastN skipn Nat.sub
         seq frame_at nth].
  rewrite please_avgY.
  next_turn.
  rewrite (atan2_origin (0.41 - 0.41) (0.3 - 0.3)) by lra.
  rewrite (atan2_down (0.39 - 0.41) (0.3 - 0.3)) by lra.
  rewrite (turn_down 0 (- PI / 2)) by lra.
  Rdecide.
  next_turn.
  rewrite (atan2_down (0.39 - 0.41) (0.3 - 0.3)) by lra.
  rewrite (atan2_down (0.38 - 0.41) (0.3 - 0.3)) by lra.
  rewrite (turn_up (- PI / 2) (- PI / 2)) by lra.
  Rdecide.
  next_turn.
  rewrite (atan2_down (0.38 - 0.41) (0.3 - 0.3)) by lra.
  rewrite (atan2_right (0.4 - 0.41) (0.31 - 0.3) (-1)) by lra.
  rewrite (turn_up (- PI / 2) (atan (-1))) by lra.
  Rdecide.
  next_turn.
  rewrite (atan2_right (0.4 - 0.41) (0.31 - 0.3) (-1)) by lra.
  rewrite (atan2_right (0.394 - 0.41) (0.32 - 0.3) (-0.8)) by lra.
  rewrite (turn_up (atan (-1)) (atan (-0.8))) by lra.
  Rdecide.
  next_turn.
  rewrite (atan2_right (0.394 - 0.41) (0.32 - 0.3) (-0.8)) by lra.
  rewrite (atan2_right (0.392 - 0.41) (0.33 - 0.3) (-0.6)) by lra.
  rewrite (turn_up (atan (-0.8)) (atan (-0.6))) by lra.
  Rdecide.
  next_turn.
  rewrite (atan2_right (0.392 - 0.41) (0.33 - 0.3) (-0.6)) by lra.
  rewrite (atan2_right (0.394 - 0.41) (0.34 - 0.3) (-0.4)) by lra.
  rewrite (turn_up (atan (-0.6)) (atan (-0.4))) by lra.
  Rdecide.
  next_turn.
  rewrite (atan2_right (0.394 - 0.41) (0.34 - 0.3) (-0.4)) by lra.
  rewrite (atan2_right (0.4 - 0.41) (0.35 - 0.3) (-0.2)) by lra.
  rewrite (turn_up (atan (-0.4)) (atan (-0.2))) by lra.
  Rdecide.
  next_turn.
  rewrite (atan2_right (0.4 - 0.41) (0.35 - 0.3) (-0.2)) by lra.
  rewrite (atan2_right (0.41 - 0.41) (0.36 - 0.3) 0) by lra.
  rewrite (turn_up (atan (-0.2)) (atan 0)) by lra.
  Rdecide.
  next_turn.
  rewrite (atan2_right (0.41 - 0.41) (0.36 - 0.3) 0) by lra.
  rewrite (atan2_right (0.51 - 0.41) (0.4 - 0.3) 1) by lra.
  rewrite (turn_up (atan 0) (atan 1)) by lra.
  Rdecide.
  cbn [fold_left].
  unfold isFlatHandFrame. cbn [landmarks motionFrameOf]. rewrite fingers_flat.
  cbn [thumb index middle ring pinky andb negb Nat.leb].
  Rdecide. reflexivity.
Qed.

(** The chain is plain priority: the two extra tests in the sorry and yes
    branches never decide anything, because please and thank-you are
    tried earlier in the chain. *)
Lemma arbitrate_priority
    (w ty pl he lo so ye no : option MotionPattern) :
  option_map fst (arbitrate w ty pl he lo so ye no)
  = if fired w then Some "HELLO"%string
    else if fired ty then Some "THANK YOU"%string
    else if fired pl then Some "PLEASE"%string
    else if fired he then Some "HELP"%string
    else if fired lo then Some "LOVE"%string
    else if fired so then Some "SORRY"%string
    else if fired ye then Some "YES"%string
    else if fired no then Some "NO"%string
    else None.
Proof.
  unfold arbitrate.
  destruct (fired w), (fired ty), (fired pl), (fired he), (fired lo),
    (fired so), (fired ye), (fired no); reflexivity.
Qed.

(** C1, as the code has it: a detection cycle reports at most one
    gesture, the first in the order hello, thank-you, please, help, love,
    sorry, yes, no whose detector matched.  When please and sorry both
    match, sorry is never reported, and please is reported unless hello
    or thank-you matched as well; when thank-you and yes both match, yes
    is never reported, and thank-you is reported unless hello matched as
    well. *)
Theorem C1_priority_arbitration
    (face : FaceDetectionState) (frames : list MotionFrame) :
  let w := fired (detectWaveMotion frames) in
  let ty := fired (detectThankYouMotion face frames) in
  let pl := fired (detectPleaseMotion frames) in
  let he := fired (detectHelpMotion frames) in
  let lo := fired (detectLoveMotion frames) in
  let so := fired (detectSorryMotion frames) in
  let ye := fired (detectYesMotion frames) in
  let no := fired (detectNoMotion frames) in
  emitted face frames
  = (if w then Some "HELLO"%string
     else if ty then Some "THANK YOU"%string
     else if pl then Some "PLEASE"%string
     else if he then Some "HELP"%string
     else if lo then Some "LOVE"%string
     else if so then Some "SORRY"%string
     else if ye then Some "YES"%string
     else if no then Some "NO"%string
     else None)
  /\ (pl = true -> so = true ->
      emitted face frames <> Some "SORRY"%string
      /\ (w = false -> ty = false -> emitted face frames = Some "PLEASE"%string))
  /\ (ty = true -> ye = true ->
      emitted face frames <> Some "YES"%string
      /\ (w = false -> emitted face frames = Some "THANK YOU"%string)).
Proof.
  cbv zeta. unfold emitted, gestureCycle. rewrite arbitrate_priority.
  destruct (fired (detectWaveMotion frames)),
    (fired (detectThankYouMotion face frames)),
    (fired (detectPleaseMotion frames)), (fired (detectHelpMotion frames)),
    (fired (detectLoveMotion frames)), (fired (detectSorryMotion frames)),
    (fired (detectYesMotion frames)), (fired (detectNoMotion frames));
    repeat split; intros; try discriminate; try reflexivity.
Qed.

Lemma emitted_hello_thanks_yes :
  emitted noFace buffer_hello_thanks_yes = Some "HELLO"%string.
Proof.
  unfold emitted, gestureCycle. rewrite arbitrate_priority.
  rewrite wave_on_buffer. reflexivity.
Qed.

Lemma emitted_hello_please_sorry (face : FaceDetectionState) :
  emitted face buffer_hello_please_sorry = Some "HELLO"%string.
Proof.
  unfold emitted, gestureCycle. rewrite arbitrate_priority.
  rewrite wave_on_arc. reflexivity.
Qed.

(** C1 as stated fails, in both of its halves.  On
    [buffer_hello_please_sorry] the please and sorry detectors both match,
    and on [buffer_hello_thanks_yes] the thank-you and yes detectors both
    match; on either buffer hello matches as well and is what the cycle
    reports, not please and not thank-you. *)
Lemma C1_counterexample :
  ~ (forall face frames,
       fired (detectPleaseMotion frames) = true ->
       fired (detectSorryMotion frames) = true ->
       emitted face frames = Some "PLEASE"%string)
  /\ ~ (forall face frames,
         fired (detectThankYouMotion face frames) = true ->
         fired (detectYesMotion frames) = true ->
         emitted face frames = Some "THANK YOU"%string).
Proof.
  split; intros H.
  - specialize (H noFace buffer_hello_please_sorry).
    rewrite please_on_arc, sorry_on_arc, emitted_hello_please_sorry in H.
    specialize (H eq_refl eq_refl). discriminate H.
  - specialize (H noFace buffer_hello_thanks_yes).
    rewrite thankYou_on_buffer, yes_on_buffer, emitted_hello_thanks_yes in H.
    specialize (H eq_refl eq_refl). discriminate H.
Qed.

(** C1 on the two buffers: where please and sorry both match, sorry is not
    reported; where thank-you and yes both match, yes is not reported. *)
Lemma C1_witness :
  (fired (detectPleaseMotion buffer_hello_please_sorry) = true
   /\ fired (detectSorryMotion buffer_hello_please_sorry) = true
   /\ emitted noFace buffer_hello_please_sorry <> Some "SORRY"%string)
  /\ (fired (detectThankYouMotion noFace buffer_hello_thanks_yes) = true
      /\ fired (detectYesMotion buffer_hello_thanks_yes) = true
      /\ emitted noFace buffer_hello_thanks_yes <> Some "YES"%string).
Proof.
  assert (Hpl : fired (detectPleaseMotion buffer_hello_please_sorry) = true)
    by (rewrite please_on_arc; reflexivity).
  assert (Hso : fired (detectSorryMotion buffer_hello_please_sorry) = true)
    by (rewrite sorry_on_arc; reflexivity).
  assert (Hty : fired (detectThankYouMotion noFace buffer_hello_thanks_yes) = true)
    by (rewrite thankYou_on_buffer; reflexivity).
  assert (Hye : fired (detectYesMotion buffer_hello_thanks_yes) = true)
    by (rewrite yes_on_buffer; reflexivity).
  split.
  - split; [exact Hpl | split; [exact Hso |]].
    destruct (C1_priority_arbitration noFace buffer_hello_please_sorry)
      as (_ & H & _).
    exact (proj1 (H Hpl Hso)).
  - split; [exact Hty | split; [exact Hye |]].
    destruct (C1_priority_arbitration noFace buffer_hello_thanks_yes)
      as (_ & _ & H).
    exact (proj1 (H Hty Hye)).
Defined.

End GestureArbitration.

(** ** The two buffers arise in runs of the hook from its initial state *)

Section Runs.
Import Motion.

(** Evaluate the eight detectors on a concrete buffer whose frames are
    [motionFrameOf] of [handAt] hands, as far as plain comparisons go; the
    angle loop of the sorry detector is left alone. *)
Ltac eval_detectors :=
  unfold gestureCycle, detectWaveMotion, detectThankYouMotion, detectPleaseMotion,
    detectHelpMotion, detectLoveMotion, detectSorryMotion, detectYesMotion,
    detectNoMotion;
  cbn [List.length Nat.ltb Nat.leb];
  rewrite ?map_lastN; cbn [map]; rewrite ?center_fist, ?center_flat;
  cbn [List.length lastN skipn Nat.sub frame_at nth filter];
  unfold isFlatHandFrame, isFistFrame;
  cbn [landmarks motionFrameOf]; rewrite ?fingers_fist, ?fingers_flat;
  cbn [thumb index middle ring pinky andb negb filter List.length Nat.leb
         noFace chinDetected chinPosition];
  repeat match goal with
         | |- context [fold_left ?f (seq ?a ?b) (0, 0%nat)] =>
             destruct (fold_left f (seq a b) (0, 0%nat))
         end;
  unfold averageY, averageX;
  cbn [fold_left List.length INR seq existsb lm_at nth Pt.x Pt.y Nat.sub];
  Rdecide.

Lemma pushFrame_short (frames : list MotionFrame) (f : MotionFrame) :
  (List.length frames < 20)%nat -> pushFrame frames f = frames ++ [f].
Proof.
  intros H. unfold pushFrame. cbv zeta.
  replace (20 <? List.length (frames ++ [f]))%nat with false; [reflexivity|].
  symmetry. apply Nat.ltb_ge. rewrite length_app. cbn. lia.
Qed.

Lemma plainTick_hasHands (t : Tick) : plainTick t -> hasHands t = true.
Proof. intros [H _]. unfold hasHands. rewrite H. reflexivity. Qed.

Lemma plainTick_face (mode : Mode) (t : Tick) : plainTick t -> faceCueOf mode t = noFace.
Proof. intros (_ & H & _). unfold faceCueOf. rewrite H. destruct mode; reflexivity. Qed.

(** A plain call on which no detector matches appends its frame and
    leaves the timer at 0. *)
Lemma quiet_step (mode : Mode) (s : State) (t : Tick) :
  plainTick t ->
  lastMotionTime s = 0%Z ->
  (List.length (motionFrames s) < 20)%nat ->
  gestureCycle noFace (motionFrames s ++ framesOf [t]) = None ->
  motionFrames (onResults mode s t) = motionFrames s ++ framesOf [t]
  /\ lastMotionTime (onResults mode s t) = 0%Z.
Proof.
  intros Ht Hlast Hlen Hquiet.
  assert (Hrun : runsDetectors s t = true).
  { unfold runsDetectors. rewrite (plainTick_hasHands t Ht), Hlast.
    destruct Ht as (_ & _ & Hnow). cbn [andb].
    rewrite Z.gtb_ltb. apply Z.ltb_lt. lia. }
  rewrite onResults_motionFrames, onResults_lastMotionTime, Hrun.
  rewrite (plainTick_hasHands t Ht). cbv zeta.
  rewrite (plainTick_face mode t Ht), pushFrame_short by exact Hlen.
  unfold runsDetectors in Hrun. rewrite (plainTick_hasHands t Ht) in Hrun.
  cbn [andb] in Hrun. rewrite Hrun.
  unfold framesOf in Hquiet. cbn [map] in Hquiet. rewrite Hquiet.
  split; [reflexivity | exact Hlast].
Qed.

(** A run of plain calls on whose growing buffer no detector ever matches
    leaves all the frames in the buffer. *)
Lemma quiet_run (mode : Mode) (ticks : list Tick) :
  Forall plainTick ticks ->
  (List.length ticks <= 20)%nat ->
  (forall k, gestureCycle noFace (firstn k (framesOf ticks)) = None) ->
  motionFrames (run mode initialState ticks) = framesOf ticks
  /\ lastMotionTime (run mode initialState ticks) = 0%Z.
Proof.
  induction ticks as [|t ticks IH] using rev_ind; intros Hplain Hlen Hquiet.
  - split; reflexivity.
  - apply Forall_app in Hplain. destruct Hplain as [Hplain Ht].
    inversion Ht as [|? ? Htick _]; subst.
    rewrite length_app in Hlen. cbn in Hlen.
    assert (Hframes : framesOf (ticks ++ [t]) = framesOf ticks ++ framesOf [t])
      by (unfold framesOf; apply map_app).
    destruct IH as [IHf IHl].
    + exact Hplain.
    + lia.
    + intros k. destruct (Nat.le_gt_cases k (List.length ticks)) as [Hk|Hk].
      * specialize (Hquiet k). rewrite Hframes, firstn_app in Hquiet.
        replace (k - List.length (framesOf ticks))%nat with 0%nat in Hquiet
          by (unfold framesOf; rewrite length_map; lia).
        cbn [firstn] in Hquiet. rewrite app_nil_r in Hquiet. exact Hquiet.
      * specialize (Hquiet (List.length ticks)).
        rewrite Hframes, firstn_app in Hquiet.
        replace (List.length ticks - List.length (framesOf ticks))%nat with 0%nat
          in Hquiet by (unfold framesOf; rewrite length_map; lia).
        cbn [firstn] in Hquiet. rewrite app_nil_r in Hquiet.
        rewrite firstn_all2 by (unfold framesOf; rewrite length_map; lia).
        rewrite firstn_all2 in Hquiet by (unfold framesOf; rewrite length_map; lia).
        exact Hquiet.
    + rewrite run_snoc, Hframes, <- IHf.
      apply quiet_step.
      * exact Htick.
      * exact IHl.
      * rewrite IHf. unfold framesOf. rewrite length_map. lia.
      * rewrite IHf, <- Hframes.
        specialize (Hquiet (List.length (ticks ++ [t]))).
        rewrite firstn_all2 in Hquiet
          by (unfold framesOf; rewrite length_map; lia).
        exact Hquiet.
Qed.

Lemma quiet_before_hello_thanks_yes (k : nat) :
  gestureCycle noFace (firstn k (firstn 9 buffer_hello_thanks_yes)) = None.
Proof.
  unfold buffer_hello_thanks_yes. cbn [firstn].
  do 10 (destruct k as [|k];
         [cbn [firstn]; first [apply gestureCycle_short; cbn; lia
                              | eval_detectors; reflexivity] |]).
  cbn [firstn]. eval_detectors. reflexivity.
Qed.

Lemma quiet_before_hello_please_sorry (k : nat) :
  gestureCycle noFace (firstn k (firstn 9 buffer_hello_please_sorry)) = None.
Proof.
  unfold buffer_hello_please_sorry. cbn [firstn].
  do 10 (destruct k as [|k];
         [cbn [firstn]; first [apply gestureCycle_short; cbn; lia
                              | eval_detectors; reflexivity] |]).
  cbn [firstn]. eval_detectors. reflexivity.
Qed.

Lemma gestureCycle_hello (face : FaceDetectionState) (frames : list MotionFrame)
    (c : R) :
  detectWaveMotion frames = Some (mkPattern hello true c) ->
  gestureCycle face frames = Some ("HELLO"%string, c).
Proof. intros H. unfold gestureCycle. rewrite H. reflexivity. Qed.

(** Nine plain calls that leave nine frames behind, then a tenth on which
    the detectors run over the ten frames and hello is what the hook
    reports. *)
Lemma run_reports_hello (mode : Mode) (ticks : list Tick) (t : Tick)
    (buffer : list MotionFrame) :
  Forall plainTick ticks -> plainTick t ->
  (List.length ticks < 20)%nat ->
  framesOf (ticks ++ [t]) = buffer ->
  (forall k, gestureCycle noFace (firstn k (framesOf ticks)) = None) ->
  detectWaveMotion buffer = Some (mkPattern hello true 0.8) ->
  let before := run mode initialState ticks in
  runsDetectors before t = true
  /\ pushFrame (motionFrames before)
       (motionFrameOf (motionNow t) (nth 0 (multiHandLandmarks t) [])) = buffer
  /\ motionDetectionResult (run mode initialState (ticks ++ [t]))
     = mkMotionResult (Some "HELLO"%string) 0.8 true.
Proof.
  intros Hplain Ht Hlen Hbuf Hquiet Hwave. cbv zeta.
  destruct (quiet_run mode ticks Hplain (Nat.lt_le_incl _ _ Hlen) Hquiet)
    as [Hframes Hlast].
  assert (Hrun : runsDetectors (run mode initialState ticks) t = true).
  { unfold runsDetectors. rewrite (plainTick_hasHands t Ht), Hlast.
    destruct Ht as (_ & _ & Hnow). cbn [andb].
    rewrite Z.gtb_ltb. apply Z.ltb_lt. lia. }
  assert (Hpush : pushFrame (motionFrames (run mode initialState ticks))
                    (motionFrameOf (motionNow t) (nth 0 (multiHandLandmarks t) []))
                  = buffer).
  { rewrite Hframes, pushFrame_short
      by (unfold framesOf; rewrite length_map; exact Hlen).
    rewrite <- Hbuf. unfold framesOf. rewrite map_app. reflexivity. }
  split; [exact Hrun | split; [exact Hpush |]].
  rewrite run_snoc, onResults_motionDetectionResult, Hrun. cbv zeta.
  rewrite Hpush, (plainTick_face mode t Ht).
  rewrite (gestureCycle_hello noFace buffer 0.8 Hwave). reflexivity.
Qed.

Lemma plain_ticks_hello_thanks_yes : Forall plainTick ticks_hello_thanks_yes.
Proof.
  unfold ticks_hello_thanks_yes.
  repeat (constructor; [unfold plainTick; cbn; repeat split; lia |]).
  constructor.
Qed.

Lemma plain_ticks_hello_please_sorry : Forall plainTick ticks_hello_please_sorry.
Proof.
  unfold ticks_hello_please_sorry.
  repeat (constructor; [unfold plainTick; cbn; repeat split; lia |]).
  constructor.
Qed.

(** [buffer_hello_thanks_yes] is the buffer of the hook at the tenth of the
    calls [ticks_hello_thanks_yes], started from the initial state; the
    detectors run on it and the hook reports hello. *)
Lemma run_hello_thanks_yes (mode : Mode) :
  let before := run mode initialState (firstn 9 ticks_hello_thanks_yes) in
  let t := nth 9 ticks_hello_thanks_yes (mkTick [] [] 0 0) in
  runsDetectors before t = true
  /\ pushFrame (motionFrames before)
       (motionFrameOf (motionNow t) (nth 0 (multiHandLandmarks t) []))
     = buffer_hello_thanks_yes
  /\ motionDetectionResult (run mode initialState ticks_hello_thanks_yes)
     = mkMotionResult (Some "HELLO"%string) 0.8 true.
Proof.
  pose proof plain_ticks_hello_thanks_yes as Hplain.
  change ticks_hello_thanks_yes
    with (firstn 9 ticks_hello_thanks_yes
          ++ [nth 9 ticks_hello_thanks_yes (mkTick [] [] 0 0)]) in Hplain at 1.
  apply Forall_app in Hplain. destruct Hplain as [H9 H10].
  inversion H10 as [|? ? Ht _]; subst.
  change (run mode initialState ticks_hello_thanks_yes)
    with (run mode initialState
            (firstn 9 ticks_hello_thanks_yes
             ++ [nth 9 ticks_hello_thanks_yes (mkTick [] [] 0 0)])).
  apply run_reports_hello.
  - exact H9.
  - exact Ht.
  - cbn. lia.
  - reflexivity.
  - exact quiet_before_hello_thanks_yes.
  - exact wave_on_buffer.
Qed.

(** The same for [buffer_hello_please_sorry] and the calls
    [ticks_hello_please_sorry]. *)
Lemma run_hello_please_sorry (mode : Mode) :
  let before := run mode initialState (firstn 9 ticks_hello_please_sorry) in
  let t := nth 9 ticks_hello_please_sorry (mkTick [] [] 0 0) in
  runsDetectors before t = true
  /\ pushFrame (motionFrames before)
       (motionFrameOf (motionNow t) (nth 0 (multiHandLandmarks t) []))
     = buffer_hello_please_sorry
  /\ motionDetectionResult (run mode initialState ticks_hello_please_sorry)
     = mkMotionResult (Some "HELLO"%string) 0.8 true.
Proof.
  pose proof plain_ticks_hello_please_sorry as Hplain.
  change ticks_hello_please_sorry
    with (firstn 9 ticks_hello_please_sorry
          ++ [nth 9 ticks_hello_please_sorry (mkTick [] [] 0 0)]) in Hplain at 1.
  apply Forall_app in Hplain. destruct Hplain as [H9 H10].
  inversion H10 as [|? ? Ht _]; subst.
  change (run mode initialState ticks_hello_please_sorry)
    with (run mode initialState
            (firstn 9 ticks_hello_please_sorry
             ++ [nth 9 ticks_hello_please_sorry (mkTick [] [] 0 0)])).
  apply run_reports_hello.
  - exact H9.
  - exact Ht.
  - cbn. lia.
  - reflexivity.
  - exact quiet_before_hello_please_sorry.
  - exact wave_on_arc.
Qed.

End Runs.

(** * Further properties *)

(** ** The mirror image of a hand *)

Section MirroredHands.
Variable c : R.
Variables l l' : Landmarks.
Hypothesis Hmirror : mirrored c l l'.

(** The mirrored differences are the negated differences, so their squares
    and absolute values are the same. *)
Lemma mirrored_dist (i j : nat) :
  (i < 21)%nat -> (j < 21)%nat -> dist l'@i l'@j = dist l@i l@j.
Proof.
  intros Hi Hj. destruct Hmirror as (_ & _ & H).
  destruct (H i Hi) as [Hxi Hyi]. destruct (H j Hj) as [Hxj Hyj].
  unfold dist. rewrite Hxi, Hyi, Hxj, Hyj. f_equal. ring.
Qed.

Lemma mirrored_absx (i j : nat) :
  (i < 21)%nat -> (j < 21)%nat ->
  Rabs (Pt.x l'@i - Pt.x l'@j) = Rabs (Pt.x l@i - Pt.x l@j).
Proof.
  intros Hi Hj. destruct Hmirror as (_ & _ & H).
  destruct (H i Hi) as [Hxi _]. destruct (H j Hj) as [Hxj _].
  rewrite Hxi, Hxj.
  replace (c - Pt.x l@i - (c - Pt.x l@j)) with (- (Pt.x l@i - Pt.x l@j)) by ring.
  apply Rabs_Ropp.
Qed.

Lemma mirrored_y (i : nat) : (i < 21)%nat -> Pt.y l'@i = Pt.y l@i.
Proof.
  intros Hi. destruct Hmirror as (_ & _ & H). apply (H i Hi).
Qed.

Lemma mirrored_fingers : getFingerStates l' = getFingerStates l.
Proof.
  unfold getFingerStates, isThumbExtended, isFingerExtended.
  unfold WRIST, THUMB_TIP, INDEX_PIP, INDEX_TIP, MIDDLE_PIP, MIDDLE_TIP,
    RING_PIP, RING_TIP, PINKY_PIP, PINKY_TIP.
  rewrite !mirrored_dist by lia. reflexivity.
Qed.

(** A block reads the mirrored hand as it reads the hand. *)
Ltac block_mirrored :=
  cbv beta zeta delta [Motion.letterE Motion.letterO Motion.letterT Motion.letterA
    Motion.letterB Motion.letterC Motion.letterM Motion.letterS Motion.letterD
    Motion.letterF Motion.letterU Motion.letterR Motion.letterH Motion.letterG
    Motion.letterI Motion.letterJ Motion.letterL Motion.letterY Motion.letterP
    Motion.letterQ Motion.letterK Motion.letterV Motion.letterN Motion.letterW
    Motion.letterX Motion.letterZ
    Static.letterE Static.letterO Static.letterA Static.letterB Static.letterC
    Static.letterD Static.letterF Static.letterG Static.letterI Static.letterL
    Static.letterV Static.letterW Static.letterY Static.letterH Static.letterJ
    Static.letterK Static.letterM Static.letterN Static.letterP Static.letterQ
    Static.letterR Static.letterS Static.letterT Static.letterU Static.letterX
    Static.letterZ
    WRIST THUMB_TIP INDEX_MCP INDEX_PIP INDEX_TIP MIDDLE_MCP MIDDLE_PIP
    MIDDLE_TIP RING_PIP RING_TIP PINKY_PIP PINKY_TIP];
  rewrite ?mirrored_dist by lia;
  rewrite ?mirrored_absx by lia;
  rewrite ?mirrored_y by lia;
  reflexivity.

Lemma firstMatch_same_blocks (rules : list Rule) (l1 l2 : Landmarks)
    (f : FingerStates) :
  (forall r, In r rules -> r l1 f = r l2 f) ->
  firstMatch rules l1 f = firstMatch rules l2 f.
Proof.
  induction rules as [|r rules IH]; intros H; cbn [firstMatch].
  - reflexivity.
  - rewrite (H r) by (left; reflexivity).
    destruct (r l2 f); [reflexivity|].
    apply IH. intros r' Hr'. apply H. right; exact Hr'.
Qed.

Lemma motion_classifier_mirrored : Motion.recognizeASL l' = Motion.recognizeASL l.
Proof.
  unfold Motion.recognizeASL. cbv zeta.
  rewrite mirrored_fingers.
  apply firstMatch_same_blocks. intros r Hin.
  unfold Motion.rules, Motion.rulesBeforeK, Motion.rulesAfterV in Hin.
  cbn [app In] in Hin.
  repeat (destruct Hin as [<- | Hin]; [block_mirrored |]).
  contradiction.
Qed.

Lemma static_classifier_mirrored : Static.recognizeASL l' = Static.recognizeASL l.
Proof.
  unfold Static.recognizeASL. cbv zeta.
  rewrite mirrored_fingers.
  apply firstMatch_same_blocks. intros r Hin.
  unfold Static.rules in Hin. cbn [In] in Hin.
  repeat (destruct Hin as [<- | Hin]; [block_mirrored |]).
  contradiction.
Qed.

End MirroredHands.

(** X2: the finger states and both classifiers cannot tell a hand from its
    mirror image.  For two hands of 21 landmarks with the same heights and
    with [c - x] in the one where the other has [x], the five finger
    states are the same, and so are the letter and the confidence that
    [recognizeASL] returns, in the motion-mode hook and in the static
    hook: horizontal positions are read only through differences that are
    squared or taken in absolute value. *)
Theorem recognizeASL_mirror_invariant (c : R) (l l' : Landmarks) :
  mirrored c l l' ->
  getFingerStates l' = getFingerStates l
  /\ Motion.recognizeASL l' = Motion.recognizeASL l
  /\ Static.recognizeASL l' = Static.recognizeASL l.
Proof.
  intros H. split; [|split].
  - exact (mirrored_fingers c l l' H).
  - exact (motion_classifier_mirrored c l l' H).
  - exact (static_classifier_mirrored c l l' H).
Qed.

(** X2 for [hand_spread] and its mirror image in the picture. *)
Lemma recognizeASL_mirror_witness :
  getFingerStates hand_spread_mirror = getFingerStates hand_spread
  /\ Motion.recognizeASL hand_spread_mirror = Motion.recognizeASL hand_spread
  /\ Static.recognizeASL hand_spread_mirror = Static.recognizeASL hand_spread.
Proof.
  apply (recognizeASL_mirror_invariant 1).
  split; [reflexivity | split; [reflexivity|]].
  intros i Hi. unfold hand_spread, hand_spread_mirror, lm_at.
  do 21 (destruct i as [|i]; [cbn [nth Pt.x Pt.y]; split; lra|]).
  lia.
Defined.

(** ** What the two classifiers can return *)

Section Outcomes.

(** Split on the conditions of the blocks that are left once the finger
    states are known. *)
Ltac split_conditions :=
  repeat match goal with
  | |- context [if ?b then _ else _] => destruct b eqn:?; cbv beta iota
  end.

Ltac in_table := solve [repeat (first [left; reflexivity | right])].

Lemma motion_table (l : Landmarks) (f : FingerStates) :
  In (firstMatch Motion.rules l f) motionOutcomes.
Proof.
  unfold motionOutcomes, cls.
  destruct f as [[] [] [] [] []];
    cbv beta iota zeta delta [Motion.rules Motion.rulesBeforeK Motion.rulesAfterV
      app firstMatch when ret andb negb orb thumb index middle ring pinky
      extendedCount filter List.length Nat.eqb Motion.onlyThumb Motion.twoUp
      Motion.letterE Motion.letterO Motion.letterT Motion.letterA
      Motion.letterB Motion.letterC Motion.letterM Motion.letterS Motion.letterD
      Motion.letterF Motion.letterU Motion.letterR Motion.letterH Motion.letterG
      Motion.letterI Motion.letterJ Motion.letterL Motion.letterY Motion.letterP
      Motion.letterQ Motion.letterK Motion.letterV Motion.letterN Motion.letterW
      Motion.letterX Motion.letterZ];
    rewrite ?Rltb_Rleb_negb;
    split_conditions; cbn [In negb] in *; try discriminate; in_table.
Qed.

Lemma static_table (l : Landmarks) (f : FingerStates) :
  In (firstMatch Static.rules l f) staticOutcomes.
Proof.
  unfold staticOutcomes, cls.
  destruct f as [[] [] [] [] []];
    cbv beta iota zeta delta [Static.rules
      app firstMatch when ret andb negb orb thumb index middle ring pinky
      extendedCount filter List.length Nat.eqb Static.onlyThumb
      Static.letterE Static.letterO Static.letterA Static.letterB Static.letterC
      Static.letterD Static.letterF Static.letterG Static.letterI Static.letterL
      Static.letterV Static.letterW Static.letterY Static.letterH Static.letterJ
      Static.letterK Static.letterM Static.letterN Static.letterP Static.letterQ
      Static.letterR Static.letterS Static.letterT Static.letterU Static.letterX
      Static.letterZ];
    rewrite ?Rltb_Rleb_negb;
    split_conditions; cbn [In negb] in *; try discriminate; in_table.
Qed.

Ltac dead_letters Htab :=
  cbv beta delta [motionOutcomes staticOutcomes cls] in Htab; cbn [In] in Htab;
  repeat (destruct Htab as [<- | Htab];
          [repeat (apply Forall_cons; [cbn [letter]; discriminate|]);
           apply Forall_nil|]);
  contradiction.

(** X3: what the motion-mode classifier can answer.  Its result is no
    letter with confidence 0, or one of 24 letters, each with one fixed
    confidence between 0.7 and 0.9.  Q and S are not among them: the Q
    block sits behind the L block, which takes every hand with only thumb
    and index extended, and the S block behind the O and A blocks. *)
Theorem motion_classifier_outcomes (l : Landmarks) :
  In (Motion.recognizeASL l) motionOutcomes
  /\ Forall (fun c => letter (Motion.recognizeASL l) <> Some c) motionDeadLetters.
Proof.
  pose proof (motion_table l (getFingerStates l)) as Htab.
  unfold Motion.recognizeASL. cbv zeta.
  split; [exact Htab|].
  revert Htab. generalize (firstMatch Motion.rules l (getFingerStates l)).
  intros c Htab. unfold motionDeadLetters. dead_letters Htab.
Qed.

(** X4: what the static classifier can answer.  Its result is no letter
    with confidence 0, or one of 16 letters with a fixed confidence.  Ten
    letters have a block that no hand reaches: X behind E (any fist),
    M, N, S and T behind O and A, Z behind D, J and Y behind I, P and Q
    behind G and L. *)
Theorem static_classifier_outcomes (l : Landmarks) :
  In (Static.recognizeASL l) staticOutcomes
  /\ Forall (fun c => letter (Static.recognizeASL l) <> Some c) staticDeadLetters.
Proof.
  pose proof (static_table l (getFingerStates l)) as Htab.
  unfold Static.recognizeASL. cbv zeta.
  split; [exact Htab|].
  revert Htab. generalize (firstMatch Static.rules l (getFingerStates l)).
  intros c Htab. unfold staticDeadLetters. dead_letters Htab.
Qed.

End Outcomes.

(** ** The text: frames and editing callbacks *)

Section Text.

Lemma dropLast_snoc (s : string) (c : ascii) :
  dropLast (s ++ String c "") = s.
Proof.
  induction s as [|a s IH]; cbn [append].
  - reflexivity.
  - remember (s ++ String c "")%string as r eqn:E.
    destruct r as [|b r].
    + destruct s; cbn [append] in E; discriminate E.
    + change (dropLast (String a (String b r)))
        with (String a (dropLast (String b r))).
      rewrite IH. reflexivity.
Qed.

Lemma dropLast_length (s : string) :
  String.length (dropLast s) = pred (String.length s).
Proof.
  induction s as [|a s IH]; cbn [dropLast].
  - reflexivity.
  - destruct s as [|b s']; [reflexivity|].
    cbn [String.length] in *. rewrite IH. reflexivity.
Qed.

Lemma append_cancel_l (s a b : string) :
  (s ++ a)%string = (s ++ b)%string -> a = b.
Proof.
  induction s as [|c s IH]; cbn [append]; intros H.
  - exact H.
  - apply IH. inversion H. reflexivity.
Qed.

Lemma append_empty_r (s a : string) : (s ++ a)%string = s -> a = ""%string.
Proof.
  induction s as [|c s IH]; cbn [append]; intros H.
  - exact H.
  - injection H as H'. exact (IH H').
Qed.

(** What one pass through the letter stream does to the text. *)
Lemma commitLetter_text (letter : option string) (confidence : R) (now : Z)
    (s : LetterStream) :
  detectedText (commitLetter letter confidence now s) = detectedText s
  \/ exists l, letter = Some l /\ l <> ""%string /\ 0.7 < confidence
       /\ (1200 < now - lastDetectionTime s)%Z
       /\ endsWith (detectedText s) l = false
       /\ detectedText (commitLetter letter confidence now s)
          = (detectedText s ++ l)%string.
Proof.
  unfold commitLetter. destruct letter as [l|]; [|left; reflexivity].
  destruct (negb (l =? "")%string && (confidence >? 0.7)
            && (now - lastDetectionTime s >? 1200)%Z) eqn:Hgate;
    [|left; reflexivity].
  apply gate_true in Hgate. destruct Hgate as (Hl & Hc & Ht).
  cbv zeta.
  destruct (forallb _ _); [|left; reflexivity].
  cbn [detectedText].
  destruct (endsWith (detectedText s) l) eqn:He; [left; reflexivity|].
  right. exists l. repeat split; assumption.
Qed.

Lemma commitLetter_keeps_empty_history (letter : option string) (confidence : R)
    (now : Z) (s : LetterStream) :
  detectionHistory s = [] ->
  detectionHistory (commitLetter letter confidence now s) = [].
Proof.
  intros Hh. unfold commitLetter. destruct letter as [l|]; [|exact Hh].
  destruct (negb (l =? "")%string && (confidence >? 0.7)
            && (now - lastDetectionTime s >? 1200)%Z); [|exact Hh].
  cbv zeta. rewrite Hh. cbn [app List.length Nat.ltb Nat.leb lastN Nat.sub skipn forallb].
  rewrite String.eqb_refl. reflexivity.
Qed.

Lemma motionAct_keeps_empty_history (mode : Motion.Mode) (s : Motion.State)
    (a : MotionAction) :
  detectionHistory (Motion.letters s) = [] ->
  detectionHistory (Motion.letters (motionAct mode s a)) = [].
Proof.
  intros Hh. destruct a; cbn [motionAct motionWithLetters Motion.letters
    clearText addSpace backspace detectionHistory]; try assumption; try reflexivity.
  rewrite onResults_letters.
  destruct (Motion.hasHands t); [|exact Hh].
  cbv zeta. apply commitLetter_keeps_empty_history. exact Hh.
Qed.

Lemma staticAct_keeps_empty_history (s : Static.State) (a : StaticAction) :
  detectionHistory (Static.letters s) = [] ->
  detectionHistory (Static.letters (staticAct s a)) = [].
Proof.
  intros Hh. destruct a; cbn [staticAct staticWithLetters Static.letters
    clearText addSpace backspace detectionHistory]; try assumption; try reflexivity.
  rewrite static_onResults_letters.
  destruct (Static.hasHands t && _); [|exact Hh].
  cbv zeta. apply commitLetter_keeps_empty_history. exact Hh.
Qed.

Lemma motionSession_snoc (mode : Motion.Mode) (actions : list MotionAction)
    (a : MotionAction) :
  motionSession mode (actions ++ [a])
  = motionAct mode (motionSession mode actions) a.
Proof. unfold motionSession. rewrite fold_left_app. reflexivity. Qed.

Lemma staticSession_snoc (actions : list StaticAction) (a : StaticAction) :
  staticSession (actions ++ [a]) = staticAct (staticSession actions) a.
Proof. unfold staticSession. rewrite fold_left_app. reflexivity. Qed.

Lemma motionSession_history (mode : Motion.Mode) (actions : list MotionAction) :
  detectionHistory (Motion.letters (motionSession mode actions)) = [].
Proof.
  induction actions as [|a actions IH] using rev_ind.
  - reflexivity.
  - rewrite motionSession_snoc. apply motionAct_keeps_empty_history. exact IH.
Qed.

Lemma staticSession_history (actions : list StaticAction) :
  detectionHistory (Static.letters (staticSession actions)) = [].
Proof.
  induction actions as [|a actions IH] using rev_ind.
  - reflexivity.
  - rewrite staticSession_snoc. apply staticAct_keeps_empty_history. exact IH.
Qed.

(** X5: the detection history never holds a letter between two events.
    Whatever frames arrive and whatever callbacks ([clearText], [addSpace],
    [backspace], [stop]) run, in either hook, [detectionHistoryRef] is
    empty again after each of them: a letter pushed onto the empty history
    is its own last-two window, so the stability test passes and the
    history is cleared in the same call. *)
Theorem session_history_always_empty
    (mode : Motion.Mode) (actions : list MotionAction)
    (staticActions : list StaticAction) :
  detectionHistory (Motion.letters (motionSession mode actions)) = []
  /\ detectionHistory (Static.letters (staticSession staticActions)) = [].
Proof.
  split; [apply motionSession_history | apply staticSession_history].
Qed.

Lemma classifier_letter_nonempty (c : Classification) (l : string) :
  oneLetter c -> letter c = Some l -> l <> ""%string.
Proof.
  intros [Hn | [a Ha]] Hl.
  - rewrite Hn in Hl. discriminate Hl.
  - rewrite Ha in Hl. inversion Hl. discriminate.
Qed.

Lemma motion_W_three_thumb_out :
  Motion.recognizeASL hand_three_thumb_out = cls "W" 0.9.
Proof.
  pose proof fingers_three_thumb_out as Hf.
  pose proof (three_fingers_chain hand_three_thumb_out) as H. cbv zeta in H.
  rewrite H by (rewrite Hf; reflexivity).
  rewrite letterC_far_index by (rewrite index_tip_three_thumb_out; lra).
  rewrite Hf. reflexivity.
Qed.

(** X6: in the motion-mode hook the two-frame stability test never holds a
    letter back.  In every state a session can reach, a frame with a hand
    whose classification has confidence above 0.7, more than 1200 ms after
    the last commit, is committed by that very call: the text ends with
    the letter, the time of the commit is recorded, the history is empty. *)
Theorem motion_session_commits_at_once
    (mode : Motion.Mode) (actions : list MotionAction) (t : Motion.Tick)
    (l : string) (cf : R) :
  let s := motionSession mode actions in
  Motion.hasHands t = true ->
  Motion.recognizeASL (nth 0 (Motion.multiHandLandmarks t) []) = cls l cf ->
  0.7 < cf ->
  (1200 < Motion.now t - lastDetectionTime (Motion.letters s))%Z ->
  Motion.letters (Motion.onResults mode s t)
  = {| detectionHistory := [];
       lastDetectionTime := Motion.now t;
       detectedText :=
         if endsWith (detectedText (Motion.letters s)) l
         then detectedText (Motion.letters s)
         else (detectedText (Motion.letters s) ++ l)%string |}.
Proof.
  cbv zeta. intros Hh Hc Hcf Ht.
  rewrite onResults_letters, Hh. cbv zeta. rewrite Hc.
  cbn [cls letter confidence].
  apply commitLetter_commit.
  apply commits_on_empty_history.
  - apply motionSession_history.
  - apply (classifier_letter_nonempty
             (Motion.recognizeASL (nth 0 (Motion.multiHandLandmarks t) []))).
    + apply motion_classifier_oneLetter.
    + rewrite Hc. reflexivity.
  - exact Hcf.
  - exact Ht.
Qed.

(** X6 on a session that typed a space and cleared the text, then sees
    [hand_three_thumb_out]: the W is in the text at once. *)
Lemma motion_session_commits_at_once_witness :
  Motion.letters
    (Motion.onResults Motion.motion
       (motionSession Motion.motion [MAddSpace; MClearText]) tick_W)
  = {| detectionHistory := []; lastDetectionTime := 5000; detectedText := "W" |}.
Proof.
  assert (Hh : Motion.hasHands tick_W = true) by reflexivity.
  assert (Hcf : 0.7 < 0.9) by lra.
  assert (Ht : (1200 < Motion.now tick_W
                       - lastDetectionTime
                           (Motion.letters
                              (motionSession Motion.motion [MAddSpace; MClearText])))%Z)
    by (cbn; lia).
  exact (motion_session_commits_at_once Motion.motion [MAddSpace; MClearText]
           tick_W "W" 0.9 Hh motion_W_three_thumb_out Hcf Ht).
Defined.

(** X7: [backspace] undoes [addSpace], and in general takes exactly the
    last character off the text (nothing off the empty text); neither
    callback touches the detection history or the time of the last
    commit. *)
Theorem backspace_takes_last_character (s : LetterStream) :
  backspace (addSpace s) = s
  /\ String.length (detectedText (backspace s)) = pred (String.length (detectedText s))
  /\ (exists tail, detectedText s = (detectedText (backspace s) ++ tail)%string)
  /\ detectionHistory (backspace s) = detectionHistory s
  /\ lastDetectionTime (backspace s) = lastDetectionTime s.
Proof.
  split; [|split; [|split; [|split]]].
  - destruct s as [h t txt]. unfold backspace, addSpace.
    cbn [detectionHistory lastDetectionTime detectedText].
    rewrite dropLast_snoc. reflexivity.
  - apply dropLast_length.
  - cbn [backspace detectedText].
    induction (detectedText s) as [|a txt IH].
    + exists ""%string. reflexivity.
    + cbn [dropLast]. destruct txt as [|b txt'].
      * exists (String a ""). reflexivity.
      * destruct IH as [tail IH]. exists tail. cbn [append]. rewrite <- IH.
        reflexivity.
  - reflexivity.
  - reflexivity.
Qed.

(** What one frame does to the text, in either hook. *)
Lemma frame_text_step (c : Classification) (now : Z) (s : LetterStream) :
  oneLetter c ->
  let s' := commitLetter (letter c) (confidence c) now s in
  detectedText s' = detectedText s
  \/ exists a : ascii,
       letter c = Some (String a "") /\ 0.7 < confidence c
       /\ endsWith (detectedText s) (String a "") = false
       /\ detectedText s' = (detectedText s ++ String a "")%string.
Proof.
  intros Hone. cbv zeta.
  destruct (commitLetter_text (letter c) (confidence c) now s)
    as [H | (l & Hl & _ & Hc & _ & He & Ht)]; [left; exact H|].
  right. destruct Hone as [Hn | [a Ha]].
  - rewrite Hn in Hl. discriminate Hl.
  - rewrite Ha in Hl. inversion Hl; subst l. exists a.
    repeat split; assumption.
Qed.

Lemma motion_text_step (mode : Motion.Mode) (s : Motion.State) (t : Motion.Tick) :
  let c := Motion.recognizeASL (nth 0 (Motion.multiHandLandmarks t) []) in
  let old := detectedText (Motion.letters s) in
  let new := detectedText (Motion.letters (Motion.onResults mode s t)) in
  new = old
  \/ exists a : ascii,
       letter c = Some (String a "") /\ 0.7 < confidence c
       /\ endsWith old (String a "") = false
       /\ new = (old ++ String a "")%string.
Proof.
  cbv zeta. rewrite onResults_letters.
  destruct (Motion.hasHands t); [|left; reflexivity].
  cbv zeta. apply frame_text_step. apply motion_classifier_oneLetter.
Qed.

Lemma static_text_step (s : Static.State) (t : Static.Tick) :
  let c := Static.recognizeASL (nth 0 (Static.multiHandLandmarks t) []) in
  let old := detectedText (Static.letters s) in
  let new := detectedText (Static.letters (Static.onResults s t)) in
  new = old
  \/ exists a : ascii,
       letter c = Some (String a "") /\ 0.7 < confidence c
       /\ endsWith old (String a "") = false
       /\ new = (old ++ String a "")%string.
Proof.
  cbv zeta. rewrite static_onResults_letters.
  destruct (Static.hasHands t && _); [|left; reflexivity].
  cbv zeta. apply frame_text_step. apply static_classifier_oneLetter.
Qed.

(** X8: a frame never doubles a letter.  One call of [onResults], in either
    hook and in any state, leaves the text as it is or adds exactly one
    character to its end, and that character differs from the one the text
    ended with: the same letter twice in a row cannot be entered by
    signing alone. *)
Theorem frame_appends_one_new_letter
    (mode : Motion.Mode) (s : Motion.State) (t : Motion.Tick)
    (s0 : Static.State) (t0 : Static.Tick) :
  (let old := detectedText (Motion.letters s) in
   let new := detectedText (Motion.letters (Motion.onResults mode s t)) in
   new = old
   \/ exists a : ascii,
        new = (old ++ String a "")%string /\ endsWith old (String a "") = false)
  /\ (let old := detectedText (Static.letters s0) in
      let new := detectedText (Static.letters (Static.onResults s0 t0)) in
      new = old
      \/ exists a : ascii,
           new = (old ++ String a "")%string /\ endsWith old (String a "") = false).
Proof.
  split; cbv zeta.
  - destruct (motion_text_step mode s t) as [H | (a & _ & _ & He & Hn)];
      [left; exact H | right; exists a; split; assumption].
  - destruct (static_text_step s0 t0) as [H | (a & _ & _ & He & Hn)];
      [left; exact H | right; exists a; split; assumption].
Qed.

(** X9: [backspace] undoes a committed letter.  If a call of [onResults]
    of the motion-mode hook changed the text, [backspace] right after it
    gives the text back as it was before the frame. *)
Theorem backspace_undoes_commit
    (mode : Motion.Mode) (s : Motion.State) (t : Motion.Tick) :
  detectedText (Motion.letters (Motion.onResults mode s t))
    <> detectedText (Motion.letters s) ->
  detectedText (backspace (Motion.letters (Motion.onResults mode s t)))
  = detectedText (Motion.letters s).
Proof.
  intros Hch. cbn [backspace detectedText].
  destruct (motion_text_step mode s t) as [H | (a & _ & _ & _ & Hn)].
  - contradiction.
  - cbv zeta in Hn. rewrite Hn. apply dropLast_snoc.
Qed.

Lemma letters_after_tick_W :
  Motion.letters (Motion.onResults Motion.motion Motion.initialState tick_W)
  = {| detectionHistory := []; lastDetectionTime := 5000; detectedText := "W" |}.
Proof.
  rewrite onResults_letters. cbn [Motion.hasHands tick_W Motion.multiHandLandmarks
    List.length Nat.ltb Nat.leb nth Motion.now]. cbv zeta.
  rewrite motion_W_three_thumb_out. cbn [cls letter confidence].
  rewrite commitLetter_commit.
  - reflexivity.
  - apply commits_on_empty_history; [reflexivity | discriminate | lra | cbn; lia].
Qed.

(** X9 on the first frame of a fresh hook showing [hand_three_thumb_out]:
    the frame types W, [backspace] empties the text again. *)
Lemma backspace_undoes_commit_witness :
  detectedText (Motion.letters (Motion.onResults Motion.motion Motion.initialState tick_W))
    = "W"%string
  /\ detectedText
       (backspace (Motion.letters (Motion.onResults Motion.motion Motion.initialState tick_W)))
     = ""%string.
Proof.
  split.
  - rewrite letters_after_tick_W. reflexivity.
  - apply (backspace_undoes_commit Motion.motion Motion.initialState tick_W).
    rewrite letters_after_tick_W. discriminate.
Defined.

(** X10: letters that signing cannot type.  In the motion-mode hook no
    frame, in any state, adds Q, S or Z to the text: Q and S are never
    returned by the classifier, and Z comes with confidence 0.7, which the
    commit test [confidence > 0.7] turns down.  In the static hook no frame
    adds any of J, M, N, P, Q, S, T, X, Y, Z. *)
Theorem untypable_letters
    (mode : Motion.Mode) (s : Motion.State) (t : Motion.Tick)
    (s0 : Static.State) (t0 : Static.Tick) :
  Forall
    (fun c =>
       detectedText (Motion.letters (Motion.onResults mode s t))
       <> (detectedText (Motion.letters s) ++ c)%string)
    motionUntypable
  /\ Forall
       (fun c =>
          detectedText (Static.letters (Static.onResults s0 t0))
          <> (detectedText (Static.letters s0) ++ c)%string)
       staticDeadLetters.
Proof.
  split.
  - pose proof (motion_table (nth 0 (Motion.multiHandLandmarks t) [])
                  (getFingerStates (nth 0 (Motion.multiHandLandmarks t) [])))
      as Htab.
    destruct (motion_text_step mode s t) as [H | (a & Hl & Hc & _ & Hn)];
      cbv zeta in *.
    + unfold motionUntypable.
      repeat (apply Forall_cons;
              [intros E; rewrite H in E; symmetry in E;
               apply append_empty_r in E; discriminate E|]).
      apply Forall_nil.
    + unfold Motion.recognizeASL in Hl, Hc. cbv zeta in Hl, Hc.
      revert Htab Hl Hc.
      generalize (firstMatch Motion.rules (nth 0 (Motion.multiHandLandmarks t) [])
                    (getFingerStates (nth 0 (Motion.multiHandLandmarks t) []))).
      intros c Htab Hl Hc.
      unfold motionUntypable.
      repeat (apply Forall_cons;
              [intros E; rewrite Hn in E; apply append_cancel_l in E;
               rewrite E in Hl;
               unfold motionOutcomes, cls in Htab; cbn [In] in Htab;
               repeat (destruct Htab as [<- | Htab];
                       [cbn [letter confidence] in Hl, Hc;
                        first [discriminate Hl | lra]|]);
               contradiction|]).
      apply Forall_nil.
  - pose proof (static_table (nth 0 (Static.multiHandLandmarks t0) [])
                  (getFingerStates (nth 0 (Static.multiHandLandmarks t0) [])))
      as Htab.
    destruct (static_text_step s0 t0) as [H | (a & Hl & Hc & _ & Hn)];
      cbv zeta in *.
    + unfold staticDeadLetters.
      repeat (apply Forall_cons;
              [intros E; rewrite H in E; symmetry in E;
               apply append_empty_r in E; discriminate E|]).
      apply Forall_nil.
    + unfold Static.recognizeASL in Hl, Hc. cbv zeta in Hl, Hc.
      revert Htab Hl Hc.
      generalize (firstMatch Static.rules (nth 0 (Static.multiHandLandmarks t0) [])
                    (getFingerStates (nth 0 (Static.multiHandLandmarks t0) []))).
      intros c Htab Hl Hc.
      unfold staticDeadLetters.
      repeat (apply Forall_cons;
              [intros E; rewrite Hn in E; apply append_cancel_l in E;
               rewrite E in Hl;
               unfold staticOutcomes, cls in Htab; cbn [In] in Htab;
               repeat (destruct Htab as [<- | Htab];
                       [cbn [letter confidence] in Hl, Hc;
                        first [discriminate Hl | lra]|]);
               contradiction|]).
      apply Forall_nil.
Qed.

Lemma commitLetter_cooling (letter : option string) (confidence : R) (now : Z)
    (s : LetterStream) :
  (now - lastDetectionTime s <= 1200)%Z ->
  commitLetter letter confidence now s = s.
Proof.
  intros Hsoon. unfold commitLetter. destruct letter as [l|]; [|reflexivity].
  replace (now - lastDetectionTime s >? 1200)%Z with false
    by (symmetry; rewrite Z.gtb_ltb; apply Z.ltb_ge; lia).
  rewrite andb_false_r. reflexivity.
Qed.

(** X11: after a commit the letter stream rests for 1200 ms.  Calls of
    [onResults] that come no later than 1200 ms after the recorded time of
    the last commit leave the text, the detection history and that time
    exactly as they were, whatever hands they show, in the motion-mode
    hook and in the static hook. *)
Theorem letters_rest_after_commit
    (mode : Motion.Mode) (s : Motion.State) (later : list Motion.Tick)
    (s0 : Static.State) (later0 : list Static.Tick) :
  Forall (fun t => (Motion.now t - lastDetectionTime (Motion.letters s) <= 1200)%Z)
    later ->
  Forall (fun t => (Static.now t - lastDetectionTime (Static.letters s0) <= 1200)%Z)
    later0 ->
  Motion.letters (Motion.run mode s later) = Motion.letters s
  /\ Static.letters (Static.run s0 later0) = Static.letters s0.
Proof.
  intros Hm Hs. split.
  - induction later as [|t later IH] using rev_ind; [reflexivity|].
    apply Forall_app in Hm. destruct Hm as [Hm Ht].
    inversion Ht as [|? ? Hsoon _]; subst.
    rewrite run_snoc, onResults_letters, (IH Hm).
    destruct (Motion.hasHands t); [|reflexivity].
    cbv zeta. apply commitLetter_cooling. exact Hsoon.
  - induction later0 as [|t later0 IH] using rev_ind; [reflexivity|].
    apply Forall_app in Hs. destruct Hs as [Hs Ht].
    inversion Ht as [|? ? Hsoon _]; subst.
    rewrite static_run_snoc, static_onResults_letters, (IH Hs).
    destruct (Static.hasHands t && _); [|reflexivity].
    cbv zeta. apply commitLetter_cooling. exact Hsoon.
Qed.

(** X11 after the W typed at 5000 ms: a thumb-only hand shown at 5600 ms
    and at 6200 ms types nothing; nor does a hand shown to a fresh static
    hook within its first 1200 ms. *)
Lemma letters_rest_after_commit_witness :
  let s := Motion.onResults Motion.motion Motion.initialState tick_W in
  let later :=
    [Motion.mkTick [hand_thumb_boundary] [] 5600 5600;
     Motion.mkTick [hand_thumb_boundary] [] 6200 6200] in
  let later0 :=
    [Static.mkTick [hand_thumb_boundary] 400;
     Static.mkTick [hand_thumb_boundary] 800;
     Static.mkTick [hand_thumb_boundary] 1200] in
  Motion.letters (Motion.run Motion.motion s later) = Motion.letters s
  /\ Static.letters (Static.run Static.initialState later0)
     = Static.letters Static.initialState.
Proof.
  cbv zeta.
  apply letters_rest_after_commit.
  - rewrite letters_after_tick_W.
    repeat (apply Forall_cons; [cbn; lia|]). apply Forall_nil.
  - repeat (apply Forall_cons; [cbn; lia|]). apply Forall_nil.
Defined.

Lemma noDoubledLetter_cons (a b : ascii) (r : string) :
  noDoubledLetter (String a (String b r))
  = (negb (Ascii.eqb a b) || Ascii.eqb a " ") && noDoubledLetter (String b r).
Proof. reflexivity. Qed.

Lemma endsWith_one (c a : ascii) :
  endsWith (String c "") (String a "") = Ascii.eqb c a.
Proof.
  cbn [endsWith String.eqb].
  destruct (Ascii.eqb c a); reflexivity.
Qed.

Lemma noDoubledLetter_new (s : string) (a : ascii) :
  noDoubledLetter s = true ->
  endsWith s (String a "") = false ->
  noDoubledLetter (s ++ String a "") = true.
Proof.
  induction s as [|c s IH]; intros Hs He.
  - reflexivity.
  - destruct s as [|d r].
    + cbn [append]. rewrite noDoubledLetter_cons.
      rewrite endsWith_one in He. rewrite He. reflexivity.
    + cbn [append] in *. rewrite noDoubledLetter_cons in Hs |- *.
      apply andb_true_iff in Hs. destruct Hs as [Hcd Hr].
      rewrite Hcd. cbn [andb]. apply IH; [exact Hr|].
      cbn [endsWith] in He. apply orb_false_iff in He. destruct He as [_ He].
      exact He.
Qed.

Lemma noDoubledLetter_space (s : string) :
  noDoubledLetter s = true -> noDoubledLetter (s ++ " ") = true.
Proof.
  induction s as [|c s IH]; intros Hs.
  - reflexivity.
  - destruct s as [|d r].
    + cbn [append]. rewrite noDoubledLetter_cons.
      destruct (Ascii.eqb c " ") eqn:E.
      * rewrite orb_true_r. reflexivity.
      * reflexivity.
    + cbn [append] in *. rewrite noDoubledLetter_cons in Hs |- *.
      apply andb_true_iff in Hs. destruct Hs as [Hcd Hr].
      rewrite Hcd. cbn [andb]. apply IH. exact Hr.
Qed.

Lemma noDoubledLetter_dropLast (s : string) :
  noDoubledLetter s = true -> noDoubledLetter (dropLast s) = true.
Proof.
  induction s as [|c s IH]; intros Hs.
  - reflexivity.
  - destruct s as [|d r]; [reflexivity|].
    rewrite noDoubledLetter_cons in Hs.
    apply andb_true_iff in Hs. destruct Hs as [Hcd Hr].
    change (dropLast (String c (String d r)))
      with (String c (dropLast (String d r))).
    specialize (IH Hr).
    destruct r as [|e r']; [reflexivity|].
    change (dropLast (String d (String e r')))
      with (String d (dropLast (String e r'))) in IH |- *.
    rewrite noDoubledLetter_cons, Hcd. exact IH.
Qed.

Lemma motionAct_noDoubledLetter (mode : Motion.Mode) (s : Motion.State)
    (a : MotionAction) :
  noDoubledLetter (detectedText (Motion.letters s)) = true ->
  noDoubledLetter (detectedText (Motion.letters (motionAct mode s a))) = true.
Proof.
  intros H. destruct a as [t| | | |];
    cbn [motionAct motionWithLetters Motion.letters clearText addSpace
           backspace detectedText].
  - destruct (motion_text_step mode s t) as [E | (c & _ & _ & He & E)];
      cbv zeta in *; rewrite E; [exact H|].
    apply noDoubledLetter_new; assumption.
  - reflexivity.
  - apply noDoubledLetter_space. exact H.
  - apply noDoubledLetter_dropLast. exact H.
  - exact H.
Qed.

Lemma staticAct_noDoubledLetter (s : Static.State) (a : StaticAction) :
  noDoubledLetter (detectedText (Static.letters s)) = true ->
  noDoubledLetter (detectedText (Static.letters (staticAct s a))) = true.
Proof.
  intros H. destruct a as [t| | | |];
    cbn [staticAct staticWithLetters Static.letters clearText addSpace
           backspace detectedText].
  - destruct (static_text_step s t) as [E | (c & _ & _ & He & E)];
      cbv zeta in *; rewrite E; [exact H|].
    apply noDoubledLetter_new; assumption.
  - reflexivity.
  - apply noDoubledLetter_space. exact H.
  - apply noDoubledLetter_dropLast. exact H.
  - exact H.
Qed.

(** X12: no word with a doubled letter can be entered.  In every session
    of either hook, whatever frames arrive and however [addSpace],
    [backspace], [clearText] and [stop] are used in between, no character
    of the text is followed by the same character, unless it is a space. *)
Theorem no_doubled_letter_in_any_session
    (mode : Motion.Mode) (actions : list MotionAction)
    (staticActions : list StaticAction) :
  noDoubledLetter (detectedText (Motion.letters (motionSession mode actions))) = true
  /\ noDoubledLetter (detectedText (Static.letters (staticSession staticActions)))
     = true.
Proof.
  split.
  - induction actions as [|a actions IH] using rev_ind; [reflexivity|].
    rewrite motionSession_snoc. apply motionAct_noDoubledLetter. exact IH.
  - induction staticActions as [|a staticActions IH] using rev_ind; [reflexivity|].
    rewrite staticSession_snoc. apply staticAct_noDoubledLetter. exact IH.
Qed.

(** C4, against both hooks: a single detection commits.  In every state
    a session of either hook can reach, the history that the stability
    test reads holds, after the push, the new letter and nothing else, so
    the test over its last two entries compares the letter with itself:
    a classification with confidence above 0.7 that comes more than
    1200 ms after the last commit is committed at once, where a commit is
    documented to need two identical qualifying entries. *)
Theorem C4_single_detection_commits
    (mode : Motion.Mode) (actions : list MotionAction)
    (staticActions : list StaticAction)
    (s : LetterStream) (l : string) (confidence : R) (now : Z) :
  s = Motion.letters (motionSession mode actions)
  \/ s = Static.letters (staticSession staticActions) ->
  l <> ""%string -> 0.7 < confidence -> (1200 < now - lastDetectionTime s)%Z ->
  historyAfterPush l s = [l]
  /\ commitLetter (Some l) confidence now s
     = {| detectionHistory := [];
          lastDetectionTime := now;
          detectedText :=
            if endsWith (detectedText s) l then detectedText s
            else (detectedText s ++ l)%string |}.
Proof.
  intros Hs Hl Hc Ht.
  assert (Hh : detectionHistory s = []).
  { destruct Hs as [-> | ->];
      [apply motionSession_history | apply staticSession_history]. }
  split.
  - unfold historyAfterPush. rewrite Hh. reflexivity.
  - apply commitLetter_commit. apply commits_on_empty_history; assumption.
Qed.

(** C4 at a fresh motion-mode hook: the first frame, showing
    [hand_three_thumb_out] at 5000 ms, is read as W with confidence 0.9;
    the history after the push is that one W, and the text is W when the
    call returns. *)
Lemma C4_witness :
  historyAfterPush "W" (Motion.letters Motion.initialState) = ["W"%string]
  /\ commitLetter (Some "W"%string) 0.9 5000 (Motion.letters Motion.initialState)
     = {| detectionHistory := []; lastDetectionTime := 5000; detectedText := "W" |}
  /\ Motion.recognizeASL hand_three_thumb_out = cls "W" 0.9
  /\ Motion.letters (Motion.onResults Motion.motion Motion.initialState tick_W)
     = {| detectionHistory := []; lastDetectionTime := 5000; detectedText := "W" |}.
Proof.
  assert (Hs : Motion.letters Motion.initialState
               = Motion.letters (motionSession Motion.motion [])
               \/ Motion.letters Motion.initialState
                  = Static.letters (staticSession []))
    by (left; reflexivity).
  assert (Hl : "W"%string <> ""%string) by discriminate.
  assert (Hc : 0.7 < 0.9) by lra.
  assert (Ht : (1200 < 5000 - lastDetectionTime (Motion.letters Motion.initialState))%Z)
    by (cbn; lia).
  destruct (C4_single_detection_commits Motion.motion [] []
              (Motion.letters Motion.initialState) "W" 0.9 5000 Hs Hl Hc Ht)
    as [Hpush Hcommit].
  split; [exact Hpush | split; [exact Hcommit | split]].
  - exact motion_W_three_thumb_out.
  - exact letters_after_tick_W.
Defined.

End Text.

(** ** Presence of the hand: when [isHandStableRef] changes *)

Section PresenceLaws.

Lemma static_presence_step (ticks : list Static.Tick) (t : Static.Tick) :
  isHandStable (Static.presence (Static.run Static.initialState (ticks ++ [t])))
  = if (5 <=? trailingRun false (map Static.hasHands (ticks ++ [t])))%nat then false
    else if (3 <=? trailingRun true (map Static.hasHands (ticks ++ [t])))%nat then true
    else isHandStable (Static.presence (Static.run Static.initialState ticks)).
Proof.
  destruct (static_presence_counts ticks) as [Hd Hl]. cbv zeta in Hd, Hl.
  rewrite static_run_snoc, static_onResults_presence, map_app. cbn [map].
  rewrite !trailingRun_snoc, <- Hd, <- Hl.
  destruct (Static.hasHands t);
    cbn [countFrame settle handDetectedFrames handLostFrames isHandStable
           Bool.eqb Nat.leb]; reflexivity.
Qed.

(** X13: the static hook's presence flag, frame by frame.  From the
    initial state and after any frames, the next frame sets
    [isHandStableRef] to [false] if it is at least the fifth in a row
    without a hand, to [true] if it is at least the third in a row with a
    hand, and leaves it as it was otherwise. *)
Theorem static_presence_law (ticks : list Static.Tick) (t : Static.Tick) :
  let before := isHandStable (Static.presence (Static.run Static.initialState ticks)) in
  let after :=
    isHandStable (Static.presence (Static.run Static.initialState (ticks ++ [t]))) in
  let hs := map Static.hasHands (ticks ++ [t]) in
  after = if (5 <=? trailingRun false hs)%nat then false
          else if (3 <=? trailingRun true hs)%nat then true
          else before.
Proof. cbv zeta. apply static_presence_step. Qed.

(** X14: the motion-mode hook's presence flag, frame by frame.  From the
    initial state and after any frames, the next frame sets
    [isHandStableRef] to [false] if it is at least the fifth in a row
    without a hand, to [true] already if it is the second in a row with a
    hand (the frame counter there advances by two per frame), and leaves
    it as it was otherwise. *)
Theorem motion_presence_law
    (mode : Motion.Mode) (ticks : list Motion.Tick) (t : Motion.Tick) :
  let before :=
    isHandStable (Motion.presence (Motion.run mode Motion.initialState ticks)) in
  let after :=
    isHandStable
      (Motion.presence (Motion.run mode Motion.initialState (ticks ++ [t]))) in
  let hs := map Motion.hasHands (ticks ++ [t]) in
  after = if (5 <=? trailingRun false hs)%nat then false
          else if (2 <=? trailingRun true hs)%nat then true
          else before.
Proof.
  cbv zeta.
  destruct (motion_presence_counts mode ticks) as [Hd Hl]. cbv zeta in Hd, Hl.
  rewrite run_snoc, onResults_presence, map_app. cbn [map].
  rewrite !trailingRun_snoc, <- Hl. cbv zeta.
  destruct (Motion.hasHands t);
    cbn [countFrame settle handDetectedFrames handLostFrames isHandStable
           Bool.eqb Nat.leb]; [|reflexivity].
  rewrite Hd.
  destruct (trailingRun true (map Motion.hasHands ticks)) as [|k];
    [reflexivity|].
  replace (2 * S k)%nat with (S (S (2 * k))) by lia. reflexivity.
Qed.

Lemma static_silent_step (s : Static.State) (t : Static.Tick) :
  isHandStable (Static.presence (Static.onResults s t)) = false ->
  Static.letters (Static.onResults s t) = Static.letters s
  /\ Static.detectionResult (Static.onResults s t) = stoppedResult.
Proof.
  rewrite static_onResults_presence. intros Hu.
  unfold Static.onResults. cbv zeta. rewrite Hu, andb_false_r.
  split; reflexivity.
Qed.

Lemma firstn_snoc_short {A : Type} (k : nat) (l : list A) (x : A) :
  (k <= List.length l)%nat -> firstn k (l ++ [x]) = firstn k l.
Proof.
  intros Hk. rewrite firstn_app.
  replace (k - List.length l)%nat with 0%nat by lia.
  cbn [firstn]. apply app_nil_r.
Qed.

(** X15: the static hook types nothing before a third frame in a row
    shows a hand.  From the initial state, as long as the frames never
    had a hand three times in a row, the text is empty, the detection
    history and the commit time are untouched and the detection result
    names no letter and no hand, whatever the frames showed. *)
Theorem static_silent_before_third_frame (ticks : list Static.Tick) :
  (forall k, (trailingRun true (map Static.hasHands (firstn k ticks)) < 3)%nat) ->
  Static.letters (Static.run Static.initialState ticks)
    = Static.letters Static.initialState
  /\ Static.detectionResult (Static.run Static.initialState ticks) = stoppedResult.
Proof.
  intros Hnever.
  assert (Hinv :
    isHandStable (Static.presence (Static.run Static.initialState ticks)) = false
    /\ Static.letters (Static.run Static.initialState ticks)
       = Static.letters Static.initialState
    /\ Static.detectionResult (Static.run Static.initialState ticks) = stoppedResult).
  { induction ticks as [|t ticks IH] using rev_ind.
    - repeat split.
    - assert (Hbefore : forall k,
                (trailingRun true (map Static.hasHands (firstn k ticks)) < 3)%nat).
      { intros k. destruct (Nat.le_gt_cases k (List.length ticks)) as [Hk | Hk].
        - rewrite <- (firstn_snoc_short k ticks t Hk). apply Hnever.
        - rewrite firstn_all2 by lia.
          rewrite <- (firstn_all ticks) at 1.
          rewrite <- (firstn_snoc_short (List.length ticks) ticks t (le_n _)).
          apply Hnever. }
      destruct (IH Hbefore) as (Hu & Hl & Hr).
      assert (Hafter :
        isHandStable
          (Static.presence (Static.run Static.initialState (ticks ++ [t]))) = false).
      { rewrite static_presence_step, Hu.
        pose proof (Hnever (List.length (ticks ++ [t]))) as Hlast.
        rewrite firstn_all in Hlast.
        destruct (5 <=? _)%nat; [reflexivity|].
        replace (3 <=? trailingRun true (map Static.hasHands (ticks ++ [t])))%nat
          with false by (symmetry; apply Nat.leb_gt; exact Hlast).
        reflexivity. }
      split; [exact Hafter|].
      rewrite static_run_snoc in Hafter |- *.
      destruct (static_silent_step _ t Hafter) as [Hl' Hr'].
      rewrite Hl', Hr'. split; [exact Hl | reflexivity]. }
  destruct Hinv as (_ & Hl & Hr). split; assumption.
Qed.

(** X15 on a fresh static hook shown a hand twice, nothing once, and a
    hand twice again. *)
Lemma static_silent_before_third_frame_witness :
  let ticks :=
    [Static.mkTick [hand_three_thumb_out] 2000;
     Static.mkTick [hand_three_thumb_out] 4000;
     Static.mkTick [] 6000;
     Static.mkTick [hand_three_thumb_out] 8000;
     Static.mkTick [hand_three_thumb_out] 10000] in
  Static.letters (Static.run Static.initialState ticks)
    = Static.letters Static.initialState
  /\ Static.detectionResult (Static.run Static.initialState ticks) = stoppedResult.
Proof.
  cbv zeta. apply static_silent_before_third_frame.
  intros k.
  unfold trailingRun, Static.hasHands.
  do 5 (destruct k as [|k];
        [cbn [firstn map rev app leadingRun Static.multiHandLandmarks
                List.length Nat.ltb Nat.leb Bool.eqb]; lia|]).
  cbn [firstn]. rewrite firstn_nil.
  cbn [map rev app leadingRun Static.multiHandLandmarks
         List.length Nat.ltb Nat.leb Bool.eqb]; lia.
Defined.

(** X16: mode ['static'] of the motion-mode hook is not a letters-only
    mode.  The [mode] argument is read in one place, the face cue: a call
    of [onResults] in mode ['static'] does exactly what the same call does
    in mode ['motion'] when no face is tracked, gesture detectors, frame
    buffer and timer included. *)
Theorem static_mode_still_detects_gestures (s : Motion.State) (t : Motion.Tick) :
  Motion.onResults Motion.static s t
  = Motion.onResults Motion.motion s (withoutFace t).
Proof.
  unfold Motion.onResults, withoutFace, Motion.hasHands, Motion.faceCueOf.
  cbn [Motion.multiHandLandmarks Motion.multiFaceLandmarks Motion.motionNow
         Motion.now].
  reflexivity.
Qed.

End PresenceLaws.

(** ** The detection cycle *)

Section Cycle.
Import Motion.

Lemma lastN_lastN {A : Type} (k n : nat) (a : list A) :
  (k <= n)%nat -> lastN k (lastN n a) = lastN k a.
Proof.
  intros Hkn.
  destruct (Nat.le_gt_cases (List.length a) n) as [Hshort | Hlong].
  - rewrite (lastN_all n a Hshort). reflexivity.
  - assert (E : firstn (List.length a - n) a ++ lastN n a = a)
      by (unfold lastN; apply firstn_skipn).
    replace (lastN k a) with (lastN k (firstn (List.length a - n) a ++ lastN n a))
      by (rewrite E; reflexivity).
    symmetry. apply lastN_app_long.
    rewrite lastN_length. lia.
Qed.

Lemma lastN_short_test {A : Type} (k n : nat) (a : list A) :
  (k <= n)%nat ->
  (List.length (lastN n a) <? k)%nat = (List.length a <? k)%nat.
Proof.
  intros Hkn. rewrite lastN_length.
  destruct (List.length a <? k)%nat eqn:E.
  - apply Nat.ltb_lt in E. apply Nat.ltb_lt. lia.
  - apply Nat.ltb_ge in E. apply Nat.ltb_ge. lia.
Qed.

(** A detector with a window of at most ten frames reads the last ten. *)
Ltac reads_last_ten :=
  intros;
  match goal with |- ?d _ = _ => unfold d | |- ?d _ _ = _ => unfold d end;
  rewrite lastN_short_test by lia; rewrite lastN_lastN by lia; reflexivity.

Lemma wave_last_ten (frames : list MotionFrame) :
  detectWaveMotion frames = detectWaveMotion (lastN 10 frames).
Proof. reads_last_ten. Qed.

Lemma thankYou_last_ten (face : FaceDetectionState) (frames : list MotionFrame) :
  detectThankYouMotion face frames = detectThankYouMotion face (lastN 10 frames).
Proof. reads_last_ten. Qed.

Lemma please_last_ten (frames : list MotionFrame) :
  detectPleaseMotion frames = detectPleaseMotion (lastN 10 frames).
Proof. reads_last_ten. Qed.

Lemma help_last_ten (frames : list MotionFrame) :
  detectHelpMotion frames = detectHelpMotion (lastN 10 frames).
Proof. reads_last_ten. Qed.

Lemma love_last_ten (frames : list MotionFrame) :
  detectLoveMotion frames = detectLoveMotion (lastN 10 frames).
Proof. reads_last_ten. Qed.

Lemma sorry_last_ten (frames : list MotionFrame) :
  detectSorryMotion frames = detectSorryMotion (lastN 10 frames).
Proof. reads_last_ten. Qed.

Lemma yes_last_ten (frames : list MotionFrame) :
  detectYesMotion frames = detectYesMotion (lastN 10 frames).
Proof. reads_last_ten. Qed.

Lemma no_last_ten (frames : list MotionFrame) :
  detectNoMotion frames = detectNoMotion (lastN 10 frames).
Proof. reads_last_ten. Qed.

(** X17: the detection cycle reads only the ten newest frames.  The
    buffer keeps up to twenty, but the eight detectors and the chain over
    them give the same answer on any buffer as on its last ten frames. *)
Theorem gestureCycle_reads_last_ten
    (face : FaceDetectionState) (frames : list MotionFrame) :
  gestureCycle face frames = gestureCycle face (lastN 10 frames).
Proof.
  unfold gestureCycle.
  rewrite (wave_last_ten frames), (thankYou_last_ten face frames),
    (please_last_ten frames), (help_last_ten frames), (love_last_ten frames),
    (sorry_last_ten frames), (yes_last_ten frames), (no_last_ten frames).
  reflexivity.
Qed.

(** What a detector returns when it returns a pattern. *)
Ltac pattern_inv H :=
  match type of H with
  | ?d _ = _ => unfold d in H
  | ?d _ _ = _ => unfold d in H
  end;
  cbv zeta in H;
  match type of H with
  | (if (List.length ?fr <? ?k)%nat then _ else _) = _ =>
      destruct (List.length fr <? k)%nat eqn:Hlen in H; [discriminate H|];
      apply Nat.ltb_ge in Hlen
  end;
  repeat match type of H with
  | (let '(_, _) := ?e in _) = _ => destruct e
  | (if ?b then _ else _) = _ => destruct b
  end;
  try discriminate H; inversion H; subst; clear H.

Lemma wave_pattern (frames : list MotionFrame) (p : MotionPattern) :
  detectWaveMotion frames = Some p ->
  p = mkPattern hello true 0.8 /\ (8 <= List.length frames)%nat.
Proof. intros H. pattern_inv H. split; [reflexivity | assumption]. Qed.

Lemma thankYou_pattern (face : FaceDetectionState) (frames : list MotionFrame)
    (p : MotionPattern) :
  detectThankYouMotion face frames = Some p ->
  (p = mkPattern thank_you true 0.9 \/ p = mkPattern thank_you true 0.8)
  /\ (6 <= List.length frames)%nat.
Proof.
  intros H. pattern_inv H; (split; [|assumption]);
    [left; reflexivity | right; reflexivity].
Qed.

Lemma please_pattern (frames : list MotionFrame) (p : MotionPattern) :
  detectPleaseMotion frames = Some p ->
  p = mkPattern please true 0.85 /\ (10 <= List.length frames)%nat.
Proof. intros H. pattern_inv H. split; [reflexivity | assumption]. Qed.

Lemma help_pattern (frames : list MotionFrame) (p : MotionPattern) :
  detectHelpMotion frames = Some p ->
  p = mkPattern help true 0.7 /\ (6 <= List.length frames)%nat.
Proof. intros H. pattern_inv H. split; [reflexivity | assumption]. Qed.

Lemma love_pattern (frames : list MotionFrame) (p : MotionPattern) :
  detectLoveMotion frames = Some p ->
  p = mkPattern love true 0.7 /\ (4 <= List.length frames)%nat.
Proof. intros H. pattern_inv H. split; [reflexivity | assumption]. Qed.

Lemma sorry_pattern (frames : list MotionFrame) (p : MotionPattern) :
  detectSorryMotion frames = Some p ->
  p = mkPattern sorry true 0.85 /\ (8 <= List.length frames)%nat.
Proof. intros H. pattern_inv H. split; [reflexivity | assumption]. Qed.

Lemma yes_pattern (frames : list MotionFrame) (p : MotionPattern) :
  detectYesMotion frames = Some p ->
  p = mkPattern yes true 0.8 /\ (10 <= List.length frames)%nat.
Proof. intros H. pattern_inv H. split; [reflexivity | assumption]. Qed.

Lemma no_pattern (frames : list MotionFrame) (p : MotionPattern) :
  detectNoMotion frames = Some p ->
  p = mkPattern no true 0.8 /\ (3 <= List.length frames)%nat.
Proof. intros H. pattern_inv H. split; [reflexivity | assumption]. Qed.

Lemma cycle_hello_thanks_yes :
  gestureCycle noFace buffer_hello_thanks_yes = Some ("HELLO"%string, 0.8).
Proof. apply gestureCycle_hello. exact wave_on_buffer. Qed.

(** X18: what the detection cycle can report.  A reported gesture is one
    of eight words, each with its fixed confidence (THANK YOU with 0.9
    when it started at the chin, 0.8 otherwise), and the buffer then holds
    at least as many frames as the detector of that word asks for: 3 for
    NO, 4 for LOVE, 6 for THANK YOU and HELP, 8 for HELLO and SORRY, 10 for
    PLEASE and YES. *)
Theorem gesture_report_table
    (face : FaceDetectionState) (frames : list MotionFrame) (g : string) (c : R) :
  gestureCycle face frames = Some (g, c) ->
  exists n, In (g, c, n) gestureTable /\ (n <= List.length frames)%nat.
Proof.
  unfold gestureCycle, arbitrate, gestureTable. intros H.
  destruct (detectWaveMotion frames) as [p|] eqn:E1.
  { apply wave_pattern in E1. destruct E1 as [-> Hn].
    cbn [fired conf detected p_confidence] in H. inversion H; subst.
    exists 8%nat. split; [cbn [In]; tauto | exact Hn]. }
  destruct (detectThankYouMotion face frames) as [p|] eqn:E2.
  { apply thankYou_pattern in E2. destruct E2 as [[-> | ->] Hn];
      cbn [fired conf detected p_confidence] in H; inversion H; subst;
      exists 6%nat; (split; [cbn [In]; tauto | exact Hn]). }
  destruct (detectPleaseMotion frames) as [p|] eqn:E3.
  { apply please_pattern in E3. destruct E3 as [-> Hn].
    cbn [fired conf detected p_confidence] in H. inversion H; subst.
    exists 10%nat. split; [cbn [In]; tauto | exact Hn]. }
  destruct (detectHelpMotion frames) as [p|] eqn:E4.
  { apply help_pattern in E4. destruct E4 as [-> Hn].
    cbn [fired conf detected p_confidence] in H. inversion H; subst.
    exists 6%nat. split; [cbn [In]; tauto | exact Hn]. }
  destruct (detectLoveMotion frames) as [p|] eqn:E5.
  { apply love_pattern in E5. destruct E5 as [-> Hn].
    cbn [fired conf detected p_confidence] in H. inversion H; subst.
    exists 4%nat. split; [cbn [In]; tauto | exact Hn]. }
  destruct (detectSorryMotion frames) as [p|] eqn:E6.
  { apply sorry_pattern in E6. destruct E6 as [-> Hn].
    cbn [fired conf detected p_confidence andb negb] in H. inversion H; subst.
    exists 8%nat. split; [cbn [In]; tauto | exact Hn]. }
  destruct (detectYesMotion frames) as [p|] eqn:E7.
  { apply yes_pattern in E7. destruct E7 as [-> Hn].
    cbn [fired conf detected p_confidence andb negb] in H. inversion H; subst.
    exists 10%nat. split; [cbn [In]; tauto | exact Hn]. }
  destruct (detectNoMotion frames) as [p|] eqn:E8.
  { apply no_pattern in E8. destruct E8 as [-> Hn].
    cbn [fired conf detected p_confidence andb negb] in H. inversion H; subst.
    exists 3%nat. split; [cbn [In]; tauto | exact Hn]. }
  cbn [fired andb] in H. discriminate H.
Qed.

(** X18 on [buffer_hello_thanks_yes], which reports HELLO from ten
    frames. *)
Lemma gesture_report_table_witness :
  exists n, In ("HELLO"%string, 0.8, n) gestureTable
            /\ (n <= List.length buffer_hello_thanks_yes)%nat.
Proof.
  exact (gesture_report_table noFace buffer_hello_thanks_yes "HELLO" 0.8
           cycle_hello_thanks_yes).
Defined.

(** *** A gesture once reported *)

Lemma quiet_while_recent (mode : Mode) (s : State) (t' : Tick) (t0 : Z) :
  lastMotionTime s = t0 ->
  (motionNow t' - t0 <= 2000)%Z ->
  runsDetectors s t' = false.
Proof.
  intros Hlast Hsoon. unfold runsDetectors. rewrite Hlast.
  replace (motionNow t' - t0 >? 2000)%Z with false
    by (symmetry; rewrite Z.gtb_ltb; apply Z.ltb_ge; lia).
  apply andb_false_r.
Qed.

(** X19: a reported gesture stays for two seconds.  When a call of
    [onResults] reports a gesture, it empties the frame buffer and sets
    the timer to the time of the call; through any later calls up to
    2000 ms after it the detectors do not run, so the reported gesture and
    the timer stay as that call left them. *)
Theorem gesture_stays_two_seconds
    (mode : Mode) (s : State) (t : Tick) (later : list Tick) :
  runsDetectors s t = true ->
  motionDetected (motionDetectionResult (onResults mode s t)) = true ->
  Forall (fun t' => (motionNow t' - motionNow t <= 2000)%Z) later ->
  motionFrames (onResults mode s t) = []
  /\ motionDetectionResult (run mode (onResults mode s t) later)
     = motionDetectionResult (onResults mode s t)
  /\ lastMotionTime (run mode (onResults mode s t) later) = motionNow t.
Proof.
  intros Hrun Hmatch Hlater.
  assert (Hgate : hasHands t = true
                  /\ (motionNow t - lastMotionTime s >? 2000)%Z = true)
    by (apply andb_true_iff; exact Hrun).
  destruct Hgate as [Hh Hg].
  assert (Hcycle : exists g cf,
             gestureCycle (faceCueOf mode t)
               (pushFrame (motionFrames s)
                  (motionFrameOf (motionNow t) (nth 0 (multiHandLandmarks t) [])))
             = Some (g, cf)).
  { rewrite onResults_motionDetectionResult, Hrun in Hmatch. cbv zeta in Hmatch.
    destruct (gestureCycle _ _) as [[g cf]|]; [|discriminate Hmatch].
    exists g, cf. reflexivity. }
  destruct Hcycle as (g & cf & Hcycle).
  assert (Hlast : lastMotionTime (onResults mode s t) = motionNow t).
  { rewrite onResults_lastMotionTime, Hrun. cbv zeta. rewrite Hcycle. reflexivity. }
  split.
  { rewrite onResults_motionFrames, Hh, Hg. cbv zeta. rewrite Hcycle. reflexivity. }
  induction later as [|t' later IH] using rev_ind.
  - split; [reflexivity | exact Hlast].
  - apply Forall_app in Hlater. destruct Hlater as [Hlater Ht'].
    inversion Ht' as [|? ? Hsoon _]; subst.
    destruct (IH Hlater) as [IHr IHl].
    rewrite run_snoc.
    rewrite onResults_motionDetectionResult, onResults_lastMotionTime.
    rewrite (quiet_while_recent mode _ t' (motionNow t) IHl Hsoon).
    split; [exact IHr | exact IHl].
Qed.

(** X19 on the run that builds [buffer_hello_thanks_yes]: the tenth call
    reports HELLO at 3450 ms; a call without a hand at 4000 ms and a call
    with a hand at 5450 ms leave the report in place. *)
Lemma gesture_stays_two_seconds_witness :
  let before := run motion initialState (firstn 9 ticks_hello_thanks_yes) in
  let t := nth 9 ticks_hello_thanks_yes (mkTick [] [] 0 0) in
  let later :=
    [mkTick [] [] 4000 4000; mkTick [hand_three_thumb_out] [] 5450 5450] in
  motionFrames (onResults motion before t) = []
  /\ motionDetectionResult (run motion (onResults motion before t) later)
     = motionDetectionResult (onResults motion before t)
  /\ lastMotionTime (run motion (onResults motion before t) later) = motionNow t.
Proof.
  cbv zeta.
  destruct (run_hello_thanks_yes motion) as (Hrun & _ & Hres). cbv zeta in Hrun.
  apply gesture_stays_two_seconds.
  - exact Hrun.
  - change ticks_hello_thanks_yes
      with (firstn 9 ticks_hello_thanks_yes
              ++ [nth 9 ticks_hello_thanks_yes (mkTick [] [] 0 0)]) in Hres at 1.
    rewrite run_snoc in Hres. rewrite Hres. reflexivity.
  - unfold ticks_hello_thanks_yes. cbn [nth motionNow].
    repeat (apply Forall_cons; [cbn [motionNow]; lia|]). apply Forall_nil.
Defined.

(** *** A hand that does not move *)

Lemma In_skipn {A : Type} (n : nat) (l : list A) (x : A) :
  In x (skipn n l) -> In x l.
Proof.
  revert l. induction n as [|n IH]; intros l H.
  - exact H.
  - destruct l as [|a l]; [exact H|]. right. apply IH. exact H.
Qed.

Lemma all_eq_repeat {A : Type} (l : list A) (p : A) :
  (forall x, In x l -> x = p) -> l = repeat p (List.length l).
Proof.
  induction l as [|a l IH]; intros H; cbn [List.length repeat].
  - reflexivity.
  - rewrite (H a) by (left; reflexivity). f_equal.
    apply IH. intros x Hx. apply H. right; exact Hx.
Qed.

Lemma still_centers (k : nat) (frames : list MotionFrame) (p : Pt.t) :
  (forall f, In f frames -> handCenter f = p) ->
  (k <= List.length frames)%nat ->
  map handCenter (lastN k frames) = repeat p k.
Proof.
  intros Hstill Hk.
  rewrite (all_eq_repeat (map handCenter (lastN k frames)) p).
  - rewrite length_map, lastN_length. f_equal. lia.
  - intros x Hx. apply in_map_iff in Hx. destruct Hx as (f & <- & Hf).
    apply Hstill. unfold lastN in Hf. apply In_skipn in Hf. exact Hf.
Qed.

Lemma fold_left_fixed {A B : Type} (f : A -> B -> A) (l : list B) (a : A) :
  (forall i, In i l -> f a i = a) -> fold_left f l a = a.
Proof.
  induction l as [|x l IH]; intros H; cbn [fold_left].
  - reflexivity.
  - rewrite (H x) by (left; reflexivity).
    apply IH. intros i Hi. apply H. right; exact Hi.
Qed.

Lemma normalizeAngle_0 : normalizeAngle 0 = 0.
Proof. pose proof PI_RGT_0. apply normalizeAngle_id. lra. Qed.

(** Enter a detector on a buffer of frames with one hand centre. *)
Ltac still_window Hstill k :=
  match goal with
  | |- ?d _ = None => unfold d
  | |- ?d _ _ = None => unfold d
  end;
  match goal with
  | |- (if (List.length ?fr <? _)%nat then _ else _) = _ =>
      let E := fresh "E" in
      destruct (List.length fr <? k)%nat eqn:E; [reflexivity|];
      apply Nat.ltb_ge in E; cbv zeta;
      rewrite (still_centers k fr _ Hstill E)
  end;
  cbn [repeat List.length Nat.sub seq lm_at nth Pt.x Pt.y].

(** The loop of a detector leaves its accumulator where it started. *)
Ltac still_loop :=
  match goal with
  | |- context [fold_left ?f ?l ?a] =>
      rewrite (fold_left_fixed f l a);
      [| let i := fresh "i" in
         let Hin := fresh "Hin" in
         intros i Hin; cbn [In] in Hin;
         repeat (destruct Hin as [<- | Hin];
                 [cbn [lm_at nth Nat.sub Pt.x Pt.y];
                  rewrite ?Rminus_diag, ?normalizeAngle_0, ?Rabs_R0, ?Rplus_0_r;
                  Rdecide; reflexivity|]);
         contradiction]
  end.

(** The comparisons that fail when nothing moved. *)
Ltac still_tests :=
  rewrite ?Rminus_diag, ?Rabs_R0;
  repeat match goal with
         | |- context [Rltb ?a ?b] =>
             rewrite (Rltb_false a b)
               by (unfold Rabs; repeat destruct Rcase_abs; lra)
         end;
  cbn [andb orb existsb Nat.leb]; rewrite ?andb_false_r; cbn [andb orb].

Lemma still_wave (frames : list MotionFrame) (p : Pt.t) :
  (forall f, In f frames -> handCenter f = p) -> detectWaveMotion frames = None.
Proof.
  intros Hstill. still_window Hstill 8%nat.
  still_tests. reflexivity.
Qed.

Lemma still_thankYou (face : FaceDetectionState) (frames : list MotionFrame)
    (p : Pt.t) :
  (forall f, In f frames -> handCenter f = p) ->
  detectThankYouMotion face frames = None.
Proof.
  intros Hstill. still_window Hstill 6%nat.
  still_tests. reflexivity.
Qed.

Lemma still_please (frames : list MotionFrame) (p : Pt.t) :
  (forall f, In f frames -> handCenter f = p) -> detectPleaseMotion frames = None.
Proof.
  intros Hstill. pose proof PI_RGT_0 as Hpi. still_window Hstill 10%nat.
  still_loop. still_tests. reflexivity.
Qed.

Lemma still_help (frames : list MotionFrame) (p : Pt.t) :
  (forall f, In f frames -> handCenter f = p) -> detectHelpMotion frames = None.
Proof.
  intros Hstill. still_window Hstill 6%nat.
  still_tests. reflexivity.
Qed.

Lemma still_love (frames : list MotionFrame) (p : Pt.t) :
  (forall f, In f frames -> handCenter f = p) -> detectLoveMotion frames = None.
Proof.
  intros Hstill. still_window Hstill 4%nat.
  generalize (averageX [p; p; p; p]) (averageY [p; p; p; p]). intros cx cy.
  cbn [existsb lm_at nth Nat.sub Pt.x Pt.y]. still_tests. reflexivity.
Qed.

Lemma still_sorry (frames : list MotionFrame) (p : Pt.t) :
  (forall f, In f frames -> handCenter f = p) -> detectSorryMotion frames = None.
Proof.
  intros Hstill. pose proof PI_RGT_0 as Hpi. still_window Hstill 8%nat.
  generalize (averageY [p; p; p; p; p; p; p; p]). intros cy.
  still_loop. still_tests. reflexivity.
Qed.

Lemma still_yes (frames : list MotionFrame) (p : Pt.t) :
  (forall f, In f frames -> handCenter f = p) -> detectYesMotion frames = None.
Proof.
  intros Hstill. still_window Hstill 10%nat.
  still_loop. still_tests. reflexivity.
Qed.

(** X20: a hand that does not move signs at most NO.  On a buffer of
    frames with 21 landmarks each that all have the same hand centre,
    seven of the eight detectors match nothing, whatever the hand shapes
    are; the detection cycle reports nothing or NO, which is read off the
    finger states of the last three frames alone. *)
Theorem still_hand_reports_at_most_no
    (face : FaceDetectionState) (frames : list MotionFrame) (p : Pt.t) :
  (forall f, In f frames -> List.length (landmarks f) = 21%nat) ->
  (forall f, In f frames -> handCenter f = p) ->
  gestureCycle face frames = None
  \/ gestureCycle face frames = Some ("NO"%string, 0.8).
Proof.
  intros _ Hstill. unfold gestureCycle.
  rewrite (still_wave frames p Hstill), (still_thankYou face frames p Hstill),
    (still_please frames p Hstill), (still_help frames p Hstill),
    (still_love frames p Hstill), (still_sorry frames p Hstill),
    (still_yes frames p Hstill).
  unfold arbitrate. cbn [fired andb].
  destruct (detectNoMotion frames) as [q|] eqn:E.
  - apply no_pattern in E. destruct E as [-> _]. right. reflexivity.
  - left. reflexivity.
Qed.

(** X20 on [buffer_still_fist], ten frames of a fist held still. *)
Lemma still_hand_reports_at_most_no_witness :
  gestureCycle noFace buffer_still_fist = None
  \/ gestureCycle noFace buffer_still_fist = Some ("NO"%string, 0.8).
Proof.
  apply (still_hand_reports_at_most_no noFace buffer_still_fist (Pt.mk 0.6 0.3)).
  - intros f Hf. unfold buffer_still_fist in Hf. cbn [map In] in Hf.
    repeat (destruct Hf as [<- | Hf]; [reflexivity|]). contradiction.
  - intros f Hf. unfold buffer_still_fist in Hf. cbn [map In] in Hf.
    repeat (destruct Hf as [<- | Hf]; [apply center_fist|]). contradiction.
Defined.

(** *** What the detectors read of a frame *)

Lemma landmarks_frame_at (frames : list MotionFrame) (i : nat) :
  landmarks (frame_at frames i) = nth i (map landmarks frames) [].
Proof.
  unfold frame_at.
  change (@nil Landmark) with (landmarks (mkFrame 0 (Pt.mk 0 0) "" [])) at 2.
  symmetry. apply map_nth.
Qed.

Lemma filter_map_length {A B : Type} (f : A -> B) (g : B -> bool) (l : list A) :
  List.length (filter (fun x => g (f x)) l) = List.length (filter g (map f l)).
Proof.
  induction l as [|a l IH]; cbn [filter map].
  - reflexivity.
  - destruct (g (f a)); cbn [List.length]; rewrite IH; reflexivity.
Qed.

Lemma no_count (frames : list MotionFrame) :
  List.length
    (filter
       (fun frame =>
          let f := getFingerStates (landmarks frame) in
          thumb f && index f && middle f && negb (ring f) && negb (pinky f))
       frames)
  = List.length
      (filter
         (fun l =>
            let f := getFingerStates l in
            thumb f && index f && middle f && negb (ring f) && negb (pinky f))
         (map landmarks frames)).
Proof.
  exact (filter_map_length landmarks
           (fun l => let f := getFingerStates l in
                     thumb f && index f && middle f && negb (ring f)
                     && negb (pinky f)) frames).
Qed.

Section SameMotion.
Variables a b : list MotionFrame.
Hypothesis Hcenters : map handCenter a = map handCenter b.
Hypothesis Hlandmarks : map landmarks a = map landmarks b.

Lemma same_length : List.length a = List.length b.
Proof.
  rewrite <- (length_map handCenter a), <- (length_map handCenter b), Hcenters.
  reflexivity.
Qed.

Ltac same_frames :=
  match goal with
  | |- ?d _ = _ => unfold d
  | |- ?d _ _ = _ => unfold d
  end;
  unfold isFlatHandFrame, isFistFrame;
  rewrite ?landmarks_frame_at, ?map_lastN, same_length, Hcenters, ?Hlandmarks;
  reflexivity.

Lemma same_wave : detectWaveMotion a = detectWaveMotion b.
Proof. same_frames. Qed.

Lemma same_thankYou (face : FaceDetectionState) :
  detectThankYouMotion face a = detectThankYouMotion face b.
Proof. same_frames. Qed.

Lemma same_please : detectPleaseMotion a = detectPleaseMotion b.
Proof. same_frames. Qed.

Lemma same_help : detectHelpMotion a = detectHelpMotion b.
Proof. same_frames. Qed.

Lemma same_love : detectLoveMotion a = detectLoveMotion b.
Proof. same_frames. Qed.

Lemma same_sorry : detectSorryMotion a = detectSorryMotion b.
Proof. same_frames. Qed.

Lemma same_yes : detectYesMotion a = detectYesMotion b.
Proof. same_frames. Qed.

Lemma same_no : detectNoMotion a = detectNoMotion b.
Proof.
  unfold detectNoMotion.
  rewrite !no_count, !map_lastN, same_length, Hlandmarks. reflexivity.
Qed.

Lemma same_cycle (face : FaceDetectionState) :
  gestureCycle face a = gestureCycle face b.
Proof.
  unfold gestureCycle.
  rewrite same_wave, (same_thankYou face), same_please, same_help, same_love,
    same_sorry, same_yes, same_no.
  reflexivity.
Qed.

End SameMotion.

(** X21: neither the pace nor the recognised letters enter gesture
    detection.  The detectors read the hand centres and the landmarks of
    the frames and nothing else: the time stamp and the shape label that
    [onResults] stores in every frame can be replaced at will without
    changing what the detection cycle reports. *)
Theorem gestureCycle_ignores_time_and_shape
    (face : FaceDetectionState) (time : MotionFrame -> Z)
    (shape : MotionFrame -> string) (frames : list MotionFrame) :
  gestureCycle face (map (relabel time shape) frames) = gestureCycle face frames.
Proof.
  apply same_cycle; rewrite map_map; reflexivity.
Qed.

End Cycle.

(** ** The text panel and the application shell *)

Section Shell.

Lemma In_firstn_list {A : Type} (n : nat) (l : list A) (x : A) :
  In x (firstn n l) -> In x l.
Proof.
  revert l. induction n as [|n IH]; intros l H.
  - contradiction.
  - destruct l as [|a l]; [contradiction|].
    destruct H as [H | H]; [left; exact H | right; apply IH; exact H].
Qed.

Lemma handleClear_keeps (history : list string) (s : LetterStream) :
  (List.length history <= 10)%nat /\ Forall (fun t => t <> ""%string) history ->
  (List.length (fst (handleClear history s)) <= 10)%nat
  /\ Forall (fun t => t <> ""%string) (fst (handleClear history s)).
Proof.
  intros [Hlen Hne]. unfold handleClear. cbn [fst].
  destruct (detectedText s =? "")%string eqn:E; [split; assumption|].
  apply String.eqb_neq in E. split.
  - rewrite length_firstn. lia.
  - apply Forall_forall. intros t Ht. apply In_firstn_list in Ht.
    destruct Ht as [<- | Ht]; [exact E|].
    rewrite Forall_forall in Hne. apply Hne. exact Ht.
Qed.

Lemma clearedTexts_kept (streams : list LetterStream) :
  (List.length (clearedTexts streams) <= 10)%nat
  /\ Forall (fun t => t <> ""%string) (clearedTexts streams).
Proof.
  unfold clearedTexts.
  induction streams as [|s streams IH] using rev_ind.
  - split; [cbn; lia | constructor].
  - rewrite fold_left_app. cbn [fold_left].
    apply handleClear_keeps. exact IH.
Qed.

(** X22: the list of cleared texts.  Whatever texts [handleClear] is run
    on, the list it keeps never holds more than ten entries and never an
    empty text; and running [handleClear] a second time right away changes
    nothing, since the text is empty by then. *)
Theorem handleClear_history
    (streams : list LetterStream) (history : list string) (s : LetterStream) :
  (List.length (clearedTexts streams) <= 10)%nat
  /\ Forall (fun t => t <> ""%string) (clearedTexts streams)
  /\ handleClear (fst (handleClear history s)) (snd (handleClear history s))
     = handleClear history s.
Proof.
  split; [|split].
  - apply clearedTexts_kept.
  - apply clearedTexts_kept.
  - unfold handleClear. cbn [fst snd clearText detectedText detectionHistory
      lastDetectionTime]. reflexivity.
Qed.

(** X23: the screen shown agrees with the address.  From the first render
    at any address and through any sequence of mode choices, returns to
    the selector and back or forward moves of the browser, the mode held in
    [detectionMode] is the one [getInitialMode] reads off the current
    address, so reloading the page shows the same screen. *)
Theorem screen_agrees_with_address (path : string) (events : list App.Event) :
  let s := fold_left App.step events (App.start path) in
  App.detectionMode s = App.getInitialMode (App.pathname s).
Proof.
  cbv zeta. induction events as [|e events IH] using rev_ind.
  - reflexivity.
  - rewrite fold_left_app. cbn [fold_left].
    destruct e as [[|] | | p]; reflexivity.
Qed.

End Shell.

(** ** Angles *)

Section Geometry.
Import Motion.

(** X25: the angle loops of the please and sorry detectors.  The
    difference of two [Math.atan2] angles, after the two loops that add or
    take off a full turn, lies between -PI and PI and differs from the
    raw difference by no turn or by exactly one. *)
Theorem normalizeAngle_range (y1 x1 y2 x2 : R) :
  let d := atan2 y1 x1 - atan2 y2 x2 in
  - PI <= normalizeAngle d <= PI
  /\ (normalizeAngle d = d
      \/ normalizeAngle d = d - 2 * PI
      \/ normalizeAngle d = d + 2 * PI).
Proof.
  cbv zeta.
  pose proof PI_RGT_0 as Hpi.
  pose proof (atan2_bound y1 x1) as [H1l H1u].
  pose proof (atan2_bound y2 x2) as [H2l H2u].
  unfold normalizeAngle. cbv zeta. unfold Rltb.
  destruct (Rlt_dec PI (atan2 y1 x1 - atan2 y2 x2)) as [Hhi | Hhi].
  - destruct (Rlt_dec (atan2 y1 x1 - atan2 y2 x2 - 2 * PI) (- PI)); split; lra.
  - destruct (Rlt_dec (atan2 y1 x1 - atan2 y2 x2) (- PI)); split; lra.
Qed.

End Geometry.
